(** * Cyberdeck controller: bus arbitration, encoder decoding and the
      servo position model

    A shallow embedding of the Python sources

      - [unified_cyberdeck_controller.py]   (module [Unified])
      - [servo_control/screen_tilt/fixed_servo_init.py]   (module [FixedServoInit])
      - [servo_control/screen_tilt/mux_aware_servo.py]    (module [MuxAwareServo])
      - [oled_display/mux_resilient_oled.py]              (module [ResilientOLED])
      - [servo_control/screen_tilt/screen_tilt_control.py] (module [ScreenTilt])

    and the properties of the specification established against them.

    Modelling conventions.
      - Python numbers read from JSON ([center_angle], [sensitivity], angles,
        [time.time()] readings in seconds) are rationals [Q]; Python [==] on
        numbers is [Qeq].  Rounding of IEEE doubles is not modelled.
      - Objects are records, attribute assignment is a functional update,
        [self] is threaded explicitly.
      - The I2C bus, the servo driver and the state file are an explicit
        [World]: a scripted list of outcomes decides whether the next
        hardware operation returns or raises, and every operation is
        appended to a trace.
      - A Python exception leaving a function is the [Raised] result, which
        still carries the state reached before the exception.
      - Locks ([mux_lock], [servo_lock], [bus_lock]) protect code that is
        run here by one sequential caller; they are omitted. *)

From stdpp Require Import base strings gmap.
From Stdlib Require Import ZArith QArith Qminmax Qround Lia Lqa Bool List.
Import ListNotations.

Local Open Scope Z_scope.

(* ===================================================================== *)
(** * Python arithmetic *)
(* ===================================================================== *)

(** [max(a, b)]: the first argument unless the second is strictly greater. *)
Definition py_max (a b : Q) : Q := if Qle_bool b a then a else b.

(** [min(a, b)]: the first argument unless the second is strictly smaller. *)
Definition py_min (a b : Q) : Q := if Qle_bool a b then a else b.

(** The clamping idiom of the sources: [max(lo, min(hi, x))]. *)
Definition clamp (lo hi x : Q) : Q := py_max lo (py_min hi x).

(** [int(x)] on a float: truncation toward zero. *)
Definition py_int (x : Q) : Z := Z.quot (Qnum x) (Z.pos (Qden x)).


(** Numeric inequality [a != b]. *)
Definition py_ne (a b : Q) : bool := negb (Qeq_bool a b).

(* ===================================================================== *)
(** * Exceptions and results *)
(* ===================================================================== *)

Inductive exn : Type :=
| KeyError (key : string)
| ValueError
| ZeroDivisionError
| OSError.

(** The result of running a method on state [S]: it returns [a] or an
    exception escapes; both carry the state that was reached. *)
Inductive result (A S : Type) : Type :=
| Done (a : A) (s : S)
| Raised (e : exn) (s : S).
Arguments Done {A S} a s.
Arguments Raised {A S} e s.

Definition final {A S} (r : result A S) : S :=
  match r with Done _ s => s | Raised _ s => s end.

(* ===================================================================== *)
(** * The hardware world *)
(* ===================================================================== *)

Inductive io_event : Type :=
| MuxWrite (addr mask : Z) (ok : bool)       (* bus.write_byte(addr, mask) *)
| ServoWrite (servo : Z) (angle : Q) (ok : bool) (* kit.servo[servo].angle = angle *)
| Sleep (seconds : Q)                        (* time.sleep(seconds) *)
| SaveState (angle : Q) (mode : string) (ok : bool) (* json.dump to the state file *)
| OledDisplay (ok : bool).                   (* oled_device.display(image) *)

(** [mux_reg] is the control register of the multiplexer (the mask last
    written with success; [None] before any write).  [script] holds the
    outcomes of the coming hardware operations, [true] for an operation
    that returns and [false] for one that raises; an exhausted script lets
    every further operation succeed.  [trace] lists what was done, oldest
    first. *)
Record World : Type := mkWorld {
  mux_reg : option Z;
  script : list bool;
  trace : list io_event
}.

Definition outcome (w : World) : bool :=
  match script w with [] => true | b :: _ => b end.

Definition consume (w : World) : list bool :=
  match script w with [] => [] | _ :: s => s end.

(** [bus.write_byte(addr, value)] (opening and closing the bus included
    where the source does so around the write).  Every [write_byte] of the
    sources addresses the multiplexer; a write that raises leaves its
    register as it was. *)
Definition bus_write_byte (addr value : Z) (w : World) : bool * World :=
  let ok := outcome w in
  (ok, {| mux_reg := if ok then Some value else mux_reg w;
          script := consume w;
          trace := trace w ++ [MuxWrite addr value ok] |}).

(** [kit.servo[servo].angle = angle]. *)
Definition servo_write (servo : Z) (angle : Q) (w : World) : bool * World :=
  let ok := outcome w in
  (ok, {| mux_reg := mux_reg w;
          script := consume w;
          trace := trace w ++ [ServoWrite servo angle ok] |}).

(** [time.sleep(seconds)]. *)
Definition sleep (seconds : Q) (w : World) : World :=
  {| mux_reg := mux_reg w; script := script w;
     trace := trace w ++ [Sleep seconds] |}.

(** [oled_device.display(image)]. *)
Definition oled_display (w : World) : bool * World :=
  let ok := outcome w in
  (ok, {| mux_reg := mux_reg w;
          script := consume w;
          trace := trace w ++ [OledDisplay ok] |}).

(** Writing the state file. *)
Definition write_state_file (angle : Q) (mode : string) (w : World) : bool * World :=
  let ok := outcome w in
  (ok, {| mux_reg := mux_reg w;
          script := consume w;
          trace := trace w ++ [SaveState angle mode ok] |}).

(** The channel-select writes of a trace: all attempts, and the completed
    ones. *)
Definition is_mux_write (e : io_event) : bool :=
  match e with MuxWrite _ _ _ => true | _ => false end.

Definition is_completed_mux_write (e : io_event) : bool :=
  match e with MuxWrite _ _ ok => ok | _ => false end.

Definition mux_attempts (t : list io_event) : nat :=
  length (filter is_mux_write t).

Definition mux_completed (t : list io_event) : nat :=
  length (filter is_completed_mux_write t).

(** The events a run appended to the trace of the world it started in. *)
Definition new_events (w w' : World) : list io_event :=
  skipn (length (trace w)) (trace w').

(** [1 << channel]; Python raises [ValueError] for a negative shift. *)
Definition shl1 (channel : Z) : option Z :=
  if channel <? 0 then None else Some (Z.shiftl 1 channel).

(* ===================================================================== *)
(** * Configuration and persisted state *)
(* ===================================================================== *)

(** An entry of [config['modes']]: the [range] entry carries its own
    limits. *)
Record ModeConfig : Type := mkMode {
  sensitivity : Q;
  mode_min_angle : option Q;
  mode_max_angle : option Q
}.

Record Config : Type := mkConfig {
  cfg_servo_channel : Z;
  default_mode : string;
  modes : gmap string ModeConfig;
  min_angle : Q;
  max_angle : Q;
  center_angle : Q
}.

(** The dictionary read from [position_state.json]; [{}] when the file is
    absent. *)
Record PersistedState : Type := mkPersisted {
  last_position : option Q;
  saved_mode : option string
}.

Definition dict_get {A} (o : option A) (default : A) : A :=
  match o with Some a => a | None => default end.

(** [config['modes'][name]] *)
Definition lookup_mode (c : Config) (name : string) : exn + ModeConfig :=
  match modes c !! name with
  | Some m => inr m
  | None => inl (KeyError name)
  end.

(** [max(rc['min_angle'], min(rc['max_angle'], x))] for the [range] entry. *)
Definition clamp_range (rc : ModeConfig) (x : Q) : exn + Q :=
  match mode_min_angle rc with
  | None => inl (KeyError "min_angle")
  | Some lo =>
      match mode_max_angle rc with
      | None => inl (KeyError "max_angle")
      | Some hi => inr (clamp lo hi x)
      end
  end.

(* ===================================================================== *)
(** * unified_cyberdeck_controller.py *)
(* ===================================================================== *)

Module Unified.

Definition MUX_ADDRESS : Z := 0x70.
Definition OLED_CHANNEL : Z := 0.
Definition SERVO_CHANNEL : Z := 1.

(** [EncoderEvent(type, value)]; [value] defaults to 0. *)
Record EncoderEvent : Type := mkEvent {
  ev_type : string;
  ev_value : Z
}.

Definition rotation (d : Z) : EncoderEvent := mkEvent "rotation" d.
Definition click : EncoderEvent := mkEvent "click" 0.
Definition long_press : EncoderEvent := mkEvent "long_press" 0.
Definition double_click : EncoderEvent := mkEvent "double_click" 0.

(** The attributes of [UnifiedCyberdeckController] that the bus, servo and
    event code reads or writes.  [mux_bus] and [servo_kit] record whether
    the attribute holds an object ([true]) or [None]. *)
Record Controller : Type := mkController {
  config : Config;
  mux_bus : bool;
  current_mux_channel : option Z;
  servo_kit : bool;
  servo_channel : Z;
  current_angle : Q;
  encoder_pos : Z;
  mode : string;
  encoder_queue : list EncoderEvent
}.

Definition set_current_mux_channel (self : Controller) (c : option Z) : Controller :=
  mkController (config self) (mux_bus self) c (servo_kit self)
    (servo_channel self) (current_angle self) (encoder_pos self) (mode self)
    (encoder_queue self).

Definition set_current_angle (self : Controller) (a : Q) : Controller :=
  mkController (config self) (mux_bus self) (current_mux_channel self)
    (servo_kit self) (servo_channel self) a (encoder_pos self) (mode self)
    (encoder_queue self).

Definition set_encoder_pos (self : Controller) (p : Z) : Controller :=
  mkController (config self) (mux_bus self) (current_mux_channel self)
    (servo_kit self) (servo_channel self) (current_angle self) p (mode self)
    (encoder_queue self).

Definition set_encoder_queue (self : Controller) (q : list EncoderEvent) : Controller :=
  mkController (config self) (mux_bus self) (current_mux_channel self)
    (servo_kit self) (servo_channel self) (current_angle self)
    (encoder_pos self) (mode self) q.

(** [self.current_mux_channel == channel] *)
Definition on_channel (self : Controller) (channel : Z) : bool :=
  match current_mux_channel self with
  | Some c => c =? channel
  | None => false
  end.

(** [switch_mux_channel]: [True] at once without a multiplexer or when the
    cached channel is the requested one; otherwise one [write_byte], the
    cache updated and 2 ms of stabilisation on success, [False] when the
    write (or the shift) raises. *)
Definition switch_mux_channel (self : Controller) (channel : Z) (w : World)
  : bool * Controller * World :=
  if negb (mux_bus self) then (true, self, w)
  else if on_channel self channel then (true, self, w)
  else
    match shl1 channel with
    | None => (false, self, w)
    | Some mask =>
        let (ok, w1) := bus_write_byte MUX_ADDRESS mask w in
        if ok
        then (true, set_current_mux_channel self (Some channel), sleep (2 # 1000) w1)
        else (false, self, w1)
    end.

(** The block "switch to servo channel, update, switch back" of
    [update_servo_angle]: the device write only happens inside a
    successful switch, and the [finally] clause switches back whatever the
    write did. *)
Definition servo_scoped_write (self : Controller) (w : World) : Controller * World :=
  let '(ok, self1, w1) := switch_mux_channel self SERVO_CHANNEL w in
  if ok then
    let (_, w2) := servo_write (servo_channel self1) (current_angle self1) w1 in
    let '(_, self3, w3) := switch_mux_channel self1 OLED_CHANNEL w2 in
    (self3, w3)
  else (self1, w1).

(** The limits applied by [update_servo_angle]. *)
Definition apply_limits (self : Controller) (new_angle : Q) : exn + Q :=
  if String.eqb (mode self) "range" then
    match lookup_mode (config self) "range" with
    | inl e => inl e
    | inr range_config => clamp_range range_config new_angle
    end
  else inr (clamp (min_angle (config self)) (max_angle (config self)) new_angle).

Definition update_servo_angle (self : Controller) (delta : Z) (w : World)
  : result unit (Controller * World) :=
  if negb (servo_kit self) then Done tt (self, w)
  else
    match lookup_mode (config self) (mode self) with
    | inl e => Raised e (self, w)
    | inr m =>
        let sens := sensitivity m in
        let self := set_encoder_pos self (encoder_pos self + delta) in
        let new_angle :=
          (center_angle (config self) + inject_Z (encoder_pos self) * sens)%Q in
        match apply_limits self new_angle with
        | inl e => Raised e (self, w)
        | inr new_angle =>
            if py_ne new_angle (current_angle self)
            then Done tt (servo_scoped_write (set_current_angle self new_angle) w)
            else Done tt (self, w)
        end
    end.

(** [save_state]: a failure to write the file is caught and printed. *)
Definition save_state (self : Controller) (w : World) : Controller * World :=
  (self, snd (write_state_file (current_angle self) (mode self) w)).

(** One iteration of the loop of [process_encoder_events] on the event
    taken from the queue. *)
Definition handle_event (self : Controller) (event : EncoderEvent) (w : World)
  : result unit (Controller * World) :=
  if String.eqb (ev_type event) "rotation" then
    update_servo_angle self (ev_value event) w
  else if String.eqb (ev_type event) "click" then
    update_servo_angle (set_encoder_pos self 0) 0 w
  else if String.eqb (ev_type event) "long_press" then
    Done tt (save_state self w)
  else Done tt (self, w).

(** [process_encoder_events]: [get_nowait] until [Empty]; an exception
    other than [Empty] leaves the loop with the rest still queued. *)
Fixpoint drain (queue : list EncoderEvent) (self : Controller) (w : World)
  : result unit (Controller * World) :=
  match queue with
  | [] => Done tt (self, w)
  | event :: rest =>
      match handle_event (set_encoder_queue self rest) event w with
      | Done _ (self', w') => drain rest self' w'
      | Raised e sw => Raised e sw
      end
  end.

Definition process_encoder_events (self : Controller) (w : World)
  : result unit (Controller * World) :=
  drain (encoder_queue self) self w.

(** [update_oled_frame], as far as the bus is concerned: the frame is only
    pushed on the display channel.  [oled] tells whether a display and an
    animation exist; the push is a device operation that may raise and is
    caught. *)
Definition update_oled_frame (oled : bool) (self : Controller) (w : World)
  : Controller * World :=
  if negb oled then (self, w)
  else
    let '(ok, self1, w1) := switch_mux_channel self OLED_CHANNEL w in
    if ok then (self1, snd (oled_display w1)) else (self1, w1).

(** One pass of the main loop of [run]: events, then the frame.  An
    exception of the event phase is caught by the loop, which skips the
    frame of that pass.  The pacing sleeps are left out. *)
Definition tick (oled : bool) (self : Controller) (w : World) : Controller * World :=
  match process_encoder_events self w with
  | Done _ (self1, w1) => update_oled_frame oled self1 w1
  | Raised _ sw => sw
  end.

(** The attributes as [__init__] seeds them from the loaded state;
    [have_mux] and [have_servo] tell whether [init_multiplexer] and
    [init_servo] found their device. *)
Definition seed (cfg : Config) (state : PersistedState) (have_mux have_servo : bool)
  : Controller :=
  {| config := cfg;
     mux_bus := have_mux;
     current_mux_channel := None;
     servo_kit := have_servo;
     servo_channel := if have_servo then cfg_servo_channel cfg else 0;
     current_angle := dict_get (last_position state) (145 # 1);
     encoder_pos := 0;
     mode := dict_get (saved_mode state) "direct";
     encoder_queue := [] |}.

(** The defaults of [load_config]. *)
Definition default_config : Config :=
  {| cfg_servo_channel := 0;
     default_mode := "direct";
     modes :=
       <["direct" := mkMode (10 # 1) None None]>
       (<["fine" := mkMode (2 # 1) None None]>
       (<["range" := mkMode (10 # 1) (Some (90 # 1)) (Some (180 # 1))]> ∅));
     min_angle := 0;
     max_angle := 270 # 1;
     center_angle := 145 # 1 |}.

(** ** The encoder polling thread *)

(** The local variables of [encoder_polling_thread] that the loop reads
    back. *)
Record Poller : Type := mkPoller {
  last_clk_state : bool;
  button_press_time : Q
}.

(** What one iteration samples: [clk_pin.is_pressed], [dt_pin.is_pressed],
    [sw_pin.is_pressed] and the clock [time.time()]. *)
Record Sample : Type := mkSample {
  clk : bool;
  dt : bool;
  sw : bool;
  now : Q
}.

(** The rotation part of an iteration: the events put on the queue. *)
Definition poll_rotation (last_clk clk_state dt_state : bool) : list EncoderEvent :=
  if negb (Bool.eqb clk_state last_clk) && Bool.eqb clk_state false then
    if negb (Bool.eqb dt_state clk_state) then [rotation 1] else [rotation (-1)]
  else [].

(** The button part of an iteration. *)
Definition poll_button (press_time : Q) (pressed : bool) (t : Q)
  : Q * list EncoderEvent :=
  if pressed then
    if Qeq_bool press_time 0 then (t, []) else (press_time, [])
  else
    if Qlt_le_dec 0 press_time then
      let duration := (t - press_time)%Q in
      if Qlt_le_dec 1 duration then (0%Q, [long_press]) else (0%Q, [click])
    else (press_time, []).

Definition poll_step (p : Poller) (s : Sample) : Poller * list EncoderEvent :=
  let rot := poll_rotation (last_clk_state p) (clk s) (dt s) in
  let (bpt, but) := poll_button (button_press_time p) (sw s) (now s) in
  (mkPoller (clk s) bpt, rot ++ but).

(** The events queued by the thread over a run of samples, in order. *)
Fixpoint poll (p : Poller) (samples : list Sample) : Poller * list EncoderEvent :=
  match samples with
  | [] => (p, [])
  | s :: rest =>
      let (p1, evs) := poll_step p s in
      let (p2, evs') := poll p1 rest in
      (p2, evs ++ evs')
  end.

End Unified.

(* ===================================================================== *)
(** * servo_control/screen_tilt/fixed_servo_init.py *)
(* ===================================================================== *)

Module FixedServoInit.

Record ServoKitWithMux : Type := mkServoKitWithMux {
  mux_channel : Z;
  servo_channel : Z;
  mux_address : Z
}.

(** [ensure_mux_channel]: select our channel; any failure is passed over. *)
Definition ensure_mux_channel (self : ServoKitWithMux) (w : World) : World :=
  match shl1 (mux_channel self) with
  | None => w
  | Some mask =>
      let (ok, w1) := bus_write_byte (mux_address self) mask w in
      if ok then sleep (2 # 1000) w1 else w1
  end.

(** The [finally] clause of [set_angle]: back to channel 0, failure passed
    over. *)
Definition return_to_oled (self : ServoKitWithMux) (w : World) : World :=
  snd (bus_write_byte (mux_address self) (Z.shiftl 1 0) w).

(** [set_angle]: [True] when the servo write returned. *)
Definition set_angle (self : ServoKitWithMux) (angle : Q) (w : World) : bool * World :=
  let w1 := ensure_mux_channel self w in
  let (ok, w2) := servo_write (servo_channel self) angle w1 in
  let w3 := if ok then sleep (5 # 1000) w2 else w2 in
  (ok, return_to_oled self w3).

End FixedServoInit.

(* ===================================================================== *)
(** * servo_control/screen_tilt/mux_aware_servo.py *)
(* ===================================================================== *)

Module MuxAwareServo.

(** [kit] and [mux_bus] record whether the attribute holds an object. *)
Record MuxAwareServoKit : Type := mkMuxAwareServoKit {
  mux_channel : Z;
  mux_address : Z;
  kit : bool;
  mux_bus : bool
}.

(** The [finally] clause of [mux_channel_selected]. *)
Definition return_to_oled (self : MuxAwareServoKit) (w : World) : World :=
  let (ok, w1) := bus_write_byte (mux_address self) (Z.shiftl 1 0) w in
  if ok then sleep (2 # 1000) w1 else w1.

(** The context manager [mux_channel_selected] around a [body]: with a bus
    the channel is selected, the body runs, and the [finally] clause returns
    to the display channel; a failing selection raises out of the [with]
    statement after that same clause, the body not run. *)
Definition mux_channel_selected {A} (self : MuxAwareServoKit)
    (body : World -> A * World) (w : World) : result A World :=
  if mux_bus self then
    match shl1 (mux_channel self) with
    | None => Raised ValueError (return_to_oled self w)
    | Some mask =>
        let (ok, w1) := bus_write_byte (mux_address self) mask w in
        if ok then
          let (a, w2) := body (sleep (2 # 1000) w1) in
          Done a (return_to_oled self w2)
        else Raised OSError (return_to_oled self w1)
    end
  else let (a, w1) := body w in Done a w1.

Definition set_servo_angle (self : MuxAwareServoKit) (servo_num : Z) (angle : Q)
    (w : World) : result bool World :=
  if negb (kit self) then Done false w
  else mux_channel_selected self (servo_write servo_num angle) w.

End MuxAwareServo.

(* ===================================================================== *)
(** * oled_display/mux_resilient_oled.py *)
(* ===================================================================== *)

Module ResilientOLED.

Record ResilientMuxOLED : Type := mkResilientMuxOLED {
  mux_channel : Z;
  mux_addr : Z;
  recovery_interval : Q;
  last_ensure_time : Q;
  operation_count : Z;
  mux_available : bool
}.

Definition set_last_ensure_time (self : ResilientMuxOLED) (t : Q) : ResilientMuxOLED :=
  mkResilientMuxOLED (mux_channel self) (mux_addr self) (recovery_interval self)
    t (operation_count self) (mux_available self).

Definition retries : nat := 3.

(** The loop [for attempt in range(retries)] of [_ensure_channel], with
    [remaining = retries - attempt] iterations to go, so that the last
    attempt ([attempt == retries - 1]) is the one with [remaining = 1]. *)
Fixpoint ensure_attempts (remaining : nat) (self : ResilientMuxOLED)
    (current_time : Q) (w : World) : bool * ResilientMuxOLED * World :=
  match remaining with
  | O => (false, self, w)
  | S k =>
      let (ok, w1) :=
        match shl1 (mux_channel self) with
        | None => (false, w)
        | Some mask => bus_write_byte (mux_addr self) mask w
        end in
      if ok then (true, set_last_ensure_time self current_time, sleep (2 # 1000) w1)
      else
        match k with
        | O => (false, self, w1)
        | S _ => ensure_attempts k self current_time (sleep (1 # 100) w1)
        end
  end.

(** [_ensure_channel(force)], [current_time] being the [time.time()] it
    reads. *)
Definition _ensure_channel (self : ResilientMuxOLED) (force : bool)
    (current_time : Q) (w : World) : bool * ResilientMuxOLED * World :=
  if negb (mux_available self) then (true, self, w)
  else if negb force &&
          (if Qlt_le_dec (current_time - last_ensure_time self) (recovery_interval self)
           then true else false)
  then (true, self, w)
  else ensure_attempts retries self current_time w.

End ResilientOLED.

(* ===================================================================== *)
(** * servo_control/screen_tilt/screen_tilt_control.py *)
(* ===================================================================== *)

Module ScreenTilt.

(** The three button handlers. *)
Inductive Gesture : Type := SingleClick | DoubleClick | LongPress.

(** The attributes of [ScreenTiltController].  [kit] records whether the
    directly connected [ServoKit] exists.  [click_timer] is the deadline of
    the [threading.Timer] that is armed and has neither fired nor been
    cancelled.  [handled] is not an attribute of the class: it records,
    oldest first, which of [_handle_single_click], [_handle_double_click]
    and [_handle_long_press] were entered. *)
Record Controller : Type := mkController {
  config : Config;
  fixed_servo : option FixedServoInit.ServoKitWithMux;
  mux_servo : option MuxAwareServo.MuxAwareServoKit;
  kit : bool;
  servo_channel : Z;
  current_angle : Q;
  encoder_pos : Z;
  mode : string;
  last_clk_state : bool;
  button_press_time : Q;
  click_count : Z;
  click_timer : option Q;
  handled : list Gesture
}.

Definition set_current_angle (self : Controller) (a : Q) : Controller :=
  mkController (config self) (fixed_servo self) (mux_servo self) (kit self)
    (servo_channel self) a (encoder_pos self) (mode self) (last_clk_state self)
    (button_press_time self) (click_count self) (click_timer self) (handled self).

Definition set_encoder_pos (self : Controller) (p : Z) : Controller :=
  mkController (config self) (fixed_servo self) (mux_servo self) (kit self)
    (servo_channel self) (current_angle self) p (mode self) (last_clk_state self)
    (button_press_time self) (click_count self) (click_timer self) (handled self).

Definition set_mode (self : Controller) (m : string) : Controller :=
  mkController (config self) (fixed_servo self) (mux_servo self) (kit self)
    (servo_channel self) (current_angle self) (encoder_pos self) m
    (last_clk_state self) (button_press_time self) (click_count self)
    (click_timer self) (handled self).

Definition set_last_clk_state (self : Controller) (b : bool) : Controller :=
  mkController (config self) (fixed_servo self) (mux_servo self) (kit self)
    (servo_channel self) (current_angle self) (encoder_pos self) (mode self) b
    (button_press_time self) (click_count self) (click_timer self) (handled self).

Definition set_button_press_time (self : Controller) (t : Q) : Controller :=
  mkController (config self) (fixed_servo self) (mux_servo self) (kit self)
    (servo_channel self) (current_angle self) (encoder_pos self) (mode self)
    (last_clk_state self) t (click_count self) (click_timer self) (handled self).

Definition set_click_count (self : Controller) (n : Z) : Controller :=
  mkController (config self) (fixed_servo self) (mux_servo self) (kit self)
    (servo_channel self) (current_angle self) (encoder_pos self) (mode self)
    (last_clk_state self) (button_press_time self) n (click_timer self)
    (handled self).

Definition set_click_timer (self : Controller) (d : option Q) : Controller :=
  mkController (config self) (fixed_servo self) (mux_servo self) (kit self)
    (servo_channel self) (current_angle self) (encoder_pos self) (mode self)
    (last_clk_state self) (button_press_time self) (click_count self) d
    (handled self).

Definition enter (self : Controller) (g : Gesture) : Controller :=
  mkController (config self) (fixed_servo self) (mux_servo self) (kit self)
    (servo_channel self) (current_angle self) (encoder_pos self) (mode self)
    (last_clk_state self) (button_press_time self) (click_count self)
    (click_timer self) (handled self ++ [g]).

(** The sensitivity chosen by the [if]/[elif] chain of [update_servo]. *)
Definition mode_sensitivity (self : Controller) : exn + Q :=
  let entry name :=
    match lookup_mode (config self) name with
    | inl e => inl e
    | inr m => inr (sensitivity m)
    end in
  if String.eqb (mode self) "direct" then entry "direct"
  else if String.eqb (mode self) "fine" then entry "fine"
  else if String.eqb (mode self) "range" then entry "range"
  else inr (5 # 1).

(** The mode-specific limits of [update_servo]. *)
Definition apply_limits (self : Controller) (new_angle : Q) : exn + Q :=
  if String.eqb (mode self) "range" then
    match lookup_mode (config self) "range" with
    | inl e => inl e
    | inr range_config => clamp_range range_config new_angle
    end
  else inr (clamp (min_angle (config self)) (max_angle (config self)) new_angle).

(** The device write of [update_servo] through the first wrapper that
    exists.  Only the mux-aware wrapper can raise. *)
Definition move_servo (self : Controller) (w : World) : result unit World :=
  match fixed_servo self with
  | Some fs => Done tt (snd (FixedServoInit.set_angle fs (current_angle self) w))
  | None =>
      match mux_servo self with
      | Some ms =>
          match MuxAwareServo.set_servo_angle ms (servo_channel self) (current_angle self) w with
          | Done _ w' => Done tt w'
          | Raised e w' => Raised e w'
          end
      | None =>
          if kit self
          then Done tt (snd (servo_write (servo_channel self) (current_angle self) w))
          else Done tt w
      end
  end.

Definition update_servo (self : Controller) (w : World)
  : result unit (Controller * World) :=
  match mode_sensitivity self with
  | inl e => Raised e (self, w)
  | inr sens =>
      let new_angle :=
        (center_angle (config self) + inject_Z (encoder_pos self) * sens)%Q in
      match apply_limits self new_angle with
      | inl e => Raised e (self, w)
      | inr new_angle =>
          if py_ne new_angle (current_angle self) then
            let self := set_current_angle self new_angle in
            match move_servo self w with
            | Done _ w' => Done tt (self, w')
            | Raised e w' => Raised e (self, w')
            end
          else Done tt (self, w)
      end
  end.

(** [check_encoder] on the sampled [clk_pin.is_pressed] and
    [dt_pin.is_pressed].  An exception of [update_servo] leaves before
    [last_clk_state] is stored. *)
Definition check_encoder (self : Controller) (clk_state dt_state : bool) (w : World)
  : result unit (Controller * World) :=
  if negb (Bool.eqb clk_state (last_clk_state self)) && Bool.eqb clk_state false then
    let self :=
      if negb (Bool.eqb dt_state clk_state)
      then set_encoder_pos self (encoder_pos self + 1)
      else set_encoder_pos self (encoder_pos self - 1) in
    match update_servo self w with
    | Done _ (self', w') => Done tt (set_last_clk_state self' clk_state, w')
    | Raised e sw => Raised e sw
    end
  else Done tt (set_last_clk_state self clk_state, w).

(** [save_state]: the file is written without a handler around it. *)
Definition save_state (self : Controller) (w : World) : result unit (Controller * World) :=
  let (ok, w1) := write_state_file (current_angle self) (mode self) w in
  if ok then Done tt (self, w1) else Raised OSError (self, w1).

Definition _handle_single_click (self : Controller) (w : World)
  : result unit (Controller * World) :=
  update_servo (set_encoder_pos (enter self SingleClick) 0) w.

Definition mode_names : list string := ["direct"; "fine"; "range"].

(** [modes.index(name)] *)
Fixpoint index_of (name : string) (l : list string) : option nat :=
  match l with
  | [] => None
  | x :: rest =>
      if String.eqb x name then Some O
      else match index_of name rest with Some i => Some (S i) | None => None end
  end.

(** [modes[(current_index + 1) % len(modes)]] *)
Definition next_mode (current_index : nat) : string :=
  nth ((current_index + 1) mod length mode_names) mode_names "".

(** [_handle_double_click]: the next mode, and the encoder position set to
    [int((current_angle - center_angle) / sensitivity)] for that mode.  The
    angle is not touched.  Numbers are exact rationals here and floats in
    the code: the two agree on whole numbers, where the float subtraction
    and division are exact; elsewhere the float quotient is rounded before
    [int] truncates it and can fall on the other side of an integer (for
    250.7, 250 and 0.1 the code computes 6.999999999999886 and takes 6,
    where the exact quotient is 7). *)
Definition _handle_double_click (self : Controller) (w : World)
  : result unit (Controller * World) :=
  let self := enter self DoubleClick in
  match index_of (mode self) mode_names with
  | None => Raised ValueError (self, w)
  | Some current_index =>
      let self := set_mode self (next_mode current_index) in
      match lookup_mode (config self) (mode self) with
      | inl e => Raised e (self, w)
      | inr m =>
          if Qeq_bool (sensitivity m) 0 then Raised ZeroDivisionError (self, w)
          else
            Done tt
              (set_encoder_pos self
                 (py_int ((current_angle self - center_angle (config self))
                          / sensitivity m)%Q),
               w)
      end
  end.

Definition _handle_long_press (self : Controller) (w : World)
  : result unit (Controller * World) :=
  save_state (enter self LongPress) w.

(** [_process_clicks], run by the timer: one click, two clicks, or
    neither; then the count is cleared (not reached when a handler
    raises). *)
Definition _process_clicks (self : Controller) (w : World)
  : result unit (Controller * World) :=
  let r :=
    if click_count self =? 1 then _handle_single_click self w
    else if click_count self =? 2 then _handle_double_click self w
    else Done tt (self, w) in
  match r with
  | Done _ (self', w') => Done tt (set_click_count self' 0, w')
  | Raised e sw => Raised e sw
  end.

(** [_button_pressed] at clock reading [t]. *)
Definition _button_pressed (self : Controller) (t : Q) : Controller :=
  set_button_press_time self t.

(** [_button_released]: after the 50 ms pause the button is sampled again
    ([is_pressed]) and the clock read ([t]).  A long press is handled at
    once; a short one counts a click and replaces the timer by one that
    expires 0.3 s later. *)
Definition _button_released (self : Controller) (is_pressed : bool) (t : Q) (w : World)
  : result unit (Controller * World) :=
  let w := sleep (5 # 100) w in
  if negb is_pressed then
    let press_duration := (t - button_press_time self)%Q in
    if Qlt_le_dec 1 press_duration then _handle_long_press self w
    else
      let self := set_click_count self (click_count self + 1) in
      Done tt (set_click_timer self (Some (t + (3 # 10))%Q), w)
  else Done tt (self, w).

(** ** The button callbacks in time order

    The callbacks of the button and of the timer are run one at a time, in
    the order of their clock readings; an exception leaving a callback ends
    that callback only. *)
Inductive Input : Type :=
| Pressed (t : Q)                       (* [when_pressed] fires *)
| Released (t : Q) (is_pressed : bool)  (* [when_released] fires; [t] and
                                           [is_pressed] as read after its pause *)
| Elapsed (t : Q).                      (* nothing happens until [t] *)

Definition time_of (i : Input) : Q :=
  match i with Pressed t => t | Released t _ => t | Elapsed t => t end.

(** The armed timer fires when its deadline is reached. *)
Definition fire_due (t : Q) (self : Controller) (w : World) : Controller * World :=
  match click_timer self with
  | Some deadline =>
      if Qle_bool deadline t
      then final (_process_clicks (set_click_timer self None) w)
      else (self, w)
  | None => (self, w)
  end.

Definition step (sw : Controller * World) (i : Input) : Controller * World :=
  let (self, w) := fire_due (time_of i) (fst sw) (snd sw) in
  match i with
  | Pressed t => (_button_pressed self t, w)
  | Released t is_pressed => final (_button_released self is_pressed t w)
  | Elapsed _ => (self, w)
  end.

Definition run_inputs (self : Controller) (w : World) (inputs : list Input)
  : Controller * World :=
  fold_left step inputs (self, w).

(** The control variables as [__init__] seeds them, given the wrappers
    found and the first reading of [clk_pin.is_pressed]. *)
Definition seed (cfg : Config) (state : PersistedState)
    (fixed : option FixedServoInit.ServoKitWithMux)
    (muxed : option MuxAwareServo.MuxAwareServoKit) (direct : bool)
    (clk_state : bool) : Controller :=
  {| config := cfg;
     fixed_servo := fixed;
     mux_servo := muxed;
     kit := direct;
     servo_channel := cfg_servo_channel cfg;
     current_angle := dict_get (last_position state) (center_angle cfg);
     encoder_pos := 0;
     mode := dict_get (saved_mode state) (default_mode cfg);
     last_clk_state := clk_state;
     button_press_time := 0;
     click_count := 0;
     click_timer := None;
     handled := [] |}.

(** The defaults of [load_config]. *)
Definition default_config : Config :=
  {| cfg_servo_channel := 0;
     default_mode := "direct";
     modes :=
       <["direct" := mkMode (5 # 1) None None]>
       (<["fine" := mkMode (1 # 1) None None]>
       (<["range" := mkMode (5 # 1) (Some (90 # 1)) (Some (180 # 1))]> ∅));
     min_angle := 0;
     max_angle := 270 # 1;
     center_angle := 250 # 1 |}.

End ScreenTilt.

(* ===================================================================== *)
(** * Specification-level notions *)
(* ===================================================================== *)

(** The trace [evs] contains a channel-select write of the display mask
    [1 << 0] with outcome [ok], and no channel-select write after it. *)
Definition released_to_idle (addr : Z) (ok : bool) (evs : list io_event) : Prop :=
  exists before after,
    evs = before ++ MuxWrite addr 1 ok :: after /\
    mux_attempts after = O.

(** The register of the multiplexer after an attempt to select [channel]:
    the mask written when the write is issued and succeeds, and what the
    register held before otherwise. *)
Definition after_select (channel : Z) (w : World) : option Z :=
  if negb (channel <? 0) && outcome w then Some (Z.shiftl 1 channel) else mux_reg w.

(** The limits in force for a mode: those of the [range] entry in range
    mode, the global ones otherwise. *)
Definition effective_range (c : Config) (mode : string) : option (Q * Q) :=
  if String.eqb mode "range" then
    match modes c !! "range" with
    | Some rc =>
        match mode_min_angle rc, mode_max_angle rc with
        | Some lo, Some hi => Some (lo, hi)
        | _, _ => None
        end
    | None => None
    end
  else Some (min_angle c, max_angle c).

(** The sensitivity of a mode of the configuration. *)
Definition mode_sens (c : Config) (mode : string) : option Q :=
  match modes c !! mode with
  | Some m => Some (sensitivity m)
  | None => None
  end.

(** The angle that position [pos] stands for. *)
Definition model_angle (center sens lo hi : Q) (pos : Z) : Q :=
  clamp lo hi (center + inject_Z pos * sens)%Q.

(** The invariant of the servo state. *)
Definition servo_invariant (center sens lo hi : Q) (pos : Z) (angle : Q) : Prop :=
  (lo <= angle)%Q /\ (angle <= hi)%Q /\ (angle == model_angle center sens lo hi pos)%Q.

Definition sum_deltas (ds : list Z) : Z := fold_right Z.add 0 ds.

(** The rotation decoded from two consecutive samples of
    [clk_pin.is_pressed] and the sample of [dt_pin.is_pressed] taken with
    the second: a step when CLK was pressed and no longer is.  The
    arguments are the booleans the code reads, not the levels of the
    lines: see [line_level]. *)
Definition decode (last_clk clk_state dt_state : bool) : option Z :=
  if last_clk && negb clk_state
  then Some (if xorb dt_state clk_state then 1 else -1)
  else None.

(** The level of the line behind a sample of [is_pressed], [true] for
    high.  The pins are read through [Button(pin, pull_up=True)]: the input
    is active low, and [is_pressed] is [True] exactly when the line is
    low. *)
Definition line_level (is_pressed : bool) : bool := negb is_pressed.

(** The rotation that two consecutive levels of the CLK line and the level
    of the DT line taken with the second stand for in the code: a step when
    the CLK line goes from low to high, [+1] when the DT line is not at
    the new (high) level of CLK and [-1] when it is. *)
Definition decode_lines (last_clk clk dt : bool) : option Z :=
  if negb last_clk && clk
  then Some (if xorb dt clk then 1 else -1)
  else None.

(** The rotations decoded along a run of (CLK, DT) samples of
    [is_pressed]. *)
Fixpoint decode_all (last_clk : bool) (samples : list (bool * bool)) : list Z :=
  match samples with
  | [] => []
  | (c, d) :: rest =>
      match decode last_clk c d with
      | Some step => step :: decode_all c rest
      | None => decode_all c rest
      end
  end.

Definition is_rotation (e : Unified.EncoderEvent) : bool :=
  String.eqb (Unified.ev_type e) "rotation".

(** The event types that [process_encoder_events] has a branch for. *)
Definition handled_type (t : string) : bool :=
  String.eqb t "rotation" || String.eqb t "click" || String.eqb t "long_press".

(** The main loop of the unified controller over several passes, the
    polling thread having queued [arrivals] before each pass. *)
Fixpoint run_ticks (oled : bool) (arrivals : list (list Unified.EncoderEvent))
    (self : Unified.Controller) (w : World) : Unified.Controller * World :=
  match arrivals with
  | [] => (self, w)
  | evs :: rest =>
      let self1 :=
        Unified.set_encoder_queue self (Unified.encoder_queue self ++ evs) in
      let (self2, w2) := Unified.tick oled self1 w in
      run_ticks oled rest self2 w2
  end.

(** The polling loop of [ScreenTilt.run] over a run of samples; an
    exception of [check_encoder] ends it. *)
Fixpoint tilt_poll (self : ScreenTilt.Controller) (samples : list (bool * bool))
    (w : World) : result unit (ScreenTilt.Controller * World) :=
  match samples with
  | [] => Done tt (self, w)
  | (c, d) :: rest =>
      match ScreenTilt.check_encoder self c d w with
      | Done _ (self', w') => tilt_poll self' rest w'
      | Raised e sw => Raised e sw
      end
  end.

(** The invariant on a state of either controller, for the sensitivity
    and the limits that the configuration gives its mode. *)
Definition unified_invariant (self : Unified.Controller) : Prop :=
  exists s lo hi,
    mode_sens (Unified.config self) (Unified.mode self) = Some s /\
    effective_range (Unified.config self) (Unified.mode self) = Some (lo, hi) /\
    servo_invariant (center_angle (Unified.config self)) s lo hi
      (Unified.encoder_pos self) (Unified.current_angle self).

Definition tilt_invariant (self : ScreenTilt.Controller) : Prop :=
  exists s lo hi,
    mode_sens (ScreenTilt.config self) (ScreenTilt.mode self) = Some s /\
    effective_range (ScreenTilt.config self) (ScreenTilt.mode self) = Some (lo, hi) /\
    servo_invariant (center_angle (ScreenTilt.config self)) s lo hi
      (ScreenTilt.encoder_pos self) (ScreenTilt.current_angle self).

(** Two states of the tilt controller with the same configuration, mode
    and servo wrappers. *)
Definition tilt_same_setup (a b : ScreenTilt.Controller) : Prop :=
  ScreenTilt.config b = ScreenTilt.config a /\
  ScreenTilt.mode b = ScreenTilt.mode a /\
  ScreenTilt.fixed_servo b = ScreenTilt.fixed_servo a /\
  ScreenTilt.mux_servo b = ScreenTilt.mux_servo a /\
  ScreenTilt.kit b = ScreenTilt.kit a.

(** The device write of the tilt controller cannot raise: only the
    mux-aware wrapper does, and only when no fixed wrapper shadows it. *)
Definition tilt_write_total (a : ScreenTilt.Controller) : Prop :=
  ScreenTilt.fixed_servo a <> None \/ ScreenTilt.mux_servo a = None.

(** Two states of the unified controller that differ at most in the cached
    channel, the angle and the encoder position. *)
Definition unified_same_setup (a b : Unified.Controller) : Prop :=
  Unified.config b = Unified.config a /\
  Unified.mux_bus b = Unified.mux_bus a /\
  Unified.servo_kit b = Unified.servo_kit a /\
  Unified.servo_channel b = Unified.servo_channel a /\
  Unified.mode b = Unified.mode a /\
  Unified.encoder_queue b = Unified.encoder_queue a.

(* ===================================================================== *)
(** * Hardware operations that leave no trace *)
(* ===================================================================== *)

(** Opening the bus, probing an address and constructing or configuring a
    driver or another object take the next outcome of the script like
    every other operation; the trace, which follows channel selects,
    servo writes, frames, state saves and sleeps, does not list them. *)
Definition untraced (w : World) : bool * World :=
  (outcome w, {| mux_reg := mux_reg w; script := consume w; trace := trace w |}).

(** [smbus2.SMBus(1)] *)
Definition bus_open (w : World) : bool * World := untraced w.

(** [bus.read_byte(addr)], used as a probe. *)
Definition bus_read_byte (addr : Z) (w : World) : bool * World := untraced w.

(** [ServoKit(channels=16, address=0x40)] *)
Definition servokit_init (w : World) : bool * World := untraced w.

(** [kit.servo[n].actuation_range = ...] followed by
    [kit.servo[n].set_pulse_width_range(...)]. *)
Definition servo_configure (servo : Z) (w : World) : bool * World := untraced w.

(** [oled_device.clear()]: the device is sent a blank image; the trace
    lists it as the frame it is. *)
Definition oled_clear (w : World) : bool * World := oled_display w.

(* ===================================================================== *)
(** * unified_cyberdeck_controller.py: start-up and shutdown *)
(* ===================================================================== *)

Module UnifiedLifecycle.

(** The controller together with the attributes that start-up and
    shutdown add: whether [oled_device], [animation_config] and [animation]
    hold an object, and the [running] flag. *)
Record Deck : Type := mkDeck {
  ctl : Unified.Controller;
  oled_device : bool;
  animation_config : bool;
  animation : bool;
  running : bool
}.

Definition set_ctl (d : Deck) (c : Unified.Controller) : Deck :=
  mkDeck c (oled_device d) (animation_config d) (animation d) (running d).

Definition set_mux_bus (self : Unified.Controller) (b : bool) : Unified.Controller :=
  Unified.mkController (Unified.config self) b (Unified.current_mux_channel self)
    (Unified.servo_kit self) (Unified.servo_channel self) (Unified.current_angle self)
    (Unified.encoder_pos self) (Unified.mode self) (Unified.encoder_queue self).

Definition set_servo_kit (self : Unified.Controller) (b : bool) : Unified.Controller :=
  Unified.mkController (Unified.config self) (Unified.mux_bus self)
    (Unified.current_mux_channel self) b (Unified.servo_channel self)
    (Unified.current_angle self) (Unified.encoder_pos self) (Unified.mode self)
    (Unified.encoder_queue self).

Definition set_servo_channel (self : Unified.Controller) (n : Z) : Unified.Controller :=
  Unified.mkController (Unified.config self) (Unified.mux_bus self)
    (Unified.current_mux_channel self) (Unified.servo_kit self) n
    (Unified.current_angle self) (Unified.encoder_pos self) (Unified.mode self)
    (Unified.encoder_queue self).

(** [init_multiplexer]: the bus is kept when it opens and the multiplexer
    answers the probe; any failure leaves [mux_bus] at [None]. *)
Definition init_multiplexer (self : Unified.Controller) (w : World)
  : Unified.Controller * World :=
  let (opened, w1) := bus_open w in
  if opened then
    let (seen, w2) := bus_read_byte Unified.MUX_ADDRESS w1 in
    (set_mux_bus self seen, w2)
  else (set_mux_bus self false, w1).

(** [init_oled]: nothing is set up when the switch to the display channel
    fails.  Inside the [try] the device ([i2c(...)], [ssd1306(...)]), the
    animation configuration ([AnimationConfig(...)]) and the animation
    ([SpectrumAnalyzerAnimation(...)]) are made in turn; the first of them
    that raises ends the block, which resets [oled_device] to [None] and
    leaves the attributes not yet assigned as they were. *)
Definition init_oled (d : Deck) (w : World) : Deck * World :=
  let '(ok, c1, w1) := Unified.switch_mux_channel (ctl d) Unified.OLED_CHANNEL w in
  if ok then
    let (device, w2) := untraced w1 in
    if device then
      let (configured, w3) := untraced w2 in
      if configured then
        let (animated, w4) := untraced w3 in
        if animated then (mkDeck c1 true true true (running d), w4)
        else (mkDeck c1 false true (animation d) (running d), w4)
      else (mkDeck c1 false (animation_config d) (animation d) (running d), w3)
    else (mkDeck c1 false (animation_config d) (animation d) (running d), w2)
  else (set_ctl d c1, w1).

(** The [try] block of [init_servo]: the kit, the servo channel from the
    configuration, the servo parameters and the initial position; an
    exception at any point resets [servo_kit] to [None]. *)
Definition setup_servo (self : Unified.Controller) (w : World)
  : Unified.Controller * World :=
  let (made, w1) := servokit_init w in
  if made then
    let self := set_servo_channel (set_servo_kit self true)
                  (cfg_servo_channel (Unified.config self)) in
    let (configured, w2) := servo_configure (Unified.servo_channel self) w1 in
    if configured then
      let (moved, w3) :=
        servo_write (Unified.servo_channel self) (Unified.current_angle self) w2 in
      if moved then (self, w3) else (set_servo_kit self false, w3)
    else (set_servo_kit self false, w2)
  else (set_servo_kit self false, w1).

(** [init_servo]: returns at once when the switch to the servo channel
    fails; otherwise sets the servo up and switches back to the display
    channel. *)
Definition init_servo (self : Unified.Controller) (w : World)
  : Unified.Controller * World :=
  let '(ok, self1, w1) := Unified.switch_mux_channel self Unified.SERVO_CHANNEL w in
  if ok then
    let (self2, w2) := setup_servo self1 w1 in
    let '(_, self3, w3) := Unified.switch_mux_channel self2 Unified.OLED_CHANNEL w2 in
    (self3, w3)
  else (self1, w1).

(** [__init__] up to the encoder: multiplexer, display, servo. *)
Definition boot (cfg : Config) (state : PersistedState) (w : World) : Deck * World :=
  let (c1, w1) := init_multiplexer (Unified.seed cfg state false false) w in
  let (d2, w2) := init_oled (mkDeck c1 false false false false) w1 in
  let (c3, w3) := init_servo (ctl d2) w2 in
  (set_ctl d2 c3, w3).

(** [shutdown]: the state is saved; with a display, the display channel is
    asked for and the display cleared, whatever the switch returned and
    with failures passed over; the bus is closed. *)
Definition shutdown (d : Deck) (w : World) : Deck * World :=
  let d := mkDeck (ctl d) (oled_device d) (animation_config d) (animation d) false in
  let (c1, w1) := Unified.save_state (ctl d) w in
  if oled_device d then
    let '(_, c2, w2) := Unified.switch_mux_channel c1 Unified.OLED_CHANNEL w1 in
    (set_ctl d c2, snd (oled_clear w2))
  else (set_ctl d c1, w1).

(** [run].  Before the loop the frame time is read from
    [self.animation_config.fps]: without an animation configuration that
    raises [AttributeError] out of [run] ([None] here), no pass is made and
    [shutdown] is not reached.  Otherwise the main loop makes its passes
    until the stop flag is seen, the polling thread having queued
    [arrivals] before each pass, and [shutdown] follows. *)
Definition run (d : Deck) (arrivals : list (list Unified.EncoderEvent)) (w : World)
  : option (Deck * World) :=
  if animation_config d then
    let d := mkDeck (ctl d) (oled_device d) (animation_config d) (animation d) true in
    let (c1, w1) :=
      run_ticks (oled_device d && animation d) arrivals (ctl d) w in
    Some (shutdown (set_ctl d c1) w1)
  else None.

End UnifiedLifecycle.

(** The cached channel of the unified controller agrees with the register
    of the multiplexer. *)
Definition cache_coherent (self : Unified.Controller) (w : World) : Prop :=
  forall c, Unified.current_mux_channel self = Some c ->
            mux_reg w = Some (Z.shiftl 1 c).

(** Every servo write of [evs] finds the multiplexer on the servo channel
    and every frame finds it on the display channel, the register holding
    [reg] before the first event. *)
Fixpoint well_routed (reg : option Z) (evs : list io_event) : Prop :=
  match evs with
  | [] => True
  | MuxWrite _ mask true :: rest => well_routed (Some mask) rest
  | ServoWrite _ _ _ :: rest =>
      reg = Some (Z.shiftl 1 Unified.SERVO_CHANNEL) /\ well_routed reg rest
  | OledDisplay _ :: rest =>
      reg = Some (Z.shiftl 1 Unified.OLED_CHANNEL) /\ well_routed reg rest
  | _ :: rest => well_routed reg rest
  end.

(** The register after the events [evs]. *)
Fixpoint replay (reg : option Z) (evs : list io_event) : option Z :=
  match evs with
  | [] => reg
  | MuxWrite _ mask true :: rest => replay (Some mask) rest
  | _ :: rest => replay reg rest
  end.

(** The servo writes of a trace. *)
Definition is_servo_write (e : io_event) : bool :=
  match e with ServoWrite _ _ _ => true | _ => false end.

Definition servo_writes (t : list io_event) : nat :=
  length (filter is_servo_write t).

(** The frames of a trace. *)
Definition is_frame (e : io_event) : bool :=
  match e with OledDisplay _ => true | _ => false end.

Definition frames (t : list io_event) : nat := length (filter is_frame t).

(** A run of the unified controller from [(self, w)] to [(self', w')]: it
    appends to the trace; with a multiplexer its servo writes and frames
    are routed, without one it selects no channel; the cache stays
    coherent and [mux_bus] is left alone. *)
Definition routed_run (self : Unified.Controller) (w : World)
    (self' : Unified.Controller) (w' : World) : Prop :=
  exists evs,
    trace w' = trace w ++ evs /\
    (if Unified.mux_bus self
     then well_routed (mux_reg w) evs
     else mux_attempts evs = O) /\
    replay (mux_reg w) evs = mux_reg w' /\
    cache_coherent self' w' /\
    Unified.mux_bus self' = Unified.mux_bus self.

(* ===================================================================== *)
(** * mux_aware_servo.py: initialisation, configuration, clean-up *)
(* ===================================================================== *)

Module MuxAwareLifecycle.

Definition set_mux_bus (self : MuxAwareServo.MuxAwareServoKit) (b : bool)
  : MuxAwareServo.MuxAwareServoKit :=
  MuxAwareServo.mkMuxAwareServoKit (MuxAwareServo.mux_channel self)
    (MuxAwareServo.mux_address self) (MuxAwareServo.kit self) b.

Definition set_kit (self : MuxAwareServo.MuxAwareServoKit) (b : bool)
  : MuxAwareServo.MuxAwareServoKit :=
  MuxAwareServo.mkMuxAwareServoKit (MuxAwareServo.mux_channel self)
    (MuxAwareServo.mux_address self) b (MuxAwareServo.mux_bus self).

(** [MuxAwareServoKit(mux_channel, mux_address)] *)
Definition new (mux_channel mux_address : Z) : MuxAwareServo.MuxAwareServoKit :=
  MuxAwareServo.mkMuxAwareServoKit mux_channel mux_address false false.

Definition pca_address : Z := 0x40.

(** The [try] block of one attempt of [initialize]: open the bus and keep
    it, select the channel, wait, probe the PCA9685, construct the kit.
    [true] when the block reached its [return True]. *)
Definition attempt (self : MuxAwareServo.MuxAwareServoKit) (w : World)
  : bool * MuxAwareServo.MuxAwareServoKit * World :=
  let (opened, w1) := bus_open w in
  if opened then
    let self := set_mux_bus self true in
    match shl1 (MuxAwareServo.mux_channel self) with
    | None => (false, self, w1)
    | Some mask =>
        let (selected, w2) := bus_write_byte (MuxAwareServo.mux_address self) mask w1 in
        if selected then
          let (seen, w3) := bus_read_byte pca_address (sleep (5 # 100) w2) in
          if seen then
            let (made, w4) := servokit_init w3 in
            if made then (true, set_kit self true, w4) else (false, self, w4)
          else (false, self, w3)
        else (false, self, w2)
    end
  else (false, self, w1).

(** The loop [for attempt in range(retries)] with [remaining] iterations
    to go: after a failed attempt the bus, if held, is closed and dropped;
    all but the last failure wait 0.5 s. *)
Fixpoint attempts (remaining : nat) (self : MuxAwareServo.MuxAwareServoKit) (w : World)
  : bool * MuxAwareServo.MuxAwareServoKit * World :=
  match remaining with
  | O => (false, self, w)
  | S k =>
      let '(ok, self1, w1) := attempt self w in
      if ok then (true, self1, w1)
      else
        let self2 := if MuxAwareServo.mux_bus self1 then set_mux_bus self1 false else self1 in
        match k with
        | O => (false, self2, w1)
        | S _ => attempts k self2 (sleep (1 # 2) w1)
        end
  end.

(** [initialize(retries)] *)
Definition initialize (self : MuxAwareServo.MuxAwareServoKit) (retries : Z) (w : World)
  : bool * MuxAwareServo.MuxAwareServoKit * World :=
  attempts (Z.to_nat retries) self w.

(** [configure_servo(servo_num, ...)] *)
Definition configure_servo (self : MuxAwareServo.MuxAwareServoKit) (servo_num : Z)
    (w : World) : result bool World :=
  if negb (MuxAwareServo.kit self) then Done false w
  else MuxAwareServo.mux_channel_selected self (servo_configure servo_num) w.

(** [cleanup]: with a bus, back to the display channel (failure passed
    over) and the bus dropped. *)
Definition cleanup (self : MuxAwareServo.MuxAwareServoKit) (w : World)
  : MuxAwareServo.MuxAwareServoKit * World :=
  if MuxAwareServo.mux_bus self then
    (set_mux_bus self false,
     snd (bus_write_byte (MuxAwareServo.mux_address self) (Z.shiftl 1 0) w))
  else (self, w).

End MuxAwareLifecycle.

(* ===================================================================== *)
(** * mux_resilient_oled.py: operations through the wrapper *)
(* ===================================================================== *)

Module ResilientOps.

Definition set_operation_count (self : ResilientOLED.ResilientMuxOLED) (n : Z)
  : ResilientOLED.ResilientMuxOLED :=
  ResilientOLED.mkResilientMuxOLED (ResilientOLED.mux_channel self)
    (ResilientOLED.mux_addr self) (ResilientOLED.recovery_interval self)
    (ResilientOLED.last_ensure_time self) n (ResilientOLED.mux_available self).

(** [_check_mux]: whether the multiplexer answers a probe. *)
Definition _check_mux (mux_addr : Z) (w : World) : bool * World :=
  bus_read_byte mux_addr w.

(** [__init__(device, mux_addr, mux_channel, recovery_interval)], [t] being
    the clock read by the first [_ensure_channel]. *)
Definition new (mux_addr mux_channel : Z) (recovery_interval t : Q) (w : World)
  : ResilientOLED.ResilientMuxOLED * World :=
  let (available, w1) := _check_mux mux_addr w in
  let self := ResilientOLED.mkResilientMuxOLED mux_channel mux_addr recovery_interval
                0 0 available in
  if available then
    let '(_, self1, w2) := ResilientOLED._ensure_channel self false t w1 in (self1, w2)
  else (self, w1).

(** [_with_channel(func)]: the count goes up, every tenth operation forces
    the channel, the operation runs; when it raises, the channel is forced
    and, if that worked, the operation runs once more; a second failure, or
    a failed recovery, re-raises.  [t1] and [t2] are the clock readings of
    the two [_ensure_channel] calls. *)
Definition _with_channel (self : ResilientOLED.ResilientMuxOLED)
    (func : World -> bool * World) (t1 t2 : Q) (w : World)
  : result unit (ResilientOLED.ResilientMuxOLED * World) :=
  let self := set_operation_count self (ResilientOLED.operation_count self + 1) in
  let force_check := ResilientOLED.operation_count self mod 10 =? 0 in
  let '(_, self1, w1) := ResilientOLED._ensure_channel self force_check t1 w in
  let (ok, w2) := func w1 in
  if ok then Done tt (self1, w2)
  else
    let '(recovered, self2, w3) := ResilientOLED._ensure_channel self1 true t2 w2 in
    if recovered then
      let (ok2, w4) := func w3 in
      if ok2 then Done tt (self2, w4) else Raised OSError (self2, w4)
    else Raised OSError (self2, w3).

(** [display(image)] *)
Definition display (self : ResilientOLED.ResilientMuxOLED) (t1 t2 : Q) (w : World)
  : result unit (ResilientOLED.ResilientMuxOLED * World) :=
  _with_channel self oled_display t1 t2 w.

End ResilientOps.

(* ===================================================================== *)
(** * oled_display/mux_safe_oled.py *)
(* ===================================================================== *)

Module MuxSafe.

Record MuxSafeOLED : Type := mkMuxSafeOLED {
  mux_channel : Z;
  mux_addr : Z;
  _needs_mux : bool
}.

(** [_ensure_channel]: select our channel when a multiplexer is managed;
    a failure is passed over. *)
Definition _ensure_channel (self : MuxSafeOLED) (w : World) : World :=
  if _needs_mux self then
    match shl1 (mux_channel self) with
    | None => w
    | Some mask =>
        let (ok, w1) := bus_write_byte (mux_addr self) mask w in
        if ok then sleep (1 # 1000) w1 else w1
    end
  else w.

(** [display(image)]: the device's exception, if any, leaves the call. *)
Definition display (self : MuxSafeOLED) (w : World) : result unit World :=
  let (ok, w1) := oled_display (_ensure_channel self w) in
  if ok then Done tt w1 else Raised OSError w1.

End MuxSafe.

(* ===================================================================== *)
(** * fixed_servo_init.py: initialisation *)
(* ===================================================================== *)

Module FixedServoSetup.

(** [initialize_servo_with_mux(mux_channel, servo_channel)].  The first
    channel select and the opening of the bus for the probe are outside
    any [try]: their exceptions leave the function.  A probe that fails
    returns [None]; so does any failure of the block that builds the kit,
    configures the servo and returns the multiplexer to channel 0. *)
Definition initialize_servo_with_mux (mux_channel servo_channel : Z) (w : World)
  : result (option FixedServoInit.ServoKitWithMux) World :=
  match shl1 mux_channel with
  | None => Raised ValueError w
  | Some mask =>
      let (selected, w1) := bus_write_byte 0x70 mask w in
      if selected then
        let (opened, w2) := bus_open (sleep (1 # 10) w1) in
        if opened then
          let (seen, w3) := bus_read_byte 0x40 w2 in
          if seen then
            let (i2c, w4) := untraced w3 in
            if i2c then
              let (made, w5) := servokit_init (sleep (1 # 10) w4) in
              if made then
                let (configured, w6) := servo_configure servo_channel w5 in
                if configured then
                  let (back, w7) := bus_write_byte 0x70 (Z.shiftl 1 0) w6 in
                  if back then
                    Done (Some (FixedServoInit.mkServoKitWithMux
                                  mux_channel servo_channel 0x70))
                         (sleep (1 # 100) w7)
                  else Done None w7
                else Done None w6
              else Done None w5
            else Done None w4
          else Done None w3
        else Raised OSError w2
      else Raised OSError w1
  end.

End FixedServoSetup.

(* ===================================================================== *)
(** * screen_tilt_control.py: construction *)
(* ===================================================================== *)

Module TiltSetup.

(** The fixed initialisation, tried first when the module is available;
    any exception means no wrapper. *)
Definition init_fixed (cfg : Config) (available : bool) (w : World)
  : option FixedServoInit.ServoKitWithMux * World :=
  if available then
    match FixedServoSetup.initialize_servo_with_mux 1 (cfg_servo_channel cfg) w with
    | Done r w' => (r, w')
    | Raised _ w' => (None, w')
    end
  else (None, w).

(** The mux-aware initialisation, tried when the fixed one gave nothing:
    five attempts, then the servo parameters; any exception means no
    wrapper. *)
Definition init_mux_aware (cfg : Config) (available : bool)
    (fixed : option FixedServoInit.ServoKitWithMux) (w : World)
  : option MuxAwareServo.MuxAwareServoKit * World :=
  match fixed with
  | Some _ => (None, w)
  | None =>
      if available then
        let '(ok, ms, w1) :=
          MuxAwareLifecycle.initialize (MuxAwareLifecycle.new 1 0x70) 5 w in
        if ok then
          match MuxAwareLifecycle.configure_servo ms (cfg_servo_channel cfg) w1 with
          | Done _ w2 => (Some ms, w2)
          | Raised _ w2 => (None, w2)
          end
        else (None, w1)
      else (None, w)
  end.

(** The direct fallback, [for attempt in range(3)] with [remaining]
    iterations to go.  [kit] is the attribute as it stands: assigned when
    [ServoKit(...)] returns, reset to [None] only by the last failure. *)
Fixpoint init_direct (remaining : nat) (kit : bool) (servo_channel : Z) (w : World)
  : bool * World :=
  match remaining with
  | O => (kit, w)
  | S k =>
      let (made, w1) := servokit_init w in
      let kit1 := if made then true else kit in
      let (ok, w2) := if made then servo_configure servo_channel w1 else (false, w1) in
      if ok then (kit1, w2)
      else
        match k with
        | O => (false, w2)
        | S _ => init_direct k kit1 servo_channel (sleep (1 # 2) w2)
        end
  end.

(** How lines 50 to 147 of [__init__] end: the controller is constructed,
    one of the three [Button(...)] constructions raises, or the initial
    positioning raises. *)
Inductive init_result : Type :=
| Constructed (self : ScreenTilt.Controller) (w : World)
| GpioFailed (w : World)
| PositioningRaised (e : exn) (self : ScreenTilt.Controller) (w : World).

Definition final_world (r : init_result) : World :=
  match r with
  | Constructed _ w => w
  | GpioFailed w => w
  | PositioningRaised _ _ w => w
  end.

(** [__init__] from line 50 on, [cfg] and [state] being what [load_config]
    and [load_state] returned on lines 47 and 48 (either of which can
    raise and end the constructor there): the three servo initialisations
    in turn, none of which lets an exception out; the three encoder pins,
    constructed outside any [try]; the control variables, [clk_state]
    being the first reading of [clk_pin.is_pressed]; and the initial
    position through the wrapper that [update_servo] would use. *)
Definition init_from_line_50 (cfg : Config) (state : PersistedState)
    (fixed_available mux_aware_available : bool) (clk_state : bool) (w : World)
  : init_result :=
  let (fixed, w1) := init_fixed cfg fixed_available w in
  let (muxed, w2) := init_mux_aware cfg mux_aware_available fixed w1 in
  let (direct, w3) :=
    match muxed with
    | Some _ => (false, w2)
    | None => init_direct 3 false (cfg_servo_channel cfg) w2
    end in
  let (clk_pin, w4) := untraced w3 in
  if clk_pin then
    let (dt_pin, w5) := untraced w4 in
    if dt_pin then
      let (sw_pin, w6) := untraced w5 in
      if sw_pin then
        let self := ScreenTilt.seed cfg state fixed muxed direct clk_state in
        match ScreenTilt.move_servo self w6 with
        | Done _ w7 => Constructed self w7
        | Raised e w7 => PositioningRaised e self w7
        end
      else GpioFailed w6
    else GpioFailed w5
  else GpioFailed w4.

End TiltSetup.

(* ===================================================================== *)
(** * test_servo_encoder.py *)
(* ===================================================================== *)

Module EncoderTest.

(** The globals of the script that its loop reads and writes; pin levels
    are the integers 0 and 1 that [lgpio.gpio_read] returns. *)
Record State : Type := mkState {
  current_angle : Z;
  encoder_pos : Z;
  last_clk : Z;
  using_mux : bool
}.

(** [move_servo(angle)]: with the multiplexer, channel 1 before and channel
    0 after the servo write.  No handler: the first operation that raises
    ends the function, and the script. *)
Definition move_servo (using_mux : bool) (angle : Z) (w : World) : result unit World :=
  let write_angle (w : World) : result unit World :=
    let (moved, w1) := servo_write 0 (inject_Z angle) w in
    if moved then
      if using_mux then
        let (back, w2) := bus_write_byte 0x70 (Z.shiftl 1 0) w1 in
        if back then Done tt w2 else Raised OSError w2
      else Done tt w1
    else Raised OSError w1 in
  if using_mux then
    let (selected, w1) := bus_write_byte 0x70 (Z.shiftl 1 1) w in
    if selected then write_angle (sleep (1 # 100) w1) else Raised OSError w1
  else write_angle w.

(** One iteration of the main loop on the levels read from CLK, DT and
    SW. *)
Definition loop_step (st : State) (clk dt sw : Z) (w : World)
  : result unit (State * World) :=
  let rotated : result unit (State * World) :=
    if negb (clk =? last_clk st) then
      let st1 :=
        if negb (dt =? clk)
        then mkState (Z.min 270 (current_angle st + 5)) (encoder_pos st + 1)
               (last_clk st) (using_mux st)
        else mkState (Z.max 0 (current_angle st - 5)) (encoder_pos st - 1)
               (last_clk st) (using_mux st) in
      match move_servo (using_mux st1) (current_angle st1) w with
      | Done _ w1 => Done tt (st1, w1)
      | Raised e w1 => Raised e (st1, w1)
      end
    else Done tt (st, w) in
  match rotated with
  | Raised e sw1 => Raised e sw1
  | Done _ (st1, w1) =>
      let st2 := mkState (current_angle st1) (encoder_pos st1) clk (using_mux st1) in
      if sw =? 0 then
        let st3 := mkState 135 0 (last_clk st2) (using_mux st2) in
        match move_servo (using_mux st3) 135 w1 with
        | Done _ w2 => Done tt (st3, sleep (1 # 1000) (sleep (1 # 2) w2))
        | Raised e w2 => Raised e (st3, w2)
        end
      else Done tt (st2, sleep (1 # 1000) w1)
  end.

(** The loop over a run of samples; an exception ends it. *)
Fixpoint loop (st : State) (samples : list (Z * Z * Z)) (w : World)
  : result unit (State * World) :=
  match samples with
  | [] => Done tt (st, w)
  | (clk, dt, sw) :: rest =>
      match loop_step st clk dt sw w with
      | Done _ (st1, w1) => loop st1 rest w1
      | Raised e sw1 => Raised e sw1
      end
  end.

(** The globals before the loop, given what the first read of CLK gave
    and how the servo was reached. *)
Definition start (clk : Z) (using_mux : bool) : State := mkState 135 0 clk using_mux.

End EncoderTest.

(* ===================================================================== *)
(** * diagnostics/servo_diagnostic.py *)
(* ===================================================================== *)

Module Diagnostic.

(** The values [check_multiplexer_channels] returns: [False] without a
    multiplexer, [None] when nothing was found or the bus could not be
    used, the channel otherwise. *)
Inductive value : Type := PyFalse | PyNone | PyInt (n : Z).

(** [v is not None] *)
Definition is_not_none (v : value) : bool :=
  match v with PyNone => false | _ => true end.

(** The integer a value stands for in [1 << v]; [False] is 0. *)
Definition as_int (v : value) : Z :=
  match v with PyInt n => n | _ => 0 end.

(** The loop [for channel in range(8)] over the channels still to scan. *)
Fixpoint scan (channels : list Z) (w : World) : value * World :=
  match channels with
  | [] => (PyNone, w)
  | channel :: rest =>
      match shl1 channel with
      | None => scan rest w
      | Some mask =>
          let (selected, w1) := bus_write_byte 0x70 mask w in
          if selected then
            let (seen, w2) := bus_read_byte 0x40 (sleep (5 # 100) w1) in
            if seen then (PyInt channel, w2) else scan rest w2
          else scan rest w1
      end
  end.

Definition all_channels : list Z := [0; 1; 2; 3; 4; 5; 6; 7].

(** [check_multiplexer_channels] *)
Definition check_multiplexer_channels (w : World) : value * World :=
  let (opened, w1) := bus_open w in
  if opened then
    let (mux, w2) := bus_read_byte 0x70 w1 in
    if mux then scan all_channels w2 else (PyFalse, w2)
  else (PyNone, w1).

(** [test_servo_initialization(channel)]: [True] when the kit was built
    and the three test positions were sent. *)
Definition test_servo_initialization (channel : value) (w : World) : bool * World :=
  let selected : bool * World :=
    if is_not_none channel then
      match shl1 (as_int channel) with
      | None => (false, w)
      | Some mask =>
          let (ok, w1) := bus_write_byte 0x70 mask w in
          if ok then (true, sleep (5 # 100) w1) else (false, w1)
      end
    else (true, w) in
  let (ok, w1) := selected in
  if ok then
    let (made, w2) := servokit_init w1 in
    if made then
      let (a, w3) := servo_write 0 (90 # 1) w2 in
      if a then
        let (b, w4) := servo_write 0 (180 # 1) (sleep (1 # 2) w3) in
        if b then
          let (c, w5) := servo_write 0 (135 # 1) (sleep (1 # 2) w4) in
          (c, w5)
        else (false, w4)
      else (false, w3)
    else (false, w2)
  else (false, w1).

(** The part of the guide that [main] prints at the end. *)
Inductive advice : Type :=
| NotDetected
| OnMultiplexerChannel (v : value)
| DetectedAndWorking.

(** [main], [direct] being what [check_direct_connection] found. *)
Definition main (direct : bool) (w : World) : advice * World :=
  let (mux_channel, w1) := check_multiplexer_channels w in
  let w2 :=
    if direct then snd (test_servo_initialization PyNone w1)
    else if is_not_none mux_channel
         then snd (test_servo_initialization mux_channel w1)
         else w1 in
  let guide :=
    if negb direct && negb (is_not_none mux_channel) then NotDetected
    else if is_not_none mux_channel then OnMultiplexerChannel mux_channel
    else DetectedAndWorking in
  (guide, w2).

End Diagnostic.

(* ===================================================================== *)
(** * Configuration and state files *)
(* ===================================================================== *)

(** A JSON value. *)
#[local] Unset Elimination Schemes.
Inductive json : Type :=
| JNum (q : Q)
| JStr (s : string)
| JBool (b : bool)
| JObj (fields : list (string * json)).
#[local] Set Elimination Schemes.

(** A JSON file: not there, there but not loadable, or holding content. *)
Inductive file (A : Type) : Type :=
| Absent
| Unreadable
| Holds (content : A).
Arguments Absent {A}.
Arguments Unreadable {A}.
Arguments Holds {A} content.

Module TiltFiles.

(** The [default_config] dictionary of [load_config], in source order. *)
Definition default_config : list (string * json) :=
  [("servo_channel", JNum 0);
   ("default_mode", JStr "direct");
   ("modes",
    JObj [("direct", JObj [("sensitivity", JNum (5 # 1))]);
          ("fine", JObj [("sensitivity", JNum (1 # 1))]);
          ("range", JObj [("sensitivity", JNum (5 # 1));
                          ("min_angle", JNum (90 # 1));
                          ("max_angle", JNum (180 # 1))])]);
   ("acceleration", JBool true);
   ("acceleration_threshold", JNum (5 # 1));
   ("acceleration_multiplier", JNum (2 # 1));
   ("min_angle", JNum 0);
   ("max_angle", JNum (270 # 1));
   ("center_angle", JNum (250 # 1));
   ("smooth_movement", JBool false);
   ("movement_speed", JNum (1 # 100))].

(** The loop [for key, value in default_config.items(): if key not in
    config: config[key] = value]. *)
Definition merge_defaults (defaults : list (string * json))
    (config : gmap string json) : gmap string json :=
  fold_left
    (fun (config : gmap string json) (item : string * json) =>
       match config !! item.1 with
       | Some _ => config
       | None => <[item.1 := item.2]> config
       end)
    defaults config.

(** [load_config]: a loadable file is merged with the defaults; a file
    that is not loadable raises; without a file the defaults are written
    out and returned. *)
Definition load_config (f : file (gmap string json)) (w : World)
  : result (gmap string json) World :=
  match f with
  | Holds config => Done (merge_defaults default_config config) w
  | Unreadable => Raised ValueError w
  | Absent =>
      let (written, w1) := untraced w in
      if written then Done (list_to_map default_config) w1
      else Raised OSError w1
  end.

End TiltFiles.

(** The first value listed for a key. *)
Fixpoint assoc (key : string) (items : list (string * json)) : option json :=
  match items with
  | [] => None
  | (k, v) :: rest => if String.eqb k key then Some v else assoc key rest
  end.

(** The callbacks of a run of clicks, each a press and its release as read
    after the pause. *)
Definition burst_inputs (clicks : list (Q * Q)) : list ScreenTilt.Input :=
  flat_map (fun c => [ScreenTilt.Pressed c.1; ScreenTilt.Released c.2 false]) clicks.

(** A burst: every click is short, and is pressed and released before the
    timer armed by the click before it ([deadline], if any) expires. *)
Fixpoint quick_burst (deadline : option Q) (clicks : list (Q * Q)) : Prop :=
  match clicks with
  | [] => True
  | (pressed, released) :: rest =>
      (released - pressed <= 1)%Q /\
      match deadline with
      | Some d => (pressed < d)%Q /\ (released < d)%Q
      | None => True
      end /\
      quick_burst (Some (released + (3 # 10))%Q) rest
  end.

(** The deadline left armed by a burst. *)
Fixpoint burst_deadline (deadline : option Q) (clicks : list (Q * Q)) : option Q :=
  match clicks with
  | [] => deadline
  | (_, released) :: rest => burst_deadline (Some (released + (3 # 10))%Q) rest
  end.

(** The events of the polling thread that come from the button. *)
Definition button_events (evs : list Unified.EncoderEvent) : list Unified.EncoderEvent :=
  filter (fun e => negb (is_rotation e)) evs.

(** Every servo write of a trace asks for an angle between [lo] and [hi]. *)
Definition angles_within (lo hi : Q) (evs : list io_event) : Prop :=
  Forall (fun e => match e with
                   | ServoWrite _ angle _ => (lo <= angle <= hi)%Q
                   | _ => True
                   end) evs.

(* ===================================================================== *)
(** * startup-scripts/screen-tilt.py *)
(* ===================================================================== *)

Module TiltStartup.

(** How [main] ends: it returns, [sys.exit(0)] ends the process, or an
    exception leaves it. *)
Inductive ending : Type := Returned | Exited | Failed (e : exn).

(** The clause [except Exception] followed by the clause [finally]: the
    state is saved in each; an exception of the first save leaves after
    the second, unless the second raises in turn. *)
Definition on_error (self : ScreenTilt.Controller) (w : World) : ending * World :=
  match ScreenTilt.save_state self w with
  | Done _ (self1, w1) =>
      match ScreenTilt.save_state self1 w1 with
      | Done _ (_, w2) => (Returned, w2)
      | Raised e (_, w2) => (Failed e, w2)
      end
  | Raised e (self1, w1) =>
      match ScreenTilt.save_state self1 w1 with
      | Done _ (_, w2) => (Failed e, w2)
      | Raised e' (_, w2) => (Failed e', w2)
      end
  end.

(** [main] from the loop on: the loop polls the encoder over [samples];
    an exception of [check_encoder] is handled by [on_error]; after the
    samples a signal arrives between two iterations, whose handler saves
    the state and calls [sys.exit(0)].  [SystemExit] passes the clause
    [except Exception] and runs the clause [finally]; an exception of the
    save in the handler is handled like one of the loop. *)
Definition main (self : ScreenTilt.Controller) (samples : list (bool * bool)) (w : World)
  : ending * World :=
  match tilt_poll self samples w with
  | Raised _ (self1, w1) => on_error self1 w1
  | Done _ (self1, w1) =>
      match ScreenTilt.save_state self1 w1 with
      | Done _ (self2, w2) =>
          match ScreenTilt.save_state self2 w2 with
          | Done _ (_, w3) => (Exited, w3)
          | Raised e (_, w3) => (Failed e, w3)
          end
      | Raised _ (self2, w2) => on_error self2 w2
      end
  end.

(** The status the process ends with: 0 when [main] returns and when
    [sys.exit(0)] ends it, 1 when an exception leaves [main]. *)
Definition exit_status (e : ending) : Z :=
  match e with
  | Returned | Exited => 0
  | Failed _ => 1
  end.

End TiltStartup.

(* ===================================================================== *)
(** * Basic facts *)
(* ===================================================================== *)

Lemma new_events_app (w w' : World) (evs : list io_event) :
  trace w' = trace w ++ evs -> new_events w w' = evs.
Proof.
  intros H. unfold new_events. rewrite H.
  rewrite skipn_app, skipn_all, Nat.sub_diag. reflexivity.
Qed.

Lemma mux_attempts_app (a b : list io_event) :
  mux_attempts (a ++ b) = (mux_attempts a + mux_attempts b)%nat.
Proof. unfold mux_attempts. now rewrite filter_app, length_app. Qed.

Lemma mux_completed_app (a b : list io_event) :
  mux_completed (a ++ b) = (mux_completed a + mux_completed b)%nat.
Proof. unfold mux_completed. now rewrite filter_app, length_app. Qed.

(** What a channel-select write does to the world. *)
Lemma bus_write_byte_spec (addr value : Z) (w : World) :
  let (ok, w') := bus_write_byte addr value w in
  ok = outcome w /\
  trace w' = trace w ++ [MuxWrite addr value ok] /\
  script w' = consume w /\
  mux_reg w' = (if ok then Some value else mux_reg w).
Proof. unfold bus_write_byte. cbn. auto. Qed.

(** The shape of a switch of the unified controller that has to write. *)
Lemma switch_writes (self : Unified.Controller) (channel : Z) (w : World) :
  Unified.mux_bus self = true ->
  Unified.on_channel self channel = false ->
  0 <= channel ->
  Unified.switch_mux_channel self channel w =
    if outcome w
    then (true, Unified.set_current_mux_channel self (Some channel),
          sleep (2 # 1000) (snd (bus_write_byte Unified.MUX_ADDRESS (Z.shiftl 1 channel) w)))
    else (false, self, snd (bus_write_byte Unified.MUX_ADDRESS (Z.shiftl 1 channel) w)).
Proof.
  intros Hbus Hon Hc. unfold Unified.switch_mux_channel, shl1.
  rewrite Hbus, Hon. cbn [negb].
  destruct (Z.ltb_spec channel 0) as [Hneg|_]; [lia|].
  unfold bus_write_byte. cbn. destruct (outcome w); reflexivity.
Qed.

(** A switch without multiplexer, or to the cached channel, does nothing. *)
Lemma switch_cached (self : Unified.Controller) (channel : Z) (w : World) :
  Unified.on_channel self channel = true ->
  Unified.switch_mux_channel self channel w = (true, self, w).
Proof.
  intros Hon. unfold Unified.switch_mux_channel. rewrite Hon.
  destruct (negb (Unified.mux_bus self)); reflexivity.
Qed.

(** Every switch extends the trace, by at most one channel-select write,
    completed exactly when a write was needed and the switch succeeded. *)
Lemma switch_trace (self : Unified.Controller) (channel : Z) (w : World) :
  let '(ok, self', w') := Unified.switch_mux_channel self channel w in
  exists evs,
    trace w' = trace w ++ evs /\
    (mux_attempts evs <= 1)%nat /\
    mux_completed evs = (if ok then mux_attempts evs else O) /\
    (ok = true -> Unified.mux_bus self = true ->
       Unified.on_channel self' channel = true) /\
    (mux_attempts evs = O -> self' = self).
Proof.
  unfold Unified.switch_mux_channel.
  destruct (negb (Unified.mux_bus self)) eqn:Hbus.
  { exists []. rewrite app_nil_r. repeat split; auto.
    intros _ Hb. rewrite Hb in Hbus. discriminate. }
  destruct (Unified.on_channel self channel) eqn:Hon.
  { exists []. rewrite app_nil_r. repeat split; auto. }
  destruct (shl1 channel) as [mask|].
  2:{ exists []. rewrite app_nil_r. repeat split; auto. discriminate. }
  unfold bus_write_byte. cbn. destruct (outcome w); cbn.
  - exists [MuxWrite Unified.MUX_ADDRESS mask true; Sleep (2 # 1000)].
    rewrite <- app_assoc. repeat split; cbn; auto.
    + intros _ _. unfold Unified.on_channel. cbn. apply Z.eqb_refl.
    + discriminate.
  - exists [MuxWrite Unified.MUX_ADDRESS mask false].
    repeat split; cbn; auto; discriminate.
Qed.

(** A switch changes nothing but the cached channel. *)
Lemma switch_frame (self : Unified.Controller) (channel : Z) (w : World) :
  let '(ok, self', w') := Unified.switch_mux_channel self channel w in
  self' = self \/
  (ok = true /\ self' = Unified.set_current_mux_channel self (Some channel)).
Proof.
  unfold Unified.switch_mux_channel.
  destruct (negb (Unified.mux_bus self)); [now left|].
  destruct (Unified.on_channel self channel); [now left|].
  destruct (shl1 channel); [|now left].
  unfold bus_write_byte. cbn. destruct (outcome w); [right|left]; auto.
Qed.

(* ===================================================================== *)
(** * The bus arbiter *)
(* ===================================================================== *)

(** C2.  A switch to the channel that is already cached succeeds without
    touching the bus or the state.  Two switches in a row to one channel
    complete at most one channel-select write between them; when the first
    succeeds the second issues none at all, so that one attempt is all the
    pair makes (a failed first attempt is retried by the second call). *)
Theorem switch_same_channel_once :
  forall (self : Unified.Controller) (c : Z) (w : World),
    (Unified.current_mux_channel self = Some c ->
       Unified.switch_mux_channel self c w = (true, self, w)) /\
    (let '(ok1, self1, w1) := Unified.switch_mux_channel self c w in
     let '(ok2, self2, w2) := Unified.switch_mux_channel self1 c w1 in
     (mux_completed (new_events w w2) <= 1)%nat /\
     (ok1 = true -> ok2 = true /\ w2 = w1 /\
                    (mux_attempts (new_events w w2) <= 1)%nat)).
Proof.
  intros self c w. split.
  - intros Hc. apply switch_cached. unfold Unified.on_channel.
    rewrite Hc. apply Z.eqb_refl.
  - pose proof (switch_trace self c w) as H1.
    pose proof (switch_frame self c w) as F1.
    destruct (Unified.switch_mux_channel self c w) as [[ok1 self1] w1] eqn:E1.
    destruct H1 as (evs1 & Ht1 & Ha1 & Hc1 & Hon1 & _).
    pose proof (switch_trace self1 c w1) as H2.
    destruct (Unified.switch_mux_channel self1 c w1) as [[ok2 self2] w2] eqn:E2.
    destruct H2 as (evs2 & Ht2 & Ha2 & Hc2 & _ & _).
    assert (Hnew : new_events w w2 = evs1 ++ evs2).
    { apply new_events_app. rewrite Ht2, Ht1. now rewrite app_assoc. }
    destruct ok1.
    + (* the first call succeeded: the second is served from the cache *)
      assert (E2' : Unified.switch_mux_channel self1 c w1 = (true, self1, w1)).
      { destruct (Unified.mux_bus self) eqn:Hbus.
        - apply switch_cached. now apply Hon1.
        - destruct F1 as [->|[_ ->]];
            unfold Unified.switch_mux_channel; cbn; now rewrite Hbus. }
      rewrite E2' in E2. injection E2 as <- <- <-.
      rewrite Hnew, mux_completed_app, mux_attempts_app, Hc1.
      assert (evs2 = []) as ->.
      { apply (app_inv_head (trace w1)). now rewrite app_nil_r. }
      cbn. split; [lia|]. repeat split; lia.
    + rewrite Hnew, mux_completed_app, Hc1, Hc2.
      split; [destruct ok2; lia | discriminate].
Qed.

(** C2, witness: a switch to the servo channel from a controller already
    on it, on a bus that would fail; and two switches in a row from a
    controller with nothing cached, on a bus that works. *)
Lemma switch_same_channel_once_witness :
  let fresh := Unified.seed Unified.default_config (mkPersisted None None) true true in
  let cached := Unified.set_current_mux_channel fresh (Some Unified.SERVO_CHANNEL) in
  let faulty := mkWorld (Some 2) [false; false] [] in
  let sound := mkWorld None [true; true] [] in
  let first := Unified.switch_mux_channel fresh Unified.SERVO_CHANNEL sound in
  let second := Unified.switch_mux_channel first.1.2 Unified.SERVO_CHANNEL first.2 in
  Unified.switch_mux_channel cached Unified.SERVO_CHANNEL faulty = (true, cached, faulty) /\
  first.1.1 = true /\
  second.1.1 = true /\
  second.2 = first.2 /\
  (mux_attempts (new_events sound second.2) <= 1)%nat.
Proof.
  cbv zeta. split.
  - exact (proj1 (switch_same_channel_once
                    (Unified.set_current_mux_channel
                       (Unified.seed Unified.default_config (mkPersisted None None)
                          true true)
                       (Some Unified.SERVO_CHANNEL))
                    Unified.SERVO_CHANNEL (mkWorld (Some 2) [false; false] []))
                 eq_refl).
  - pose proof (proj2 (switch_same_channel_once
                         (Unified.seed Unified.default_config (mkPersisted None None)
                            true true)
                         Unified.SERVO_CHANNEL (mkWorld None [true; true] []))) as H.
    vm_compute in H. destruct H as (_ & H).
    destruct (H eq_refl) as (H2 & H3 & H4).
    vm_compute. repeat split; assumption.
Defined.

(** The release of the unified controller's scope: once the switch to the
    servo channel has succeeded, the switch back is a real write. *)
Lemma unified_scope_release (self : Unified.Controller) (w : World) :
  Unified.mux_bus self = true ->
  (Unified.switch_mux_channel self Unified.SERVO_CHANNEL w).1.1 = true ->
  let '(self', w') := Unified.servo_scoped_write self w in
  exists rel_ok : bool,
    released_to_idle Unified.MUX_ADDRESS rel_ok (new_events w w') /\
    Unified.current_mux_channel self' =
      Some (if rel_ok then Unified.OLED_CHANNEL else Unified.SERVO_CHANNEL) /\
    (rel_ok = true -> mux_reg w' = Some 1) /\
    (rel_ok = false ->
     mux_reg w' = mux_reg (Unified.switch_mux_channel self Unified.SERVO_CHANNEL w).2).
Proof.
  intros Hbus Hin. unfold Unified.servo_scoped_write.
  pose proof (switch_trace self Unified.SERVO_CHANNEL w) as H1.
  pose proof (switch_frame self Unified.SERVO_CHANNEL w) as F1.
  destruct (Unified.switch_mux_channel self Unified.SERVO_CHANNEL w)
    as [[ok1 self1] w1] eqn:E1.
  cbn in Hin. subst ok1.
  destruct H1 as (evs1 & Ht1 & _ & _ & Hon1 & _).
  specialize (Hon1 eq_refl Hbus).
  assert (Hcur : Unified.current_mux_channel self1 = Some Unified.SERVO_CHANNEL).
  { unfold Unified.on_channel in Hon1.
    destruct (Unified.current_mux_channel self1) as [c|]; [|discriminate].
    apply Z.eqb_eq in Hon1. now subst. }
  assert (Hbus1 : Unified.mux_bus self1 = true).
  { destruct F1 as [->|[_ ->]]; exact Hbus. }
  destruct (servo_write (Unified.servo_channel self1) (Unified.current_angle self1) w1)
    as [dev_ok w2] eqn:E2.
  assert (Ht2 : trace w2 = trace w1 ++
                [ServoWrite (Unified.servo_channel self1) (Unified.current_angle self1) dev_ok]
                /\ mux_reg w2 = mux_reg w1).
  { unfold servo_write in E2. injection E2 as <- <-. split; reflexivity. }
  destruct Ht2 as [Ht2 Hr2].
  rewrite (switch_writes self1 Unified.OLED_CHANNEL w2 Hbus1);
    [| unfold Unified.on_channel; now rewrite Hcur
     | unfold Unified.OLED_CHANNEL; lia].
  destruct (outcome w2) eqn:Hout; cbn;
    [exists true | exists false]; rewrite ?Hout; (split; [|split; [|split]]); auto.
  - exists (evs1 ++ [ServoWrite (Unified.servo_channel self1)
                       (Unified.current_angle self1) dev_ok]), [Sleep (2 # 1000)].
    split; [|reflexivity]. apply new_events_app.
    cbn. rewrite Ht2, Ht1. now rewrite <- !app_assoc.
  - discriminate.
  - exists (evs1 ++ [ServoWrite (Unified.servo_channel self1)
                       (Unified.current_angle self1) dev_ok]), [].
    split; [|reflexivity]. apply new_events_app.
    cbn. rewrite Ht2, Ht1. now rewrite <- !app_assoc.
  - discriminate.
Qed.

(** What [ensure_mux_channel] leaves in the register. *)
Lemma fixed_ensure_register (fs : FixedServoInit.ServoKitWithMux) (w : World) :
  mux_reg (FixedServoInit.ensure_mux_channel fs w)
    = after_select (FixedServoInit.mux_channel fs) w.
Proof.
  unfold FixedServoInit.ensure_mux_channel, after_select, shl1.
  destruct (FixedServoInit.mux_channel fs <? 0); [reflexivity|].
  unfold bus_write_byte. cbn. destruct (outcome w); reflexivity.
Qed.

(** The [finally] clause of [ServoKitWithMux.set_angle]. *)
Lemma fixed_scope_release (fs : FixedServoInit.ServoKitWithMux) (angle : Q) (w : World) :
  let '(ok, w') := FixedServoInit.set_angle fs angle w in
  exists rel_ok : bool,
    released_to_idle (FixedServoInit.mux_address fs) rel_ok (new_events w w') /\
    (rel_ok = true -> mux_reg w' = Some 1) /\
    (rel_ok = false -> mux_reg w' = after_select (FixedServoInit.mux_channel fs) w).
Proof.
  unfold FixedServoInit.set_angle, FixedServoInit.return_to_oled.
  rewrite <- fixed_ensure_register.
  set (w1 := FixedServoInit.ensure_mux_channel fs w).
  assert (H1 : exists evs1, trace w1 = trace w ++ evs1).
  { unfold w1, FixedServoInit.ensure_mux_channel.
    destruct (shl1 _); [|exists []; now rewrite app_nil_r].
    unfold bus_write_byte. destruct (outcome w); cbn.
    - eexists. now rewrite <- app_assoc.
    - eexists. reflexivity. }
  destruct H1 as (evs1 & Ht1). clearbody w1.
  unfold servo_write. cbn.
  set (w3 := if outcome w1 then _ else _).
  assert (H3 : (exists evs3, trace w3 = trace w ++ evs3) /\ mux_reg w3 = mux_reg w1).
  { unfold w3. destruct (outcome w1); cbn; rewrite Ht1;
      rewrite <- ?app_assoc; (split; [eexists; reflexivity | reflexivity]). }
  destruct H3 as ((evs3 & Ht3) & Hr3). clearbody w3.
  exists (outcome w3). split; [|split].
  - exists evs3, []. split; [|reflexivity]. apply new_events_app.
    cbn. rewrite Ht3. now rewrite <- app_assoc.
  - intros ->. reflexivity.
  - intros ->. exact Hr3.
Qed.

(** The [finally] clause of [MuxAwareServoKit.mux_channel_selected], around
    the servo write of [set_servo_angle]. *)
Lemma mux_aware_scope_release (ms : MuxAwareServo.MuxAwareServoKit)
    (servo_num : Z) (angle : Q) (w : World) :
  MuxAwareServo.kit ms = true ->
  MuxAwareServo.mux_bus ms = true ->
  let w' := final (MuxAwareServo.set_servo_angle ms servo_num angle w) in
  exists rel_ok : bool,
    released_to_idle (MuxAwareServo.mux_address ms) rel_ok (new_events w w') /\
    (rel_ok = true -> mux_reg w' = Some 1) /\
    (rel_ok = false -> mux_reg w' = after_select (MuxAwareServo.mux_channel ms) w).
Proof.
  intros Hkit Hbus.
  unfold MuxAwareServo.set_servo_angle, MuxAwareServo.mux_channel_selected.
  rewrite Hkit, Hbus. cbn [negb].
  assert (Hrel : forall w0 evs0, trace w0 = trace w ++ evs0 ->
            exists rel_ok : bool,
              released_to_idle (MuxAwareServo.mux_address ms) rel_ok
                (new_events w (MuxAwareServo.return_to_oled ms w0)) /\
              (rel_ok = true -> mux_reg (MuxAwareServo.return_to_oled ms w0) = Some 1) /\
              (rel_ok = false ->
               mux_reg (MuxAwareServo.return_to_oled ms w0) = mux_reg w0)).
  { intros w0 evs0 Ht0. unfold MuxAwareServo.return_to_oled, bus_write_byte.
    exists (outcome w0). destruct (outcome w0); cbn;
      (split; [|split]); try discriminate; auto.
    - exists evs0, [Sleep (2 # 1000)]. split; [|reflexivity].
      apply new_events_app. cbn. rewrite Ht0. now rewrite <- !app_assoc.
    - exists evs0, []. split; [|reflexivity].
      apply new_events_app. cbn. rewrite Ht0. now rewrite <- !app_assoc. }
  unfold after_select, shl1.
  destruct (MuxAwareServo.mux_channel ms <? 0).
  { cbn [final negb andb]. apply (Hrel w []). now rewrite app_nil_r. }
  cbn [negb andb].
  pose proof (bus_write_byte_spec (MuxAwareServo.mux_address ms)
                (Z.shiftl 1 (MuxAwareServo.mux_channel ms)) w) as Hw.
  destruct (bus_write_byte (MuxAwareServo.mux_address ms)
              (Z.shiftl 1 (MuxAwareServo.mux_channel ms)) w) as [ok w1].
  destruct Hw as (Hok & Ht1 & _ & Hr1). rewrite <- Hok.
  destruct ok.
  - destruct (servo_write servo_num angle (sleep (2 # 1000) w1)) as [a w2] eqn:E2.
    cbn [final].
    assert (H2 : trace w2 = trace w ++
                   [MuxWrite (MuxAwareServo.mux_address ms)
                      (Z.shiftl 1 (MuxAwareServo.mux_channel ms)) true;
                    Sleep (2 # 1000); ServoWrite servo_num angle a] /\
                 mux_reg w2 = mux_reg w1).
    { unfold servo_write in E2. injection E2 as <- <-.
      cbn. rewrite Ht1, <- !app_assoc. split; reflexivity. }
    destruct H2 as [Ht2 Hr2].
    destruct (Hrel w2 _ Ht2) as (rel_ok & Hi & Ht & Hf).
    exists rel_ok. split; [exact Hi|]. split; [exact Ht|].
    intros Hno. rewrite (Hf Hno), Hr2, Hr1. reflexivity.
  - cbn [final].
    destruct (Hrel w1 _ Ht1) as (rel_ok & Hi & Ht & Hf).
    exists rel_ok. split; [exact Hi|]. split; [exact Ht|].
    intros Hno. rewrite (Hf Hno), Hr1. reflexivity.
Qed.

(** C1, as the code has it.  Every scoped actuator access ends with an
    attempt to select the display channel, whatever the device write
    inside the scope did: in the unified controller once a multiplexer is
    present and the switch to the servo channel has succeeded, in
    [ServoKitWithMux.set_angle] always, in
    [MuxAwareServoKit.set_servo_angle] whenever a kit and a bus are held.
    When that last channel-select write succeeds the multiplexer is on the
    display channel, and so is the cached channel of the unified
    controller, the only one of the three that caches it.  When it fails
    the failure is passed over and the multiplexer stays where the entry
    into the scope left it: the cached channel of the unified controller
    remains the servo channel; in the two wrappers the register holds the
    servo's channel when their select at entry succeeded and is otherwise
    what it was before the access. *)
Theorem scoped_access_release_best_effort :
  forall (self : Unified.Controller) (fs : FixedServoInit.ServoKitWithMux)
         (ms : MuxAwareServo.MuxAwareServoKit) (servo_num : Z) (angle : Q)
         (w : World),
    Unified.mux_bus self = true ->
    (Unified.switch_mux_channel self Unified.SERVO_CHANNEL w).1.1 = true ->
    MuxAwareServo.kit ms = true ->
    MuxAwareServo.mux_bus ms = true ->
    (let '(self', w') := Unified.servo_scoped_write self w in
     exists rel_ok : bool,
       released_to_idle Unified.MUX_ADDRESS rel_ok (new_events w w') /\
       Unified.current_mux_channel self' =
         Some (if rel_ok then Unified.OLED_CHANNEL else Unified.SERVO_CHANNEL) /\
       (rel_ok = true -> mux_reg w' = Some 1) /\
       (rel_ok = false ->
        mux_reg w' = mux_reg (Unified.switch_mux_channel self Unified.SERVO_CHANNEL w).2)) /\
    (let '(_, w') := FixedServoInit.set_angle fs angle w in
     exists rel_ok : bool,
       released_to_idle (FixedServoInit.mux_address fs) rel_ok (new_events w w') /\
       (rel_ok = true -> mux_reg w' = Some 1) /\
       (rel_ok = false -> mux_reg w' = after_select (FixedServoInit.mux_channel fs) w)) /\
    (let w' := final (MuxAwareServo.set_servo_angle ms servo_num angle w) in
     exists rel_ok : bool,
       released_to_idle (MuxAwareServo.mux_address ms) rel_ok (new_events w w') /\
       (rel_ok = true -> mux_reg w' = Some 1) /\
       (rel_ok = false -> mux_reg w' = after_select (MuxAwareServo.mux_channel ms) w)).
Proof.
  intros self fs ms servo_num angle w Hbus Hin Hkit Hmbus.
  split; [|split].
  - exact (unified_scope_release self w Hbus Hin).
  - exact (fixed_scope_release fs angle w).
  - exact (mux_aware_scope_release ms servo_num angle w Hkit Hmbus).
Qed.

(** C1, witness: the servo write fails inside the scope and the release
    succeeds. *)
Lemma scoped_access_release_witness :
  let self := Unified.seed Unified.default_config (mkPersisted None None) true true in
  let fs := FixedServoInit.mkServoKitWithMux 1 0 0x70 in
  let ms := MuxAwareServo.mkMuxAwareServoKit 1 0x70 true true in
  let w := mkWorld None [true; false; true] [] in
  (let '(self', w') := Unified.servo_scoped_write self w in
   exists rel_ok : bool,
     released_to_idle Unified.MUX_ADDRESS rel_ok (new_events w w') /\
     Unified.current_mux_channel self' =
       Some (if rel_ok then Unified.OLED_CHANNEL else Unified.SERVO_CHANNEL) /\
     (rel_ok = true -> mux_reg w' = Some 1) /\
     (rel_ok = false ->
      mux_reg w' = mux_reg (Unified.switch_mux_channel self Unified.SERVO_CHANNEL w).2)) /\
  (let '(_, w') := FixedServoInit.set_angle fs (90 # 1) w in
   exists rel_ok : bool,
     released_to_idle (FixedServoInit.mux_address fs) rel_ok (new_events w w') /\
     (rel_ok = true -> mux_reg w' = Some 1) /\
     (rel_ok = false -> mux_reg w' = after_select (FixedServoInit.mux_channel fs) w)) /\
  (let w' := final (MuxAwareServo.set_servo_angle ms 0 (90 # 1) w) in
   exists rel_ok : bool,
     released_to_idle (MuxAwareServo.mux_address ms) rel_ok (new_events w w') /\
     (rel_ok = true -> mux_reg w' = Some 1) /\
     (rel_ok = false -> mux_reg w' = after_select (MuxAwareServo.mux_channel ms) w)).
Proof.
  exact (scoped_access_release_best_effort
           (Unified.seed Unified.default_config (mkPersisted None None) true true)
           (FixedServoInit.mkServoKitWithMux 1 0 0x70)
           (MuxAwareServo.mkMuxAwareServoKit 1 0x70 true true)
           0 (90 # 1) (mkWorld None [true; false; true] [])
           eq_refl eq_refl eq_refl eq_refl).
Defined.

(** C1, counterexample: the switch to the servo channel and the servo
    write succeed, the write that releases the scope fails; the cached
    channel and the multiplexer stay on the servo channel. *)
Lemma scoped_access_release_can_fail :
  let self := Unified.seed Unified.default_config (mkPersisted None None) true true in
  let w := mkWorld None [true; true; false] [] in
  (Unified.switch_mux_channel self Unified.SERVO_CHANNEL w).1.1 = true /\
  Unified.current_mux_channel (Unified.servo_scoped_write self w).1
    = Some Unified.SERVO_CHANNEL /\
  Unified.current_mux_channel (Unified.servo_scoped_write self w).1
    <> Some Unified.OLED_CHANNEL /\
  mux_reg (Unified.servo_scoped_write self w).2 = Some 2 /\
  trace (Unified.servo_scoped_write self w).2 =
    [MuxWrite 0x70 2 true; Sleep (2 # 1000); ServoWrite 0 (145 # 1) true;
     MuxWrite 0x70 1 false].
Proof. vm_compute. repeat split; discriminate. Qed.

(** The retry loop of [_ensure_channel] issues at most as many writes as
    it has iterations, and a failure leaves the wrapper as it was. *)
Lemma ensure_attempts_bound (n : nat) :
  forall (oled : ResilientOLED.ResilientMuxOLED) (t : Q) (w : World),
    let '(ok, oled', w') := ResilientOLED.ensure_attempts n oled t w in
    exists evs,
      trace w' = trace w ++ evs /\
      (mux_attempts evs <= n)%nat /\
      (ok = false -> oled' = oled).
Proof.
  induction n as [|k IH]; intros oled t w.
  - exists []. cbn. rewrite app_nil_r. auto.
  - cbn [ResilientOLED.ensure_attempts].
    set (r := match shl1 (ResilientOLED.mux_channel oled) with
              | Some mask => bus_write_byte (ResilientOLED.mux_addr oled) mask w
              | None => (false, w)
              end).
    assert (Hr : exists evs1, trace r.2 = trace w ++ evs1 /\ (mux_attempts evs1 <= 1)%nat).
    { unfold r. destruct (shl1 _).
      - eexists. split; [reflexivity|]. cbn. lia.
      - exists []. cbn. rewrite app_nil_r. auto. }
    destruct r as [ok w1]. cbn [snd] in Hr. destruct Hr as (evs1 & Ht1 & Hb1).
    destruct ok.
    + exists (evs1 ++ [Sleep (2 # 1000)]). cbn. rewrite Ht1, app_assoc.
      split; [reflexivity|]. rewrite mux_attempts_app. cbn.
      split; [lia | discriminate].
    + destruct k as [|k'].
      * exists evs1. repeat split; auto; lia.
      * specialize (IH oled t (sleep (1 # 100) w1)).
        destruct (ResilientOLED.ensure_attempts (S k') oled t (sleep (1 # 100) w1))
          as [[ok' oled'] w'].
        destruct IH as (evs2 & Ht2 & Hb2 & Hf2).
        exists (evs1 ++ [Sleep (1 # 100)] ++ evs2).
        split; [cbn in Ht2; rewrite Ht2, Ht1; now rewrite <- !app_assoc|].
        rewrite !mux_attempts_app. cbn. split; [lia | exact Hf2].
Qed.

(** C3, as the code has it.  When the target differs from the cached
    channel the unified controller's switch issues one channel-select write
    and does not retry: with a failing bus it returns [False] after that
    single attempt, the cached channel untouched.  The display wrapper's
    [_ensure_channel], when its recovery interval does not skip the work,
    makes up to three attempts 10 ms apart; when all three fail it returns
    [False] with [last_ensure_time] untouched.  Neither raises, and on any
    bus the one never issues more than one write and the other never more
    than three. *)
Theorem channel_switch_failure_contained :
  forall (self : Unified.Controller) (c : Z)
         (oled : ResilientOLED.ResilientMuxOLED) (force : bool) (t : Q)
         (w : World) (rest : list bool),
    Unified.mux_bus self = true ->
    Unified.on_channel self c = false ->
    0 <= c ->
    ResilientOLED.mux_available oled = true ->
    0 <= ResilientOLED.mux_channel oled ->
    (force = true \/
     (ResilientOLED.recovery_interval oled <= t - ResilientOLED.last_ensure_time oled)%Q) ->
    script w = false :: false :: false :: rest ->
    Unified.switch_mux_channel self c w =
      (false, self,
       {| mux_reg := mux_reg w;
          script := false :: false :: rest;
          trace := trace w ++ [MuxWrite Unified.MUX_ADDRESS (Z.shiftl 1 c) false] |}) /\
    ResilientOLED._ensure_channel oled force t w =
      (false, oled,
       {| mux_reg := mux_reg w;
          script := rest;
          trace := trace w ++
            (let select := MuxWrite (ResilientOLED.mux_addr oled)
                             (Z.shiftl 1 (ResilientOLED.mux_channel oled)) false in
             [select; Sleep (1 # 100); select; Sleep (1 # 100); select]) |}) /\
    (forall any : World,
       (mux_attempts (new_events any (Unified.switch_mux_channel self c any).2) <= 1)%nat /\
       (mux_attempts
          (new_events any (ResilientOLED._ensure_channel oled force t any).2) <= 3)%nat).
Proof.
  intros self c oled force t w rest Hbus Hon Hc Hav Hch Hgate Hscr.
  assert (Hg : negb force &&
               (if Qlt_le_dec (t - ResilientOLED.last_ensure_time oled)
                     (ResilientOLED.recovery_interval oled)
                then true else false) = false).
  { destruct Hgate as [->|Hle]; [reflexivity|].
    destruct (Qlt_le_dec _ _) as [Hlt|_]; [|apply andb_false_r].
    exfalso. apply (Qlt_not_le _ _ Hlt Hle). }
  split; [|split].
  - rewrite (switch_writes self c w Hbus Hon Hc).
    unfold outcome, bus_write_byte, outcome, consume. rewrite Hscr. reflexivity.
  - unfold ResilientOLED._ensure_channel. rewrite Hav. cbn [negb].
    rewrite Hg. unfold ResilientOLED.retries, ResilientOLED.ensure_attempts, shl1.
    destruct (Z.ltb_spec (ResilientOLED.mux_channel oled) 0) as [Hneg|_]; [lia|].
    unfold bus_write_byte, sleep, outcome, consume. cbn. rewrite Hscr. cbn.
    rewrite <- !app_assoc. reflexivity.
  - intros any. split.
    + pose proof (switch_trace self c any) as H.
      destruct (Unified.switch_mux_channel self c any) as [[ok self'] w'].
      destruct H as (evs & Ht & Hb & _). cbn [snd].
      now rewrite (new_events_app _ _ _ Ht).
    + unfold ResilientOLED._ensure_channel. rewrite Hav, Hg. cbn [negb].
      pose proof (ensure_attempts_bound ResilientOLED.retries oled t any) as H.
      destruct (ResilientOLED.ensure_attempts ResilientOLED.retries oled t any)
        as [[ok oled'] w'].
      destruct H as (evs & Ht & Hb & _). cbn [snd].
      now rewrite (new_events_app _ _ _ Ht).
Qed.

(** C3, witness: channel 1 requested from a controller that has no channel
    cached, and a forced [_ensure_channel], on a bus that fails three
    times. *)
Lemma channel_switch_failure_witness :
  let self := Unified.seed Unified.default_config (mkPersisted None None) true true in
  let oled := ResilientOLED.mkResilientMuxOLED 0 0x70 (1 # 2) 0 0 true in
  let w := mkWorld None [false; false; false; true] [] in
  Unified.switch_mux_channel self 1 w =
    (false, self,
     {| mux_reg := None; script := [false; false; true];
        trace := [MuxWrite 0x70 2 false] |}) /\
  ResilientOLED._ensure_channel oled true 0 w =
    (false, oled,
     {| mux_reg := None; script := [true];
        trace := [MuxWrite 0x70 1 false; Sleep (1 # 100); MuxWrite 0x70 1 false;
                  Sleep (1 # 100); MuxWrite 0x70 1 false] |}) /\
  (forall any : World,
     (mux_attempts (new_events any (Unified.switch_mux_channel self 1 any).2) <= 1)%nat /\
     (mux_attempts
        (new_events any (ResilientOLED._ensure_channel oled true 0 any).2) <= 3)%nat).
Proof.
  refine (channel_switch_failure_contained
            (Unified.seed Unified.default_config (mkPersisted None None) true true)
            1 (ResilientOLED.mkResilientMuxOLED 0 0x70 (1 # 2) 0 0 true) true 0
            (mkWorld None [false; false; false; true] []) [true]
            eq_refl eq_refl _ eq_refl _ (or_introl eq_refl) eq_refl); cbn; lia.
Defined.

(** C3, counterexample: the first write fails and the next one would have
    succeeded; the switch of the unified controller has already returned
    [False] after one attempt, not three. *)
Lemma switch_gives_up_after_one_attempt :
  let self := Unified.seed Unified.default_config (mkPersisted None None) true true in
  let w := mkWorld None [false; true; true] [] in
  let '(ok, self', w') := Unified.switch_mux_channel self Unified.SERVO_CHANNEL w in
  Unified.current_mux_channel self <> Some Unified.SERVO_CHANNEL /\
  ok = false /\
  mux_attempts (trace w') = 1%nat /\
  mux_attempts (trace w') <> 3%nat /\
  script w' = [true; true].
Proof. vm_compute. repeat split; discriminate. Qed.

(* ===================================================================== *)
(** * The servo position model *)
(* ===================================================================== *)

Lemma clamp_lower (lo hi x : Q) : (lo <= clamp lo hi x)%Q.
Proof.
  unfold clamp, py_max. destruct (Qle_bool (py_min hi x) lo) eqn:E.
  - apply Qle_refl.
  - apply Qlt_le_weak, Qnot_le_lt. intros H.
    apply Qle_bool_iff in H. congruence.
Qed.

Lemma clamp_upper (lo hi x : Q) : (lo <= hi)%Q -> (clamp lo hi x <= hi)%Q.
Proof.
  intros Hlh. unfold clamp, py_max, py_min.
  destruct (Qle_bool hi x) eqn:E1.
  - destruct (Qle_bool hi lo); [exact Hlh | apply Qle_refl].
  - assert (Hx : (x <= hi)%Q).
    { apply Qlt_le_weak, Qnot_le_lt. intros H.
      apply Qle_bool_iff in H. congruence. }
    destruct (Qle_bool x lo); [exact Hlh | exact Hx].
Qed.

Lemma py_ne_false (a b : Q) : py_ne a b = false -> (a == b)%Q.
Proof.
  unfold py_ne. intros H. apply negb_false_iff in H. now apply Qeq_bool_iff.
Qed.

Lemma servo_invariant_of_model (center sens lo hi : Q) (pos : Z) (angle : Q) :
  (lo <= hi)%Q ->
  (angle == model_angle center sens lo hi pos)%Q ->
  servo_invariant center sens lo hi pos angle.
Proof.
  intros Hlh Heq. unfold servo_invariant. rewrite Heq. unfold model_angle.
  split; [apply clamp_lower|]. split; [now apply clamp_upper | reflexivity].
Qed.

(** The limits applied by either controller are the effective range. *)
Lemma clamp_range_effective (c : Config) (mode : string) (lo hi x : Q) :
  effective_range c mode = Some (lo, hi) ->
  (if String.eqb mode "range" then
     match lookup_mode c "range" with
     | inl e => inl e
     | inr range_config => clamp_range range_config x
     end
   else inr (clamp (min_angle c) (max_angle c) x)) = inr (clamp lo hi x).
Proof.
  unfold effective_range, lookup_mode, clamp_range.
  destruct (String.eqb mode "range").
  - destruct (modes c !! "range") as [rc|]; [|discriminate].
    destruct (mode_min_angle rc), (mode_max_angle rc); try discriminate.
    now intros [= -> ->].
  - now intros [= -> ->].
Qed.

(** The scoped write of the unified controller moves the cached channel
    only. *)
Lemma servo_scoped_write_frame (self : Unified.Controller) (w : World) :
  let '(self', w') := Unified.servo_scoped_write self w in
  unified_same_setup self self' /\
  Unified.current_angle self' = Unified.current_angle self /\
  Unified.encoder_pos self' = Unified.encoder_pos self.
Proof.
  unfold Unified.servo_scoped_write.
  pose proof (switch_frame self Unified.SERVO_CHANNEL w) as F1.
  destruct (Unified.switch_mux_channel self Unified.SERVO_CHANNEL w)
    as [[ok1 self1] w1].
  assert (H1 : unified_same_setup self self1 /\
               Unified.current_angle self1 = Unified.current_angle self /\
               Unified.encoder_pos self1 = Unified.encoder_pos self).
  { destruct F1 as [->|[_ ->]]; unfold unified_same_setup; cbn; auto 10. }
  destruct ok1; [|exact H1].
  destruct (servo_write _ _ w1) as [dev w2].
  pose proof (switch_frame self1 Unified.OLED_CHANNEL w2) as F2.
  destruct (Unified.switch_mux_channel self1 Unified.OLED_CHANNEL w2)
    as [[ok3 self3] w3].
  destruct F2 as [->|[_ ->]]; [exact H1|].
  destruct H1 as ((? & ? & ? & ? & ? & ?) & ? & ?).
  unfold unified_same_setup; cbn; auto 10.
Qed.

(** [update_servo_angle] on an initialised servo and a configured mode:
    it returns, the position has moved by [delta] and the angle is the one
    the new position stands for. *)
Lemma update_servo_angle_spec (self : Unified.Controller) (delta : Z) (w : World)
    (s lo hi : Q) :
  Unified.servo_kit self = true ->
  mode_sens (Unified.config self) (Unified.mode self) = Some s ->
  effective_range (Unified.config self) (Unified.mode self) = Some (lo, hi) ->
  exists self' w',
    Unified.update_servo_angle self delta w = Done tt (self', w') /\
    unified_same_setup self self' /\
    Unified.encoder_pos self' = Unified.encoder_pos self + delta /\
    (Unified.current_angle self' ==
       model_angle (center_angle (Unified.config self)) s lo hi
         (Unified.encoder_pos self + delta))%Q.
Proof.
  intros Hkit Hs Hr. unfold Unified.update_servo_angle.
  rewrite Hkit. cbn [negb]. unfold mode_sens in Hs. unfold lookup_mode at 1.
  destruct (modes (Unified.config self) !! Unified.mode self) as [m|];
    [|discriminate].
  injection Hs as <-.
  unfold Unified.apply_limits. cbn [Unified.set_encoder_pos Unified.mode
    Unified.config Unified.encoder_pos Unified.current_angle].
  rewrite (clamp_range_effective _ _ lo hi _ Hr).
  fold (model_angle (center_angle (Unified.config self)) (sensitivity m) lo hi
          (Unified.encoder_pos self + delta)).
  set (a := model_angle _ _ _ _ _).
  destruct (py_ne a (Unified.current_angle self)) eqn:Hne.
  - pose proof (servo_scoped_write_frame
                  (Unified.set_current_angle
                     (Unified.set_encoder_pos self (Unified.encoder_pos self + delta)) a)
                  w) as F.
    destruct (Unified.servo_scoped_write _ w) as [self' w'].
    exists self', w'. destruct F as (F & Ha & Hp). cbn in F, Ha, Hp.
    repeat split; try apply F; auto. rewrite Ha. reflexivity.
  - eexists _, _. split; [reflexivity|].
    unfold unified_same_setup. cbn. repeat split.
    symmetry. now apply py_ne_false.
Qed.

(** Draining a queue of rotation events: the deltas add up, and after the
    first of them the angle is the one the position stands for. *)
Lemma drain_rotations (ds : list Z) :
  forall (self : Unified.Controller) (w : World) (s lo hi : Q),
    Unified.servo_kit self = true ->
    mode_sens (Unified.config self) (Unified.mode self) = Some s ->
    effective_range (Unified.config self) (Unified.mode self) = Some (lo, hi) ->
    exists self' w',
      Unified.drain (map Unified.rotation ds) self w = Done tt (self', w') /\
      Unified.config self' = Unified.config self /\
      Unified.mode self' = Unified.mode self /\
      Unified.encoder_pos self' = Unified.encoder_pos self + sum_deltas ds /\
      (ds <> [] ->
       (Unified.current_angle self' ==
          model_angle (center_angle (Unified.config self)) s lo hi
            (Unified.encoder_pos self + sum_deltas ds))%Q).
Proof.
  induction ds as [|d ds IH]; intros self w s lo hi Hkit Hs Hr.
  - exists self, w. cbn. rewrite Z.add_0_r. repeat split; auto. congruence.
  - cbn [map Unified.drain]. unfold Unified.handle_event.
    cbn [Unified.rotation Unified.ev_type Unified.ev_value].
    change (String.eqb "rotation" "rotation") with true. cbn iota.
    destruct (update_servo_angle_spec
                (Unified.set_encoder_queue self (map Unified.rotation ds)) d w s lo hi)
      as (self1 & w1 & E1 & F1 & Hp1 & Ha1); auto.
    rewrite E1. destruct F1 as (Hc & _ & Hk & _ & Hm & _). cbn in Hc, Hk, Hm, Hp1, Ha1.
    destruct (IH self1 w1 s lo hi) as (self2 & w2 & E2 & Hc2 & Hm2 & Hp2 & Ha2).
    { now rewrite Hk. }
    { now rewrite Hc, Hm. }
    { now rewrite Hc, Hm. }
    exists self2, w2. rewrite E2.
    assert (Hpos : Unified.encoder_pos self2 =
                   Unified.encoder_pos self + sum_deltas (d :: ds)).
    { rewrite Hp2, Hp1. unfold sum_deltas. cbn. lia. }
    repeat split; try congruence.
    intros _. destruct ds as [|d' ds'].
    + cbn in E2. injection E2 as <- <-. rewrite Ha1. cbn. now rewrite Z.add_0_r.
    + rewrite Ha2 by discriminate. rewrite Hc, Hp1.
      replace (Unified.encoder_pos self + d + sum_deltas (d' :: ds'))
        with (Unified.encoder_pos self + sum_deltas (d :: d' :: ds'))
        by (unfold sum_deltas; cbn; lia).
      reflexivity.
Qed.

(** [ScreenTilt.update_servo] with a known sensitivity and range: the
    state reached, returning or raising, differs from the one before at
    most in the angle, which is the one the position stands for. *)
Lemma tilt_update_servo_spec (self : ScreenTilt.Controller) (w : World) (s lo hi : Q) :
  ScreenTilt.mode_sensitivity self = inr s ->
  effective_range (ScreenTilt.config self) (ScreenTilt.mode self) = Some (lo, hi) ->
  let a := model_angle (center_angle (ScreenTilt.config self)) s lo hi
             (ScreenTilt.encoder_pos self) in
  let self' := (final (ScreenTilt.update_servo self w)).1 in
  (self' = self \/ self' = ScreenTilt.set_current_angle self a) /\
  (ScreenTilt.current_angle self' == a)%Q /\
  (tilt_write_total self ->
   exists w', ScreenTilt.update_servo self w = Done tt (self', w')).
Proof.
  intros Hs Hr a. unfold ScreenTilt.update_servo. rewrite Hs.
  unfold ScreenTilt.apply_limits. rewrite (clamp_range_effective _ _ lo hi _ Hr).
  fold (model_angle (center_angle (ScreenTilt.config self)) s lo hi
          (ScreenTilt.encoder_pos self)). fold a.
  destruct (py_ne a (ScreenTilt.current_angle self)) eqn:Hne.
  - assert (Htot : tilt_write_total self ->
              exists w', ScreenTilt.move_servo (ScreenTilt.set_current_angle self a) w
                         = Done tt w').
    { unfold tilt_write_total, ScreenTilt.move_servo. cbn.
      intros [Hf | Hm].
      - destruct (ScreenTilt.fixed_servo self); [eexists; reflexivity | congruence].
      - rewrite Hm. destruct (ScreenTilt.fixed_servo self); [eexists; reflexivity|].
        destruct (ScreenTilt.kit self); eexists; reflexivity. }
    destruct (ScreenTilt.move_servo (ScreenTilt.set_current_angle self a) w)
      as [[] w'|e w'] eqn:Em; cbn.
    + split; [now right|]. split; [reflexivity|]. intros _. now exists w'.
    + split; [now right|]. split; [reflexivity|].
      intros Ht. destruct (Htot Ht) as (w'' & Hw''). discriminate.
  - cbn. split; [now left|]. split.
    + symmetry. now apply py_ne_false.
    + intros _. now exists w.
Qed.

Lemma tilt_same_setup_refl (a : ScreenTilt.Controller) : tilt_same_setup a a.
Proof. unfold tilt_same_setup. auto. Qed.

Lemma tilt_same_setup_trans (a b c : ScreenTilt.Controller) :
  tilt_same_setup a b -> tilt_same_setup b c -> tilt_same_setup a c.
Proof.
  unfold tilt_same_setup. intros (? & ? & ? & ? & ?) (? & ? & ? & ? & ?).
  repeat split; congruence.
Qed.

Lemma tilt_same_setup_sensitivity (a b : ScreenTilt.Controller) :
  tilt_same_setup a b ->
  ScreenTilt.mode_sensitivity b = ScreenTilt.mode_sensitivity a /\
  effective_range (ScreenTilt.config b) (ScreenTilt.mode b)
    = effective_range (ScreenTilt.config a) (ScreenTilt.mode a) /\
  (tilt_write_total a -> tilt_write_total b).
Proof.
  intros (Hc & Hm & Hf & Hx & _). unfold ScreenTilt.mode_sensitivity, tilt_write_total.
  rewrite Hc, Hm, Hf, Hx. auto.
Qed.

(** One poll of the tilt controller: the position moves by the decoded
    step, if any, and the angle follows. *)
Lemma tilt_check_encoder_spec (self : ScreenTilt.Controller) (c d : bool) (w : World)
    (s lo hi : Q) :
  ScreenTilt.mode_sensitivity self = inr s ->
  effective_range (ScreenTilt.config self) (ScreenTilt.mode self) = Some (lo, hi) ->
  tilt_write_total self ->
  exists self' w',
    ScreenTilt.check_encoder self c d w = Done tt (self', w') /\
    tilt_same_setup self self' /\
    ScreenTilt.last_clk_state self' = c /\
    match decode (ScreenTilt.last_clk_state self) c d with
    | Some step =>
        ScreenTilt.encoder_pos self' = ScreenTilt.encoder_pos self + step /\
        (ScreenTilt.current_angle self' ==
           model_angle (center_angle (ScreenTilt.config self)) s lo hi
             (ScreenTilt.encoder_pos self + step))%Q
    | None =>
        ScreenTilt.encoder_pos self' = ScreenTilt.encoder_pos self /\
        ScreenTilt.current_angle self' = ScreenTilt.current_angle self
    end.
Proof.
  intros Hs Hr Ht.
  assert (Hstep : forall step,
    exists self1 w1,
      ScreenTilt.update_servo
        (ScreenTilt.set_encoder_pos self (ScreenTilt.encoder_pos self + step)) w
        = Done tt (self1, w1) /\
      tilt_same_setup self self1 /\
      ScreenTilt.encoder_pos self1 = ScreenTilt.encoder_pos self + step /\
      (ScreenTilt.current_angle self1 ==
         model_angle (center_angle (ScreenTilt.config self)) s lo hi
           (ScreenTilt.encoder_pos self + step))%Q).
  { intros step.
    destruct (tilt_update_servo_spec
                (ScreenTilt.set_encoder_pos self (ScreenTilt.encoder_pos self + step))
                w s lo hi Hs Hr) as (Hshape & Hang & Hdone).
    destruct (Hdone Ht) as (w1 & E1).
    eexists _, w1. split; [exact E1|].
    split; [|split; [|exact Hang]].
    - destruct Hshape as [-> | ->]; unfold tilt_same_setup; cbn; auto.
    - destruct Hshape as [-> | ->]; reflexivity. }
  unfold ScreenTilt.check_encoder, decode.
  destruct (ScreenTilt.last_clk_state self), c, d; cbn [Bool.eqb negb andb xorb].
  all: try (eexists _, w; split; [reflexivity|];
            split; [unfold tilt_same_setup; cbn; auto|];
            split; [reflexivity|]; cbn; auto).
  - destruct (Hstep 1) as (self1 & w1 & E1 & F1 & Hp1 & Ha1).
    rewrite E1. eexists _, w1. split; [reflexivity|].
    split; [destruct F1 as (? & ? & ? & ? & ?); unfold tilt_same_setup; cbn; auto|].
    split; [reflexivity|]. cbn. auto.
  - destruct (Hstep (-1)) as (self1 & w1 & E1 & F1 & Hp1 & Ha1).
    change (ScreenTilt.encoder_pos self - 1) with (ScreenTilt.encoder_pos self + -1).
    rewrite E1. eexists _, w1. split; [reflexivity|].
    split; [destruct F1 as (? & ? & ? & ? & ?); unfold tilt_same_setup; cbn; auto|].
    split; [reflexivity|]. cbn. auto.
Qed.

(** A run of polls: the decoded steps add up, and from the first of them on
    the angle is the one the position stands for. *)
Lemma tilt_poll_spec (samples : list (bool * bool)) :
  forall (self : ScreenTilt.Controller) (w : World) (s lo hi : Q),
    ScreenTilt.mode_sensitivity self = inr s ->
    effective_range (ScreenTilt.config self) (ScreenTilt.mode self) = Some (lo, hi) ->
    tilt_write_total self ->
    let steps := decode_all (ScreenTilt.last_clk_state self) samples in
    exists self' w',
      tilt_poll self samples w = Done tt (self', w') /\
      tilt_same_setup self self' /\
      ScreenTilt.encoder_pos self' = ScreenTilt.encoder_pos self + sum_deltas steps /\
      (steps <> [] ->
       (ScreenTilt.current_angle self' ==
          model_angle (center_angle (ScreenTilt.config self)) s lo hi
            (ScreenTilt.encoder_pos self + sum_deltas steps))%Q) /\
      (steps = [] -> ScreenTilt.current_angle self' = ScreenTilt.current_angle self).
Proof.
  induction samples as [|[c d] rest IH]; intros self w s lo hi Hs Hr Ht.
  - exists self, w. cbn. rewrite Z.add_0_r.
    repeat split; auto using tilt_same_setup_refl. congruence.
  - cbn [tilt_poll decode_all].
    destruct (tilt_check_encoder_spec self c d w s lo hi Hs Hr Ht)
      as (self1 & w1 & E1 & F1 & Hclk & Hdec).
    rewrite E1.
    destruct (tilt_same_setup_sensitivity self self1 F1) as (Hs1 & Hr1 & Ht1).
    destruct (IH self1 w1 s lo hi) as (self2 & w2 & E2 & F2 & Hp2 & Ha2 & Hk2);
      [congruence | congruence | auto |].
    rewrite Hclk in *.
    exists self2, w2. split; [exact E2|].
    split; [eapply tilt_same_setup_trans; eassumption|].
    assert (Hcfg : ScreenTilt.config self1 = ScreenTilt.config self) by apply F1.
    destruct (decode (ScreenTilt.last_clk_state self) c d) as [step|].
    + destruct Hdec as (Hp1 & Ha1).
      assert (Hpos : ScreenTilt.encoder_pos self2 =
                ScreenTilt.encoder_pos self + sum_deltas (step :: decode_all c rest)).
      { rewrite Hp2, Hp1. unfold sum_deltas. cbn. lia. }
      split; [exact Hpos|]. split; [|discriminate].
      intros _. destruct (decode_all c rest) as [|x xs] eqn:Erest.
      * rewrite Hk2 by reflexivity. rewrite Ha1.
        unfold sum_deltas. cbn. now rewrite Z.add_0_r.
      * rewrite Ha2 by discriminate. rewrite Hcfg, Hp1.
        replace (ScreenTilt.encoder_pos self + step + sum_deltas (x :: xs))
          with (ScreenTilt.encoder_pos self + sum_deltas (step :: x :: xs))
          by (unfold sum_deltas; cbn; lia).
        reflexivity.
    + destruct Hdec as (Hp1 & Ha1).
      split; [congruence|]. split.
      * intros Hne. rewrite (Ha2 Hne), Hcfg, Hp1. reflexivity.
      * intros Hnil. rewrite (Hk2 Hnil). exact Ha1.
Qed.

(** In the three modes of the tilt controller the sensitivity that
    [update_servo] selects is the one the configuration gives the mode. *)
Lemma tilt_mode_sensitivity_configured (self : ScreenTilt.Controller) (s : Q) :
  In (ScreenTilt.mode self) ScreenTilt.mode_names ->
  mode_sens (ScreenTilt.config self) (ScreenTilt.mode self) = Some s ->
  ScreenTilt.mode_sensitivity self = inr s.
Proof.
  unfold ScreenTilt.mode_names, ScreenTilt.mode_sensitivity, mode_sens, lookup_mode.
  intros Hin Hs.
  destruct Hin as [E|[E|[E|[]]]]; rewrite <- E in Hs |- *; cbn in Hs |- *.
  - destruct (modes (ScreenTilt.config self) !! "direct"); congruence.
  - destruct (modes (ScreenTilt.config self) !! "fine"); congruence.
  - destruct (modes (ScreenTilt.config self) !! "range"); congruence.
Qed.

(** One poll of the tilt controller that returns: the position has moved
    by the decoded step, if any, and the angle has followed. *)
Lemma tilt_check_encoder_returns (self : ScreenTilt.Controller) (c d : bool) (w : World)
    (s lo hi : Q) (self' : ScreenTilt.Controller) (w' : World) :
  ScreenTilt.mode_sensitivity self = inr s ->
  effective_range (ScreenTilt.config self) (ScreenTilt.mode self) = Some (lo, hi) ->
  ScreenTilt.check_encoder self c d w = Done tt (self', w') ->
  tilt_same_setup self self' /\
  ScreenTilt.last_clk_state self' = c /\
  match decode (ScreenTilt.last_clk_state self) c d with
  | Some step =>
      ScreenTilt.encoder_pos self' = ScreenTilt.encoder_pos self + step /\
      (ScreenTilt.current_angle self' ==
         model_angle (center_angle (ScreenTilt.config self)) s lo hi
           (ScreenTilt.encoder_pos self + step))%Q
  | None =>
      ScreenTilt.encoder_pos self' = ScreenTilt.encoder_pos self /\
      ScreenTilt.current_angle self' = ScreenTilt.current_angle self
  end.
Proof.
  intros Hs Hr E.
  assert (Hstep : forall step self1 w1,
    ScreenTilt.update_servo
      (ScreenTilt.set_encoder_pos self (ScreenTilt.encoder_pos self + step)) w
      = Done tt (self1, w1) ->
    tilt_same_setup self self1 /\
    ScreenTilt.encoder_pos self1 = ScreenTilt.encoder_pos self + step /\
    (ScreenTilt.current_angle self1 ==
       model_angle (center_angle (ScreenTilt.config self)) s lo hi
         (ScreenTilt.encoder_pos self + step))%Q).
  { intros step self1 w1 E1.
    destruct (tilt_update_servo_spec
                (ScreenTilt.set_encoder_pos self (ScreenTilt.encoder_pos self + step))
                w s lo hi Hs Hr) as (Hshape & Hang & _).
    rewrite E1 in Hshape, Hang. cbn [final fst] in Hshape, Hang.
    split; [|split; [|exact Hang]].
    - destruct Hshape as [-> | ->]; unfold tilt_same_setup; cbn; auto.
    - destruct Hshape as [-> | ->]; reflexivity. }
  unfold ScreenTilt.check_encoder in E. unfold decode.
  destruct (ScreenTilt.last_clk_state self), c, d;
    cbn [Bool.eqb negb andb xorb] in E |- *.
  all: try (injection E as <- <-;
            split; [unfold tilt_same_setup; cbn; auto|];
            split; [reflexivity|]; cbn; auto).
  - destruct (ScreenTilt.update_servo _ w) as [[] [self1 w1]|e [self1 w1]] eqn:E1;
      [|discriminate].
    injection E as <- <-.
    destruct (Hstep 1 self1 w1 E1) as (F1 & Hp1 & Ha1).
    split; [destruct F1 as (? & ? & ? & ? & ?); unfold tilt_same_setup; cbn; auto|].
    split; [reflexivity|]. cbn. auto.
  - change (ScreenTilt.encoder_pos self - 1) with (ScreenTilt.encoder_pos self + -1) in E.
    destruct (ScreenTilt.update_servo _ w) as [[] [self1 w1]|e [self1 w1]] eqn:E1;
      [|discriminate].
    injection E as <- <-.
    destruct (Hstep (-1) self1 w1 E1) as (F1 & Hp1 & Ha1).
    split; [destruct F1 as (? & ? & ? & ? & ?); unfold tilt_same_setup; cbn; auto|].
    split; [reflexivity|]. cbn. auto.
Qed.

(** A run of polls that returns: the decoded steps have added up, and from
    the first of them on the angle is the one the position stands for. *)
Lemma tilt_poll_returns (samples : list (bool * bool)) :
  forall (self : ScreenTilt.Controller) (w : World) (s lo hi : Q)
         (self' : ScreenTilt.Controller) (w' : World),
    ScreenTilt.mode_sensitivity self = inr s ->
    effective_range (ScreenTilt.config self) (ScreenTilt.mode self) = Some (lo, hi) ->
    tilt_poll self samples w = Done tt (self', w') ->
    let steps := decode_all (ScreenTilt.last_clk_state self) samples in
    tilt_same_setup self self' /\
    ScreenTilt.encoder_pos self' = ScreenTilt.encoder_pos self + sum_deltas steps /\
    (steps <> [] ->
     (ScreenTilt.current_angle self' ==
        model_angle (center_angle (ScreenTilt.config self)) s lo hi
          (ScreenTilt.encoder_pos self + sum_deltas steps))%Q) /\
    (steps = [] -> ScreenTilt.current_angle self' = ScreenTilt.current_angle self).
Proof.
  induction samples as [|[c d] rest IH]; intros self w s lo hi self' w' Hs Hr E.
  - cbn in E. injection E as <- <-. cbn. rewrite Z.add_0_r.
    repeat split; auto using tilt_same_setup_refl. congruence.
  - cbn [tilt_poll decode_all] in E |- *.
    destruct (ScreenTilt.check_encoder self c d w) as [[] [self1 w1]|e [self1 w1]] eqn:E1;
      [|discriminate].
    destruct (tilt_check_encoder_returns self c d w s lo hi self1 w1 Hs Hr E1)
      as (F1 & Hclk & Hdec).
    destruct (tilt_same_setup_sensitivity self self1 F1) as (Hs1 & Hr1 & _).
    destruct (IH self1 w1 s lo hi self' w') as (F2 & Hp2 & Ha2 & Hk2);
      [congruence | congruence | exact E |].
    rewrite Hclk in *.
    split; [eapply tilt_same_setup_trans; eassumption|].
    assert (Hcfg : ScreenTilt.config self1 = ScreenTilt.config self) by apply F1.
    destruct (decode (ScreenTilt.last_clk_state self) c d) as [step|].
    + destruct Hdec as (Hp1 & Ha1).
      assert (Hpos : ScreenTilt.encoder_pos self' =
                ScreenTilt.encoder_pos self + sum_deltas (step :: decode_all c rest)).
      { rewrite Hp2, Hp1. unfold sum_deltas. cbn. lia. }
      split; [exact Hpos|]. split; [|discriminate].
      intros _. destruct (decode_all c rest) as [|x xs] eqn:Erest.
      * rewrite Hk2 by reflexivity. rewrite Ha1.
        unfold sum_deltas. cbn. now rewrite Z.add_0_r.
      * rewrite Ha2 by discriminate. rewrite Hcfg, Hp1.
        replace (ScreenTilt.encoder_pos self + step + sum_deltas (x :: xs))
          with (ScreenTilt.encoder_pos self + sum_deltas (step :: x :: xs))
          by (unfold sum_deltas; cbn; lia).
        reflexivity.
    + destruct Hdec as (Hp1 & Ha1).
      split; [congruence|]. split.
      * intros Hne. rewrite (Ha2 Hne), Hcfg, Hp1. reflexivity.
      * intros Hnil. rewrite (Hk2 Hnil). exact Ha1.
Qed.

(** C4, as the code has it.  From encoder position 0 and under a fixed
    mode, a non-empty sequence of rotations leaves the angle at
    [clamp (center_angle + sum * sensitivity)], the sensitivity being the
    one the configuration gives the mode and the limits those of the
    [range] entry in range mode and the global ones otherwise, wherever
    the rotations are applied at all.  The unified controller applies the
    queued rotation events, of any deltas, when its servo was initialised.
    The tilt controller, in one of its modes direct, fine and range,
    applies the steps it decodes whenever its polling returns; and it
    returns unless the servo is reached through the mux-aware wrapper
    alone, the only device write that raises.  The statement holds for
    every non-empty prefix alike, that is after each rotation.  With the
    default configuration (centre 145, limits 0 and 270, direct
    sensitivity 10) and the servo initialised, a rotation by +3 in direct
    mode gives 175. *)
Theorem rotation_sequence_angle :
  forall (self : Unified.Controller) (tilt : ScreenTilt.Controller)
         (d : Z) (ds : list Z) (samples : list (bool * bool)) (w : World)
         (s lo hi s' lo' hi' : Q),
    Unified.servo_kit self = true ->
    Unified.encoder_pos self = 0 ->
    mode_sens (Unified.config self) (Unified.mode self) = Some s ->
    effective_range (Unified.config self) (Unified.mode self) = Some (lo, hi) ->
    ScreenTilt.encoder_pos tilt = 0 ->
    In (ScreenTilt.mode tilt) ScreenTilt.mode_names ->
    mode_sens (ScreenTilt.config tilt) (ScreenTilt.mode tilt) = Some s' ->
    effective_range (ScreenTilt.config tilt) (ScreenTilt.mode tilt) = Some (lo', hi') ->
    decode_all (ScreenTilt.last_clk_state tilt) samples <> [] ->
    (exists self' w',
       Unified.process_encoder_events
         (Unified.set_encoder_queue self (map Unified.rotation (d :: ds))) w
         = Done tt (self', w') /\
       Unified.mode self' = Unified.mode self /\
       (Unified.current_angle self' ==
          clamp lo hi (center_angle (Unified.config self)
                       + inject_Z (sum_deltas (d :: ds)) * s))%Q) /\
    (forall tilt' w',
       tilt_poll tilt samples w = Done tt (tilt', w') ->
       ScreenTilt.mode tilt' = ScreenTilt.mode tilt /\
       (ScreenTilt.current_angle tilt' ==
          clamp lo' hi'
            (center_angle (ScreenTilt.config tilt)
             + inject_Z (sum_deltas (decode_all (ScreenTilt.last_clk_state tilt) samples))
               * s'))%Q) /\
    (tilt_write_total tilt ->
     exists tilt' w', tilt_poll tilt samples w = Done tt (tilt', w')) /\
    (forall (saved : option Q) (have_mux : bool) (w0 : World),
       let start := Unified.seed Unified.default_config (mkPersisted saved None)
                      have_mux true in
       (Unified.current_angle (final (Unified.update_servo_angle start 3 w0)).1
          == 175 # 1)%Q).
Proof.
  intros self tilt d ds samples w s lo hi s' lo' hi'
         Hkit Hpos Hs Hr Hpos' Hin' Hs' Hr' Hdec.
  pose proof (tilt_mode_sensitivity_configured tilt s' Hin' Hs') as Hsel.
  split; [|split; [|split]].
  - unfold Unified.process_encoder_events.
    cbn [Unified.set_encoder_queue Unified.encoder_queue].
    destruct (drain_rotations (d :: ds)
                (Unified.set_encoder_queue self (map Unified.rotation (d :: ds)))
                w s lo hi Hkit Hs Hr)
      as (self' & w' & E & _ & Hm & Hp & Ha).
    exists self', w'. split; [exact E|]. split; [exact Hm|].
    rewrite Ha by discriminate. cbn [Unified.set_encoder_queue Unified.config
      Unified.encoder_pos]. rewrite Hpos. reflexivity.
  - intros tilt' w' E.
    destruct (tilt_poll_returns samples tilt w s' lo' hi' tilt' w' Hsel Hr' E)
      as (F & Hp & Ha & _).
    split; [apply F|]. rewrite (Ha Hdec), Hpos'. reflexivity.
  - intros Ht'.
    destruct (tilt_poll_spec samples tilt w s' lo' hi' Hsel Hr' Ht')
      as (tilt' & w' & E & _).
    now exists tilt', w'.
  - intros saved have_mux w0 start.
    destruct (update_servo_angle_spec start 3 w0 (10 # 1) 0 (270 # 1))
      as (self' & w' & E & _ & _ & Ha); try reflexivity.
    rewrite E. cbn [final fst]. rewrite Ha. reflexivity.
Qed.

(** C4, witness: three rotation events on a freshly seeded unified
    controller, and three polls of the tilt controller, of which two
    decode a step. *)
Lemma rotation_sequence_angle_witness :
  let self := Unified.seed Unified.default_config (mkPersisted None None) true true in
  let tilt := ScreenTilt.seed ScreenTilt.default_config (mkPersisted None None)
                None None true true in
  let samples := [(false, true); (true, true); (false, true)] in
  let w := mkWorld None [] [] in
  (exists self' w',
     Unified.process_encoder_events
       (Unified.set_encoder_queue self (map Unified.rotation [1; 1; -1])) w
       = Done tt (self', w') /\
     Unified.mode self' = Unified.mode self /\
     (Unified.current_angle self' ==
        clamp 0 (270 # 1) (center_angle (Unified.config self)
                     + inject_Z (sum_deltas [1; 1; -1]%Z) * (10 # 1)))%Q) /\
  (exists tilt' w',
     tilt_poll tilt samples w = Done tt (tilt', w') /\
     ScreenTilt.mode tilt' = ScreenTilt.mode tilt /\
     (ScreenTilt.current_angle tilt' ==
        clamp 0 (270 # 1)
          (center_angle (ScreenTilt.config tilt)
           + inject_Z (sum_deltas (decode_all (ScreenTilt.last_clk_state tilt) samples))
             * (5 # 1)))%Q).
Proof.
  pose proof (rotation_sequence_angle
                (Unified.seed Unified.default_config (mkPersisted None None) true true)
                (ScreenTilt.seed ScreenTilt.default_config (mkPersisted None None)
                   None None true true)
                1 [1; -1] [(false, true); (true, true); (false, true)]
                (mkWorld None [] []) (10 # 1) 0 (270 # 1) (5 # 1) 0 (270 # 1)
                eq_refl eq_refl eq_refl eq_refl eq_refl
                (or_introl eq_refl) eq_refl eq_refl
                ltac:(discriminate)) as (Hu & Ht & Hex & _).
  split; [exact Hu|].
  destruct (Hex (or_intror eq_refl)) as (tilt' & w' & E).
  exists tilt', w'. split; [exact E|]. exact (Ht tilt' w' E).
Defined.

(** C4, counterexample: the unified controller whose servo did not come
    up ([servo_kit] is [None]), in direct mode at position 0, with the
    default configuration.  A rotation by +3 is taken from the queue and
    the angle stays 145, where the claim has 175. *)
Lemma rotation_ignored_without_servo :
  let self := Unified.seed Unified.default_config (mkPersisted None None) true false in
  let w := mkWorld None [] [] in
  let r := Unified.process_encoder_events
             (Unified.set_encoder_queue self [Unified.rotation 3]) w in
  Unified.encoder_pos self = 0 /\
  Unified.mode self = "direct" /\
  r = Done tt (self, w) /\
  Unified.current_angle (final r).1 = 145 # 1 /\
  clamp 0 (270 # 1) (center_angle (Unified.config self) + inject_Z 3 * (10 # 1)) = 175 # 1 /\
  ~ (Unified.current_angle (final r).1 ==
       clamp 0 (270 # 1) (center_angle (Unified.config self) + inject_Z 3 * (10 # 1)))%Q.
Proof.
  cbv zeta. repeat split; try reflexivity.
  intros H. vm_compute in H. discriminate H.
Qed.

(** The invariant after [update_servo_angle] of the unified controller. *)
Lemma update_servo_angle_invariant (self : Unified.Controller) (delta : Z) (w : World)
    (s lo hi : Q) :
  Unified.servo_kit self = true ->
  mode_sens (Unified.config self) (Unified.mode self) = Some s ->
  effective_range (Unified.config self) (Unified.mode self) = Some (lo, hi) ->
  (lo <= hi)%Q ->
  unified_invariant (final (Unified.update_servo_angle self delta w)).1.
Proof.
  intros Hkit Hs Hr Hlh.
  destruct (update_servo_angle_spec self delta w s lo hi Hkit Hs Hr)
    as (self' & w' & E & F & Hp & Ha).
  rewrite E. cbn [final fst]. destruct F as (Hc & _ & _ & _ & Hm & _).
  exists s, lo, hi. rewrite Hc, Hm, Hp.
  split; [exact Hs|]. split; [exact Hr|].
  now apply servo_invariant_of_model.
Qed.

(** The invariant after [update_servo] of the tilt controller, whether it
    returns or the device write raises. *)
Lemma tilt_update_servo_invariant (self : ScreenTilt.Controller) (w : World)
    (s lo hi : Q) :
  In (ScreenTilt.mode self) ScreenTilt.mode_names ->
  mode_sens (ScreenTilt.config self) (ScreenTilt.mode self) = Some s ->
  effective_range (ScreenTilt.config self) (ScreenTilt.mode self) = Some (lo, hi) ->
  (lo <= hi)%Q ->
  tilt_invariant (final (ScreenTilt.update_servo self w)).1 /\
  tilt_same_setup self (final (ScreenTilt.update_servo self w)).1 /\
  ScreenTilt.encoder_pos (final (ScreenTilt.update_servo self w)).1
    = ScreenTilt.encoder_pos self.
Proof.
  intros Hin Hcfg Hr Hlh.
  pose proof (tilt_mode_sensitivity_configured self s Hin Hcfg) as Hs.
  destruct (tilt_update_servo_spec self w s lo hi Hs Hr) as (Hshape & Hang & _).
  set (self' := (final (ScreenTilt.update_servo self w)).1) in *.
  assert (F : tilt_same_setup self self' /\
              ScreenTilt.encoder_pos self' = ScreenTilt.encoder_pos self).
  { destruct Hshape as [-> | ->]; unfold tilt_same_setup; cbn; auto 10. }
  destruct F as (F & Hp). split; [|split; assumption].
  destruct (tilt_same_setup_sensitivity self self' F) as (Hs' & Hr' & _).
  assert (Hc : ScreenTilt.config self' = ScreenTilt.config self) by apply F.
  assert (Hm : ScreenTilt.mode self' = ScreenTilt.mode self) by apply F.
  exists s, lo, hi. split; [congruence|]. split; [congruence|].
  rewrite Hc, Hp. now apply servo_invariant_of_model.
Qed.

(** The mode switch never writes the angle. *)
Lemma double_click_angle (self : ScreenTilt.Controller) (w : World) :
  ScreenTilt.current_angle (final (ScreenTilt._handle_double_click self w)).1
    = ScreenTilt.current_angle self.
Proof.
  unfold ScreenTilt._handle_double_click.
  destruct (ScreenTilt.index_of _ _) as [i|]; [|reflexivity].
  destruct (lookup_mode _ _) as [e|m]; [reflexivity|].
  destruct (Qeq_bool (sensitivity m) 0); reflexivity.
Qed.

(** C5, as the code has it.  After a rotation and after going home the
    angle lies within the effective limits of the active mode and equals
    [clamp (center_angle + encoder_position * sensitivity)], the
    sensitivity being the one the configuration gives the mode, provided
    those limits are ordered (and, in the unified controller, the servo
    is initialised; in the tilt controller, the mode is one of direct,
    fine and range): for the rotation and click events of the unified
    controller, and for a decoded step and the single-click handler of the
    tilt controller.  Seeding takes the persisted angle, or the default,
    together with encoder position 0, and the mode switch keeps the angle
    it finds; neither makes the angle follow the position. *)
Theorem servo_invariant_after_rotation_and_home :
  forall (self : Unified.Controller) (tilt : ScreenTilt.Controller)
         (d : Z) (clk_state dt_state : bool) (w : World)
         (s lo hi s' lo' hi' : Q),
    Unified.servo_kit self = true ->
    mode_sens (Unified.config self) (Unified.mode self) = Some s ->
    effective_range (Unified.config self) (Unified.mode self) = Some (lo, hi) ->
    (lo <= hi)%Q ->
    In (ScreenTilt.mode tilt) ScreenTilt.mode_names ->
    mode_sens (ScreenTilt.config tilt) (ScreenTilt.mode tilt) = Some s' ->
    effective_range (ScreenTilt.config tilt) (ScreenTilt.mode tilt) = Some (lo', hi') ->
    (lo' <= hi')%Q ->
    decode (ScreenTilt.last_clk_state tilt) clk_state dt_state <> None ->
    unified_invariant (final (Unified.handle_event self (Unified.rotation d) w)).1 /\
    (unified_invariant (final (Unified.handle_event self Unified.click w)).1 /\
     Unified.encoder_pos (final (Unified.handle_event self Unified.click w)).1 = 0) /\
    tilt_invariant (final (ScreenTilt.check_encoder tilt clk_state dt_state w)).1 /\
    (tilt_invariant (final (ScreenTilt._handle_single_click tilt w)).1 /\
     ScreenTilt.encoder_pos (final (ScreenTilt._handle_single_click tilt w)).1 = 0) /\
    (forall cfg state have_mux have_servo,
       Unified.current_angle (Unified.seed cfg state have_mux have_servo)
         = dict_get (last_position state) (145 # 1) /\
       Unified.encoder_pos (Unified.seed cfg state have_mux have_servo) = 0) /\
    (forall cfg state fixed muxed direct clk,
       ScreenTilt.current_angle (ScreenTilt.seed cfg state fixed muxed direct clk)
         = dict_get (last_position state) (center_angle cfg) /\
       ScreenTilt.encoder_pos (ScreenTilt.seed cfg state fixed muxed direct clk) = 0) /\
    (forall any : ScreenTilt.Controller,
       ScreenTilt.current_angle (final (ScreenTilt._handle_double_click any w)).1
         = ScreenTilt.current_angle any).
Proof.
  intros self tilt d c dt_ w s lo hi s' lo' hi' Hkit Hs Hr Hlh Hin' Hs' Hr' Hlh' Hdec.
  split; [|split; [|split; [|split; [|split; [|split]]]]].
  - unfold Unified.handle_event. cbn [Unified.rotation Unified.ev_type Unified.ev_value].
    change (String.eqb "rotation" "rotation") with true. cbn iota.
    now apply (update_servo_angle_invariant self d w s lo hi).
  - unfold Unified.handle_event. cbn [Unified.click Unified.ev_type Unified.ev_value].
    change (String.eqb "click" "rotation") with false.
    change (String.eqb "click" "click") with true. cbn iota.
    split.
    + now apply (update_servo_angle_invariant (Unified.set_encoder_pos self 0) 0 w s lo hi).
    + destruct (update_servo_angle_spec (Unified.set_encoder_pos self 0) 0 w s lo hi)
        as (self' & w' & E & _ & Hp & _); auto.
      rewrite E. exact Hp.
  - unfold ScreenTilt.check_encoder. unfold decode in Hdec.
    destruct (ScreenTilt.last_clk_state tilt), c; cbn in Hdec; try congruence.
    cbn [Bool.eqb negb andb].
    set (tilt1 := if negb (Bool.eqb dt_ false) then _ else _).
    assert (H1 : In (ScreenTilt.mode tilt1) ScreenTilt.mode_names /\
                 mode_sens (ScreenTilt.config tilt1) (ScreenTilt.mode tilt1) = Some s' /\
                 effective_range (ScreenTilt.config tilt1) (ScreenTilt.mode tilt1)
                   = Some (lo', hi')).
    { unfold tilt1. destruct (negb (Bool.eqb dt_ false)); repeat split; assumption. }
    destruct H1 as (Hin1 & Hs1 & Hr1).
    destruct (tilt_update_servo_invariant tilt1 w s' lo' hi' Hin1 Hs1 Hr1 Hlh')
      as (Hinv & _ & _).
    destruct (ScreenTilt.update_servo tilt1 w) as [[] [self' w']|e [self' w']];
      cbn [final fst] in *; [|exact Hinv].
    destruct Hinv as (s0 & lo0 & hi0 & ? & ? & ?). exists s0, lo0, hi0. auto.
  - unfold ScreenTilt._handle_single_click.
    set (tilt1 := ScreenTilt.set_encoder_pos _ 0).
    destruct (tilt_update_servo_invariant tilt1 w s' lo' hi' Hin' Hs' Hr' Hlh')
      as (Hinv & _ & Hp).
    split; [exact Hinv | exact Hp].
  - intros. split; reflexivity.
  - intros. split; reflexivity.
  - intros any. apply double_click_angle.
Qed.

(** C5, witness: the default configurations, one rotation event and one
    step decoded from the samples of CLK. *)
Lemma servo_invariant_witness :
  let self := Unified.seed Unified.default_config (mkPersisted None None) true true in
  let tilt := ScreenTilt.seed ScreenTilt.default_config (mkPersisted None None)
                None None true true in
  let w := mkWorld None [] [] in
  unified_invariant (final (Unified.handle_event self (Unified.rotation 1) w)).1 /\
  (unified_invariant (final (Unified.handle_event self Unified.click w)).1 /\
   Unified.encoder_pos (final (Unified.handle_event self Unified.click w)).1 = 0) /\
  tilt_invariant (final (ScreenTilt.check_encoder tilt false true w)).1 /\
  (tilt_invariant (final (ScreenTilt._handle_single_click tilt w)).1 /\
   ScreenTilt.encoder_pos (final (ScreenTilt._handle_single_click tilt w)).1 = 0) /\
  (forall cfg state have_mux have_servo,
     Unified.current_angle (Unified.seed cfg state have_mux have_servo)
       = dict_get (last_position state) (145 # 1) /\
     Unified.encoder_pos (Unified.seed cfg state have_mux have_servo) = 0) /\
  (forall cfg state fixed muxed direct clk,
     ScreenTilt.current_angle (ScreenTilt.seed cfg state fixed muxed direct clk)
       = dict_get (last_position state) (center_angle cfg) /\
     ScreenTilt.encoder_pos (ScreenTilt.seed cfg state fixed muxed direct clk) = 0) /\
  (forall any : ScreenTilt.Controller,
     ScreenTilt.current_angle (final (ScreenTilt._handle_double_click any w)).1
       = ScreenTilt.current_angle any).
Proof.
  apply (servo_invariant_after_rotation_and_home
           (Unified.seed Unified.default_config (mkPersisted None None) true true)
           (ScreenTilt.seed ScreenTilt.default_config (mkPersisted None None)
              None None true true)
           1 false true (mkWorld None [] [])
           (10 # 1) 0 (270 # 1) (5 # 1) 0 (270 # 1));
    try reflexivity; try discriminate.
  left. reflexivity.
Defined.

(** C5, counterexample: seeded from a persisted angle of 175 in direct
    mode the unified controller holds position 0, which stands for 145;
    and a mode switch of the tilt controller from fine mode at 200 degrees
    enters range mode, whose limits are 90 and 180, with the angle still
    200. *)
Lemma seeding_and_mode_switch_break_invariant :
  let self := Unified.seed Unified.default_config
                (mkPersisted (Some (175 # 1)) (Some "direct")) true true in
  let tilt := ScreenTilt.set_encoder_pos
                (ScreenTilt.seed ScreenTilt.default_config
                   (mkPersisted (Some (200 # 1)) (Some "fine")) None None true true)
                (-50) in
  let tilt' := (final (ScreenTilt._handle_double_click tilt (mkWorld None [] []))).1 in
  ~ unified_invariant self /\
  tilt_invariant tilt /\
  ~ tilt_invariant tilt'.
Proof.
  cbv zeta. split; [|split].
  - intros (s & lo & hi & Hs & Hr & _ & _ & Heq).
    vm_compute in Hs, Hr. injection Hs as <-. injection Hr as <- <-.
    vm_compute in Heq. discriminate.
  - exists (1 # 1)%Q, 0%Q, (270 # 1)%Q.
    split; [reflexivity|]. split; [reflexivity|].
    unfold servo_invariant. vm_compute. repeat split; discriminate.
  - intros (s & lo & hi & Hs & Hr & _ & Hhi & _).
    vm_compute in Hs, Hr. injection Hs as <-. injection Hr as <- <-.
    vm_compute in Hhi. apply Hhi. reflexivity.
Qed.






(* ===================================================================== *)
(** * The encoder *)
(* ===================================================================== *)

Lemma poll_rotation_decode (last_clk clk_state dt_state : bool) :
  Unified.poll_rotation last_clk clk_state dt_state =
    match decode last_clk clk_state dt_state with
    | Some step => [Unified.rotation step]
    | None => []
    end.
Proof. destruct last_clk, clk_state, dt_state; reflexivity. Qed.

(** The button part of a poll queues no rotation. *)
Lemma poll_button_no_rotation (press_time : Q) (pressed : bool) (t : Q) :
  filter is_rotation (Unified.poll_button press_time pressed t).2 = [].
Proof.
  unfold Unified.poll_button.
  destruct pressed.
  - destruct (Qeq_bool press_time 0); reflexivity.
  - destruct (Qlt_le_dec 0 press_time); [|reflexivity].
    destruct (Qlt_le_dec 1 (t - press_time)); reflexivity.
Qed.

Lemma poll_rotations (samples : list Unified.Sample) :
  forall p : Unified.Poller,
    filter is_rotation (Unified.poll p samples).2 =
      map Unified.rotation
        (decode_all (Unified.last_clk_state p)
           (map (fun s => (Unified.clk s, Unified.dt s)) samples)).
Proof.
  induction samples as [|s rest IH]; intros p; [reflexivity|].
  cbn [Unified.poll map decode_all]. unfold Unified.poll_step.
  pose proof (poll_button_no_rotation (Unified.button_press_time p)
                (Unified.sw s) (Unified.now s)) as Hb.
  destruct (Unified.poll_button _ _ _) as [bpt but]. cbn [snd] in Hb.
  specialize (IH (Unified.mkPoller (Unified.clk s) bpt)).
  destruct (Unified.poll (Unified.mkPoller (Unified.clk s) bpt) rest) as [p2 evs'].
  cbn [snd Unified.last_clk_state] in *.
  rewrite !filter_app, Hb, app_nil_r, IH, poll_rotation_decode.
  destruct (decode (Unified.last_clk_state p) (Unified.clk s) (Unified.dt s));
    reflexivity.
Qed.

(** [ScreenTilt.update_servo] touches the angle only. *)
Lemma tilt_update_servo_shape (self : ScreenTilt.Controller) (w : World) :
  exists a,
    (final (ScreenTilt.update_servo self w)).1 = self \/
    (final (ScreenTilt.update_servo self w)).1 = ScreenTilt.set_current_angle self a.
Proof.
  unfold ScreenTilt.update_servo.
  destruct (ScreenTilt.mode_sensitivity self) as [e|s]; [exists 0%Q; now left|].
  destruct (ScreenTilt.apply_limits self _) as [e|a]; [exists 0%Q; now left|].
  exists a. destruct (py_ne a (ScreenTilt.current_angle self)); [|now left].
  destruct (ScreenTilt.move_servo _ w) as [[] w'|e w']; now right.
Qed.

Lemma tilt_check_encoder_pos (tilt : ScreenTilt.Controller) (c d : bool) (w : World) :
  ScreenTilt.encoder_pos (final (ScreenTilt.check_encoder tilt c d w)).1 =
    ScreenTilt.encoder_pos tilt +
    match decode (ScreenTilt.last_clk_state tilt) c d with
    | Some step => step
    | None => 0
    end.
Proof.
  unfold ScreenTilt.check_encoder, decode.
  destruct (ScreenTilt.last_clk_state tilt), c, d; cbn [Bool.eqb negb andb xorb];
    try (cbn; lia).
  - destruct (tilt_update_servo_shape
                (ScreenTilt.set_encoder_pos tilt (ScreenTilt.encoder_pos tilt + 1)) w)
      as (a & H).
    destruct (ScreenTilt.update_servo _ w) as [[] [s1 w1]|e [s1 w1]];
      cbn [final fst] in *; destruct H as [-> | ->]; reflexivity.
  - destruct (tilt_update_servo_shape
                (ScreenTilt.set_encoder_pos tilt (ScreenTilt.encoder_pos tilt - 1)) w)
      as (a & H).
    destruct (ScreenTilt.update_servo _ w) as [[] [s1 w1]|e [s1 w1]];
      cbn [final fst] in *; destruct H as [-> | ->]; reflexivity.
Qed.

(** The decoding of the code, read on the lines. *)
Lemma decode_line_levels (last_clk clk_state dt_state : bool) :
  decode last_clk clk_state dt_state =
    decode_lines (line_level last_clk) (line_level clk_state) (line_level dt_state).
Proof. destruct last_clk, clk_state, dt_state; reflexivity. Qed.

(** C9, as the code has it.  A rotation is produced exactly when the
    sample of [is_pressed] of CLK goes from true to false between two
    consecutive samples; the pins being pull-up inputs, pressed when the
    line is low, that is when the CLK line goes from low to high.  It is
    [+1] when the DT line, sampled with the new CLK level, is not at that
    (high) level, [-1] when it is, and nothing comes of any other pair of
    levels, a CLK line going from high to low included.  So it is for the
    event queued by a poll of the unified controller, for the rotation
    events of a whole run of its polls, and for the step that a poll of the
    tilt controller adds to its encoder position. *)
Theorem rotation_on_rising_clk_line :
  forall (last_clk clk_state dt_state : bool) (p : Unified.Poller)
         (samples : list Unified.Sample) (tilt : ScreenTilt.Controller) (w : World),
    (decode_lines false true false = Some 1 /\
     decode_lines false true true = Some (-1) /\
     (forall c d, decode_lines true c d = None) /\
     (forall l d, decode_lines l false d = None)) /\
    Unified.poll_rotation last_clk clk_state dt_state =
      match decode_lines (line_level last_clk) (line_level clk_state)
              (line_level dt_state) with
      | Some step => [Unified.rotation step]
      | None => []
      end /\
    filter is_rotation (Unified.poll p samples).2 =
      map Unified.rotation
        (decode_all (Unified.last_clk_state p)
           (map (fun s => (Unified.clk s, Unified.dt s)) samples)) /\
    (forall l c d, decode l c d = decode_lines (line_level l) (line_level c) (line_level d)) /\
    ScreenTilt.encoder_pos (final (ScreenTilt.check_encoder tilt clk_state dt_state w)).1 =
      ScreenTilt.encoder_pos tilt +
      match decode_lines (line_level (ScreenTilt.last_clk_state tilt))
              (line_level clk_state) (line_level dt_state) with
      | Some step => step
      | None => 0
      end.
Proof.
  intros last_clk clk_state dt_state p samples tilt w.
  split; [|split; [|split; [|split]]].
  - split; [reflexivity|]. split; [reflexivity|].
    split; [intros c d; reflexivity | intros l d; now destruct l].
  - rewrite <- decode_line_levels. apply poll_rotation_decode.
  - apply poll_rotations.
  - apply decode_line_levels.
  - rewrite <- decode_line_levels. apply tilt_check_encoder_pos.
Qed.

(** C9, counterexample: the CLK line goes from high to low (the samples of
    [is_pressed] go from false to true).  Neither controller produces a
    rotation, whatever DT reads; on the way back, from low to high, each
    does. *)
Lemma falling_clk_line_gives_no_rotation :
  let tilt := ScreenTilt.seed ScreenTilt.default_config (mkPersisted None None)
                None None true false in
  let w := mkWorld None [] [] in
  line_level false = true /\
  line_level true = false /\
  Unified.poll_rotation false true false = [] /\
  Unified.poll_rotation false true true = [] /\
  ScreenTilt.last_clk_state tilt = false /\
  ScreenTilt.encoder_pos (final (ScreenTilt.check_encoder tilt true false w)).1
    = ScreenTilt.encoder_pos tilt /\
  ScreenTilt.encoder_pos (final (ScreenTilt.check_encoder tilt true true w)).1
    = ScreenTilt.encoder_pos tilt /\
  Unified.poll_rotation true false true = [Unified.rotation 1] /\
  Unified.poll_rotation true false false = [Unified.rotation (-1)].
Proof. cbv zeta. repeat split; reflexivity. Qed.

(* ===================================================================== *)
(** * Events of the unified controller *)
(* ===================================================================== *)

Lemma update_servo_angle_mode (self : Unified.Controller) (delta : Z) (w : World) :
  Unified.mode (final (Unified.update_servo_angle self delta w)).1 = Unified.mode self.
Proof.
  unfold Unified.update_servo_angle.
  destruct (negb (Unified.servo_kit self)); [reflexivity|].
  destruct (lookup_mode _ _) as [e|m]; [reflexivity|].
  destruct (Unified.apply_limits _ _) as [e|a]; [reflexivity|].
  destruct (py_ne a _); [|reflexivity].
  pose proof (servo_scoped_write_frame
                (Unified.set_current_angle
                   (Unified.set_encoder_pos self (Unified.encoder_pos self + delta)) a)
                w) as F.
  destruct (Unified.servo_scoped_write _ w) as [self' w'].
  destruct F as ((_ & _ & _ & _ & Hm & _) & _). exact Hm.
Qed.

Lemma handle_event_mode (self : Unified.Controller) (ev : Unified.EncoderEvent)
    (w : World) :
  Unified.mode (final (Unified.handle_event self ev w)).1 = Unified.mode self.
Proof.
  unfold Unified.handle_event.
  destruct (String.eqb (Unified.ev_type ev) "rotation").
  { apply update_servo_angle_mode. }
  destruct (String.eqb (Unified.ev_type ev) "click").
  { now rewrite update_servo_angle_mode. }
  destruct (String.eqb (Unified.ev_type ev) "long_press"); reflexivity.
Qed.

Lemma drain_mode (queue : list Unified.EncoderEvent) :
  forall (self : Unified.Controller) (w : World),
    Unified.mode (final (Unified.drain queue self w)).1 = Unified.mode self.
Proof.
  induction queue as [|ev rest IH]; intros self w; [reflexivity|].
  cbn [Unified.drain].
  pose proof (handle_event_mode (Unified.set_encoder_queue self rest) ev w) as H.
  destruct (Unified.handle_event _ ev w) as [[] [self' w']|e [self' w']];
    cbn [final fst] in H.
  - rewrite IH. exact H.
  - exact H.
Qed.

Lemma tick_mode (oled : bool) (self : Unified.Controller) (w : World) :
  Unified.mode (Unified.tick oled self w).1 = Unified.mode self.
Proof.
  unfold Unified.tick, Unified.process_encoder_events.
  pose proof (drain_mode (Unified.encoder_queue self) self w) as H.
  destruct (Unified.drain _ self w) as [[] [self1 w1]|e [self1 w1]];
    cbn [final fst] in H; [|exact H].
  unfold Unified.update_oled_frame.
  destruct (negb oled); [exact H|].
  pose proof (switch_frame self1 Unified.OLED_CHANNEL w1) as F.
  destruct (Unified.switch_mux_channel self1 Unified.OLED_CHANNEL w1)
    as [[ok self2] w2].
  assert (Hm : Unified.mode self2 = Unified.mode self1)
    by (destruct F as [->|[_ ->]]; reflexivity).
  destruct ok; cbn [fst]; congruence.
Qed.

(** C10.  Processing queued events never changes the mode of the unified
    controller: not in [process_encoder_events], whatever is queued and
    however the hardware answers, and so not over any number of passes of
    the main loop.  An event whose type is none of rotation, click and
    long_press, a double_click in particular, is taken from the queue
    and changes nothing. *)
Theorem unified_mode_never_changes :
  forall (oled : bool) (arrivals : list (list Unified.EncoderEvent))
         (self : Unified.Controller) (ev : Unified.EncoderEvent) (w : World),
    handled_type (Unified.ev_type ev) = false ->
    Unified.mode (final (Unified.process_encoder_events self w)).1 = Unified.mode self /\
    Unified.mode (run_ticks oled arrivals self w).1 = Unified.mode self /\
    Unified.handle_event self ev w = Done tt (self, w) /\
    Unified.handle_event self Unified.double_click w = Done tt (self, w) /\
    Unified.process_encoder_events (Unified.set_encoder_queue self [ev]) w
      = Done tt (Unified.set_encoder_queue self [], w).
Proof.
  intros oled arrivals self ev w Hty.
  assert (Hev : forall s w0, Unified.handle_event s ev w0 = Done tt (s, w0)).
  { intros s w0. unfold Unified.handle_event. unfold handled_type in Hty.
    apply orb_false_iff in Hty as (Hty & ->).
    apply orb_false_iff in Hty as (-> & ->). reflexivity. }
  split; [|split; [|split; [|split]]].
  - apply drain_mode.
  - revert self w. induction arrivals as [|evs rest IH]; intros self w; [reflexivity|].
    cbn [run_ticks].
    pose proof (tick_mode oled
                  (Unified.set_encoder_queue self (Unified.encoder_queue self ++ evs)) w)
      as H.
    destruct (Unified.tick oled _ w) as [self2 w2]. rewrite IH. exact H.
  - apply Hev.
  - reflexivity.
  - unfold Unified.process_encoder_events. cbn [Unified.set_encoder_queue
      Unified.encoder_queue Unified.drain]. rewrite Hev. reflexivity.
Qed.

(** C10, witness: a double_click event. *)
Lemma unified_mode_never_changes_witness :
  let self := Unified.seed Unified.default_config (mkPersisted None None) true true in
  let w := mkWorld None [] [] in
  let arrivals := [[Unified.rotation 1; Unified.double_click]; [Unified.click]] in
  Unified.mode (final (Unified.process_encoder_events self w)).1 = Unified.mode self /\
  Unified.mode (run_ticks true arrivals self w).1 = Unified.mode self /\
  Unified.handle_event self Unified.double_click w = Done tt (self, w) /\
  Unified.handle_event self Unified.double_click w = Done tt (self, w) /\
  Unified.process_encoder_events (Unified.set_encoder_queue self [Unified.double_click]) w
    = Done tt (Unified.set_encoder_queue self [], w).
Proof.
  exact (unified_mode_never_changes true
           [[Unified.rotation 1; Unified.double_click]; [Unified.click]]
           (Unified.seed Unified.default_config (mkPersisted None None) true true)
           Unified.double_click (mkWorld None [] []) eq_refl).
Defined.

(* ===================================================================== *)
(** * The button *)
(* ===================================================================== *)

Lemma tilt_update_servo_button (self : ScreenTilt.Controller) (w : World) :
  let self' := (final (ScreenTilt.update_servo self w)).1 in
  ScreenTilt.handled self' = ScreenTilt.handled self /\
  ScreenTilt.click_count self' = ScreenTilt.click_count self /\
  ScreenTilt.click_timer self' = ScreenTilt.click_timer self.
Proof.
  destruct (tilt_update_servo_shape self w) as (a & [-> | ->]); cbn; auto.
Qed.

Lemma single_click_button (self : ScreenTilt.Controller) (w : World) :
  let self' := (final (ScreenTilt._handle_single_click self w)).1 in
  ScreenTilt.handled self' = ScreenTilt.handled self ++ [ScreenTilt.SingleClick] /\
  ScreenTilt.click_count self' = ScreenTilt.click_count self /\
  ScreenTilt.click_timer self' = ScreenTilt.click_timer self.
Proof.
  unfold ScreenTilt._handle_single_click.
  destruct (tilt_update_servo_button
              (ScreenTilt.set_encoder_pos (ScreenTilt.enter self ScreenTilt.SingleClick) 0)
              w) as (Hh & Hc & Ht).
  cbn zeta. rewrite Hh, Hc, Ht. cbn. auto.
Qed.

Lemma double_click_button (self : ScreenTilt.Controller) (w : World) :
  let self' := (final (ScreenTilt._handle_double_click self w)).1 in
  ScreenTilt.handled self' = ScreenTilt.handled self ++ [ScreenTilt.DoubleClick] /\
  ScreenTilt.click_count self' = ScreenTilt.click_count self /\
  ScreenTilt.click_timer self' = ScreenTilt.click_timer self.
Proof.
  unfold ScreenTilt._handle_double_click.
  destruct (ScreenTilt.index_of _ _) as [i|]; [|cbn; auto].
  destruct (lookup_mode _ _) as [e|m]; [cbn; auto|].
  destruct (Qeq_bool (sensitivity m) 0); cbn; auto.
Qed.

Lemma long_press_button (self : ScreenTilt.Controller) (w : World) :
  (final (ScreenTilt._handle_long_press self w)).1
    = ScreenTilt.enter self ScreenTilt.LongPress.
Proof.
  unfold ScreenTilt._handle_long_press, ScreenTilt.save_state, write_state_file.
  cbn. destruct (outcome w); reflexivity.
Qed.

(** What the expiring timer dispatches, by the click count it finds. *)
Lemma process_clicks_button (self : ScreenTilt.Controller) (w : World) :
  let self' := (final (ScreenTilt._process_clicks self w)).1 in
  ScreenTilt.click_timer self' = ScreenTilt.click_timer self /\
  ScreenTilt.handled self' =
    ScreenTilt.handled self ++
    (if ScreenTilt.click_count self =? 1 then [ScreenTilt.SingleClick]
     else if ScreenTilt.click_count self =? 2 then [ScreenTilt.DoubleClick]
     else []).
Proof.
  unfold ScreenTilt._process_clicks.
  destruct (ScreenTilt.click_count self =? 1).
  { destruct (single_click_button self w) as (Hh & _ & Ht).
    destruct (ScreenTilt._handle_single_click self w) as [[] [s1 w1]|e [s1 w1]];
      cbn in *; auto. }
  destruct (ScreenTilt.click_count self =? 2).
  { destruct (double_click_button self w) as (Hh & _ & Ht).
    destruct (ScreenTilt._handle_double_click self w) as [[] [s1 w1]|e [s1 w1]];
      cbn in *; auto. }
  cbn. rewrite app_nil_r. auto.
Qed.

Lemma fire_due_idle (t : Q) (self : ScreenTilt.Controller) (w : World) :
  ScreenTilt.click_timer self = None -> ScreenTilt.fire_due t self w = (self, w).
Proof. intros H. unfold ScreenTilt.fire_due. now rewrite H. Qed.

Lemma fire_due_early (t deadline : Q) (self : ScreenTilt.Controller) (w : World) :
  ScreenTilt.click_timer self = Some deadline -> (t < deadline)%Q ->
  ScreenTilt.fire_due t self w = (self, w).
Proof.
  intros H Hlt. unfold ScreenTilt.fire_due. rewrite H.
  destruct (Qle_bool deadline t) eqn:E; [|reflexivity].
  apply Qle_bool_iff in E. exfalso. apply (Qlt_not_le _ _ Hlt E).
Qed.

Lemma fire_due_expired (t deadline : Q) (self : ScreenTilt.Controller) (w : World) :
  ScreenTilt.click_timer self = Some deadline -> (deadline <= t)%Q ->
  ScreenTilt.fire_due t self w =
    final (ScreenTilt._process_clicks (ScreenTilt.set_click_timer self None) w).
Proof.
  intros H Hle. unfold ScreenTilt.fire_due. rewrite H.
  apply Qle_bool_iff in Hle. now rewrite Hle.
Qed.

Lemma released_short (self : ScreenTilt.Controller) (t : Q) (w : World) :
  (t - ScreenTilt.button_press_time self <= 1)%Q ->
  ScreenTilt._button_released self false t w =
    Done tt (ScreenTilt.set_click_timer
               (ScreenTilt.set_click_count self (ScreenTilt.click_count self + 1))
               (Some (t + (3 # 10))%Q),
             sleep (5 # 100) w).
Proof.
  intros H. unfold ScreenTilt._button_released. cbn [negb].
  destruct (Qlt_le_dec 1 (t - ScreenTilt.button_press_time self)) as [Hlt|_];
    [|reflexivity].
  exfalso. apply (Qlt_not_le _ _ Hlt H).
Qed.

Lemma released_long (self : ScreenTilt.Controller) (t : Q) (w : World) :
  (1 < t - ScreenTilt.button_press_time self)%Q ->
  ScreenTilt._button_released self false t w =
    ScreenTilt._handle_long_press self (sleep (5 # 100) w).
Proof.
  intros H. unfold ScreenTilt._button_released. cbn [negb].
  destruct (Qlt_le_dec 1 (t - ScreenTilt.button_press_time self)) as [_|Hle];
    [reflexivity|].
  exfalso. apply (Qlt_not_le _ _ H Hle).
Qed.

(** Every event the polling thread queues is a rotation, a click or a long
    press. *)
Lemma poll_event_types (samples : list Unified.Sample) :
  forall p : Unified.Poller,
    Forall (fun e => handled_type (Unified.ev_type e) = true) (Unified.poll p samples).2.
Proof.
  induction samples as [|s rest IH]; intros p; [constructor|].
  cbn [Unified.poll]. unfold Unified.poll_step.
  assert (Hb : Forall (fun e => handled_type (Unified.ev_type e) = true)
                 (Unified.poll_button (Unified.button_press_time p)
                    (Unified.sw s) (Unified.now s)).2).
  { unfold Unified.poll_button. destruct (Unified.sw s).
    - destruct (Qeq_bool _ 0); constructor.
    - destruct (Qlt_le_dec 0 _); [|constructor].
      destruct (Qlt_le_dec 1 _); repeat constructor. }
  destruct (Unified.poll_button _ _ _) as [bpt but]. cbn [snd] in Hb.
  specialize (IH (Unified.mkPoller (Unified.clk s) bpt)).
  destruct (Unified.poll (Unified.mkPoller (Unified.clk s) bpt) rest) as [p2 evs'].
  cbn [snd] in *. rewrite poll_rotation_decode.
  apply Forall_app. split; [apply Forall_app; split|]; auto.
  destruct (decode _ _ _); repeat constructor.
Qed.

(** A callback before which no timer fires. *)
Lemma step_quiet (self : ScreenTilt.Controller) (w : World) (i : ScreenTilt.Input) :
  ScreenTilt.fire_due (ScreenTilt.time_of i) self w = (self, w) ->
  ScreenTilt.step (self, w) i =
    match i with
    | ScreenTilt.Pressed t => (ScreenTilt._button_pressed self t, w)
    | ScreenTilt.Released t is_pressed =>
        final (ScreenTilt._button_released self is_pressed t w)
    | ScreenTilt.Elapsed _ => (self, w)
    end.
Proof. intros H. unfold ScreenTilt.step. cbn [fst snd]. now rewrite H. Qed.

(** A press held for more than a second, as measured on release. *)
Lemma long_press_episode (self : ScreenTilt.Controller) (w : World) (t0 t1 t2 : Q) :
  ScreenTilt.click_timer self = None ->
  (1 < t1 - t0)%Q ->
  ScreenTilt.handled
    (ScreenTilt.run_inputs self w
       [ScreenTilt.Pressed t0; ScreenTilt.Released t1 false; ScreenTilt.Elapsed t2]).1
  = ScreenTilt.handled self ++ [ScreenTilt.LongPress].
Proof.
  intros Hidle Hlong. unfold ScreenTilt.run_inputs. cbn [fold_left].
  rewrite (step_quiet self w) by now apply fire_due_idle.
  rewrite step_quiet by now apply fire_due_idle.
  rewrite released_long by exact Hlong.
  pose proof (long_press_button (ScreenTilt._button_pressed self t0)
                (sleep (5 # 100) w)) as Hl.
  destruct (final (ScreenTilt._handle_long_press _ _)) as [s2 w2].
  cbn [fst] in Hl. subst s2.
  rewrite step_quiet by now apply fire_due_idle.
  reflexivity.
Qed.

(** A short press, and nothing more until its timer expires. *)
Lemma single_click_episode (self : ScreenTilt.Controller) (w : World) (t0 t1 t2 : Q) :
  ScreenTilt.click_count self = 0 ->
  ScreenTilt.click_timer self = None ->
  (t1 - t0 <= 1)%Q ->
  (t1 + (3 # 10) <= t2)%Q ->
  ScreenTilt.handled
    (ScreenTilt.run_inputs self w
       [ScreenTilt.Pressed t0; ScreenTilt.Released t1 false; ScreenTilt.Elapsed t2]).1
  = ScreenTilt.handled self ++ [ScreenTilt.SingleClick].
Proof.
  intros Hcount Hidle Hshort Hdue. unfold ScreenTilt.run_inputs. cbn [fold_left].
  rewrite (step_quiet self w) by now apply fire_due_idle.
  rewrite step_quiet by now apply fire_due_idle.
  rewrite released_short by exact Hshort. cbn [final].
  unfold ScreenTilt.step. cbn [fst snd ScreenTilt.time_of].
  rewrite (fire_due_expired t2 (t1 + (3 # 10))%Q) by (reflexivity || exact Hdue).
  match goal with
  | |- context [ScreenTilt._process_clicks ?s ?w0] =>
      destruct (process_clicks_button s w0) as (_ & Hh);
      destruct (final (ScreenTilt._process_clicks s w0)) as [s3 w3]
  end.
  cbn [fst] in *. rewrite Hh. cbn. now rewrite Hcount.
Qed.

(** Two short presses, the second released before the timer of the first
    expires, and nothing more until the new timer expires. *)
Lemma double_click_episode (self : ScreenTilt.Controller) (w : World)
    (t0 t1 t2 t3 t4 : Q) :
  ScreenTilt.click_count self = 0 ->
  ScreenTilt.click_timer self = None ->
  (t1 - t0 <= 1)%Q ->
  (t2 <= t3)%Q ->
  (t3 - t2 <= 1)%Q ->
  (t3 < t1 + (3 # 10))%Q ->
  (t3 + (3 # 10) <= t4)%Q ->
  ScreenTilt.handled
    (ScreenTilt.run_inputs self w
       [ScreenTilt.Pressed t0; ScreenTilt.Released t1 false;
        ScreenTilt.Pressed t2; ScreenTilt.Released t3 false;
        ScreenTilt.Elapsed t4]).1
  = ScreenTilt.handled self ++ [ScreenTilt.DoubleClick].
Proof.
  intros Hcount Hidle Hs1 Hord Hs2 Hquick Hdue.
  unfold ScreenTilt.run_inputs. cbn [fold_left].
  rewrite (step_quiet self w) by now apply fire_due_idle.
  rewrite step_quiet by now apply fire_due_idle.
  rewrite released_short by exact Hs1. cbn [final].
  rewrite step_quiet
    by (apply (fire_due_early _ (t1 + (3 # 10))%Q); [reflexivity|cbn; lra]).
  rewrite step_quiet
    by (apply (fire_due_early _ (t1 + (3 # 10))%Q); [reflexivity|exact Hquick]).
  rewrite released_short by exact Hs2. cbn [final].
  unfold ScreenTilt.step. cbn [fst snd ScreenTilt.time_of].
  rewrite (fire_due_expired t4 (t3 + (3 # 10))%Q) by (reflexivity || exact Hdue).
  match goal with
  | |- context [ScreenTilt._process_clicks ?s ?w0] =>
      destruct (process_clicks_button s w0) as (_ & Hh);
      destruct (final (ScreenTilt._process_clicks s w0)) as [s3 w3]
  end.
  cbn [fst] in *. rewrite Hh. cbn. now rewrite Hcount.
Qed.

(** C7, as the code has it.  In the tilt controller, from an idle click state and
    with the button found released after the 50 ms pause, the duration
    being measured from the press to that second reading: a press of more
    than 1.0 s enters the long-press handler once and nothing else; a press
    of at most 1.0 s, with nothing more before its 0.3 s timer expires,
    enters the single-click handler once and nothing else; two such presses,
    the second released before the timer of the first expires, enter the
    double-click handler once and nothing else.  The polling thread of the
    unified controller queues for a release exactly one event, a long press
    for more than 1.0 s and a click otherwise; it never queues a double
    click. *)
Theorem button_gestures :
  forall (self : ScreenTilt.Controller) (w : World)
         (l0 l1 l2 t0 t1 idle t2 t3 t4 press_time now : Q)
         (p : Unified.Poller) (samples : list Unified.Sample),
    ScreenTilt.click_count self = 0 ->
    ScreenTilt.click_timer self = None ->
    (1 < l1 - l0)%Q ->
    (t1 - t0 <= 1)%Q ->
    (t1 + (3 # 10) <= idle)%Q ->
    (t2 <= t3)%Q ->
    (t3 - t2 <= 1)%Q ->
    (t3 < t1 + (3 # 10))%Q ->
    (t3 + (3 # 10) <= t4)%Q ->
    (0 < press_time)%Q ->
    ScreenTilt.handled
      (ScreenTilt.run_inputs self w
         [ScreenTilt.Pressed l0; ScreenTilt.Released l1 false; ScreenTilt.Elapsed l2]).1
      = ScreenTilt.handled self ++ [ScreenTilt.LongPress] /\
    ScreenTilt.handled
      (ScreenTilt.run_inputs self w
         [ScreenTilt.Pressed t0; ScreenTilt.Released t1 false; ScreenTilt.Elapsed idle]).1
      = ScreenTilt.handled self ++ [ScreenTilt.SingleClick] /\
    ScreenTilt.handled
      (ScreenTilt.run_inputs self w
         [ScreenTilt.Pressed t0; ScreenTilt.Released t1 false;
          ScreenTilt.Pressed t2; ScreenTilt.Released t3 false;
          ScreenTilt.Elapsed t4]).1
      = ScreenTilt.handled self ++ [ScreenTilt.DoubleClick] /\
    Unified.poll_button press_time false now =
      (0%Q, [if Qlt_le_dec 1 (now - press_time)
             then Unified.long_press else Unified.click]) /\
    Forall (fun e => handled_type (Unified.ev_type e) = true) (Unified.poll p samples).2.
Proof.
  intros self w l0 l1 l2 t0 t1 idle t2 t3 t4 press_time now p samples
         Hcount Hidle Hlong Hs1 Hdue1 Hord Hs2 Hquick Hdue2 Hpress.
  split; [|split; [|split; [|split]]].
  - now apply long_press_episode.
  - now apply single_click_episode.
  - now apply double_click_episode.
  - unfold Unified.poll_button.
    destruct (Qlt_le_dec 0 press_time) as [_|Hle].
    + destruct (Qlt_le_dec 1 (now - press_time)); reflexivity.
    + exfalso. apply (Qlt_not_le _ _ Hpress Hle).
  - apply poll_event_types.
Qed.

(** C7, witness: a press of two seconds; a press of 0.2 s left alone; two
    presses 0.1 s apart. *)
Lemma button_gestures_witness :
  let self := ScreenTilt.seed ScreenTilt.default_config (mkPersisted None None)
                None None true true in
  let w := mkWorld None [] [] in
  let p := Unified.mkPoller true 0 in
  let samples := [Unified.mkSample true true true (5 # 1);
                  Unified.mkSample true true false (51 # 10)] in
  ScreenTilt.handled
    (ScreenTilt.run_inputs self w
       [ScreenTilt.Pressed 0; ScreenTilt.Released (2 # 1) false;
        ScreenTilt.Elapsed (3 # 1)]).1
    = ScreenTilt.handled self ++ [ScreenTilt.LongPress] /\
  ScreenTilt.handled
    (ScreenTilt.run_inputs self w
       [ScreenTilt.Pressed (10 # 1); ScreenTilt.Released (102 # 10) false;
        ScreenTilt.Elapsed (11 # 1)]).1
    = ScreenTilt.handled self ++ [ScreenTilt.SingleClick] /\
  ScreenTilt.handled
    (ScreenTilt.run_inputs self w
       [ScreenTilt.Pressed (10 # 1); ScreenTilt.Released (102 # 10) false;
        ScreenTilt.Pressed (103 # 10); ScreenTilt.Released (104 # 10) false;
        ScreenTilt.Elapsed (11 # 1)]).1
    = ScreenTilt.handled self ++ [ScreenTilt.DoubleClick] /\
  Unified.poll_button (5 # 1) false (51 # 10) =
    (0%Q, [if Qlt_le_dec 1 ((51 # 10) - (5 # 1))
           then Unified.long_press else Unified.click]) /\
  Forall (fun e => handled_type (Unified.ev_type e) = true) (Unified.poll p samples).2.
Proof.
  apply (button_gestures
           (ScreenTilt.seed ScreenTilt.default_config (mkPersisted None None)
              None None true true)
           (mkWorld None [] [])
           0 (2 # 1) (3 # 1) (10 # 1) (102 # 10) (11 # 1)
           (103 # 10) (104 # 10) (11 # 1) (5 # 1) (51 # 10));
    try reflexivity; vm_compute; discriminate.
Defined.

(** C7, counterexample: in the unified controller two presses released
    0.1 s apart queue two clicks and no double click. *)
Lemma unified_two_releases_are_two_clicks :
  let samples := [Unified.mkSample true true true (10 # 1);
                  Unified.mkSample true true false (101 # 10);
                  Unified.mkSample true true true (1015 # 100);
                  Unified.mkSample true true false (102 # 10)] in
  (Unified.poll (Unified.mkPoller true 0) samples).2
    = [Unified.click; Unified.click] /\
  ~ In Unified.double_click (Unified.poll (Unified.mkPoller true 0) samples).2.
Proof.
  cbv zeta. split; [reflexivity|].
  vm_compute. intros [H|[H|[]]]; discriminate H.
Qed.

(** C8, as the code has it.  When the timer expires with a click count of
    exactly 2 the double-click handler is entered once and no other; with
    a count above 2 no handler is entered at all: the count is cleared and
    the clicks are dropped. *)
Theorem double_click_needs_exactly_two :
  forall (two many : ScreenTilt.Controller) (w : World),
    ScreenTilt.click_count two = 2 ->
    2 < ScreenTilt.click_count many ->
    ScreenTilt.handled (final (ScreenTilt._process_clicks two w)).1
      = ScreenTilt.handled two ++ [ScreenTilt.DoubleClick] /\
    ScreenTilt._process_clicks many w
      = Done tt (ScreenTilt.set_click_count many 0, w).
Proof.
  intros two many w Htwo Hmany. split.
  - destruct (process_clicks_button two w) as (_ & Hh).
    rewrite Hh, Htwo. reflexivity.
  - unfold ScreenTilt._process_clicks.
    destruct (Z.eqb_spec (ScreenTilt.click_count many) 1); [lia|].
    destruct (Z.eqb_spec (ScreenTilt.click_count many) 2); [lia|].
    reflexivity.
Qed.

(** C8, witness: counts of 2 and of 3. *)
Lemma double_click_needs_exactly_two_witness :
  let idle := ScreenTilt.seed ScreenTilt.default_config (mkPersisted None None)
                None None true true in
  let two := ScreenTilt.set_click_count idle 2 in
  let many := ScreenTilt.set_click_count idle 3 in
  let w := mkWorld None [] [] in
  ScreenTilt.handled (final (ScreenTilt._process_clicks two w)).1
    = ScreenTilt.handled two ++ [ScreenTilt.DoubleClick] /\
  ScreenTilt._process_clicks many w
    = Done tt (ScreenTilt.set_click_count many 0, w).
Proof.
  apply (double_click_needs_exactly_two
           (ScreenTilt.set_click_count
              (ScreenTilt.seed ScreenTilt.default_config (mkPersisted None None)
                 None None true true) 2)
           (ScreenTilt.set_click_count
              (ScreenTilt.seed ScreenTilt.default_config (mkPersisted None None)
                 None None true true) 3)
           (mkWorld None [] [])).
  - reflexivity.
  - reflexivity.
Defined.

(** C8, counterexample: three presses 0.1 s apart.  The timer expires on
    a count of 3: no handler is entered, the mode is what it was, the count
    is cleared. *)
Lemma triple_click_is_dropped :
  let self := ScreenTilt.seed ScreenTilt.default_config (mkPersisted None None)
                None None true true in
  let after :=
    (ScreenTilt.run_inputs self (mkWorld None [] [])
       [ScreenTilt.Pressed (10 # 1); ScreenTilt.Released (101 # 10) false;
        ScreenTilt.Pressed (1015 # 100); ScreenTilt.Released (102 # 10) false;
        ScreenTilt.Pressed (1025 # 100); ScreenTilt.Released (103 # 10) false;
        ScreenTilt.Elapsed (11 # 1)]).1 in
  ScreenTilt.handled after = [] /\
  ScreenTilt.handled after <> [ScreenTilt.DoubleClick] /\
  ScreenTilt.mode after = ScreenTilt.mode self /\
  ScreenTilt.click_count after = 0 /\
  ScreenTilt.click_timer after = None.
Proof. vm_compute. repeat split; discriminate. Qed.

(* ===================================================================== *)
(** * Routing of the unified controller *)
(* ===================================================================== *)

Lemma well_routed_app (a b : list io_event) :
  forall reg,
    well_routed reg (a ++ b) <->
    well_routed reg a /\ well_routed (replay reg a) b.
Proof.
  induction a as [|e a IH]; intros reg; cbn [app well_routed replay].
  - tauto.
  - destruct e as [addr mask [] | sv ang ok | sec | ang md ok | ok];
      rewrite IH; tauto.
Qed.

Lemma replay_app (a b : list io_event) :
  forall reg, replay reg (a ++ b) = replay (replay reg a) b.
Proof.
  induction a as [|e a IH]; intros reg; cbn [app replay]; [reflexivity|].
  destruct e as [addr mask [] | sv ang ok | sec | ang md ok | ok]; apply IH.
Qed.

Lemma routed_run_refl (self : Unified.Controller) (w : World) :
  cache_coherent self w -> routed_run self w self w.
Proof.
  intros H. exists []. rewrite app_nil_r. cbn.
  destruct (Unified.mux_bus self); auto.
Qed.

Lemma routed_run_trans (a b c : Unified.Controller) (wa wb wc : World) :
  routed_run a wa b wb -> routed_run b wb c wc -> routed_run a wa c wc.
Proof.
  intros (e1 & T1 & R1 & P1 & _ & B1) (e2 & T2 & R2 & P2 & C2 & B2).
  exists (e1 ++ e2). split; [rewrite T2, T1; now rewrite app_assoc|].
  split.
  { rewrite B1 in R2. destruct (Unified.mux_bus a).
    - apply well_routed_app. rewrite P1. auto.
    - rewrite mux_attempts_app, R1, R2. reflexivity. }
  split; [rewrite replay_app, P1; exact P2|].
  split; [exact C2 | congruence].
Qed.

(** A step that appends events other than channel selects, servo writes
    and frames, and leaves the cache alone. *)
Lemma routed_run_plain (a b : Unified.Controller) (w w' : World) (evs : list io_event) :
  trace w' = trace w ++ evs ->
  mux_reg w' = mux_reg w ->
  Forall (fun e => match e with Sleep _ | SaveState _ _ _ => True | _ => False end) evs ->
  Unified.current_mux_channel b = Unified.current_mux_channel a ->
  Unified.mux_bus b = Unified.mux_bus a ->
  cache_coherent a w ->
  routed_run a w b w'.
Proof.
  intros T Hreg Hev Hch Hb Hc. exists evs. split; [exact T|].
  assert (Hplain : forall reg, well_routed reg evs /\ replay reg evs = reg /\
                               mux_attempts evs = O).
  { clear T. induction Hev as [|e l He _ IH]; intros reg; [cbn; auto|].
    destruct e; try contradiction; cbn; apply IH. }
  destruct (Hplain (mux_reg w)) as (W & P & A).
  split; [destruct (Unified.mux_bus a); assumption|].
  split; [congruence|].
  split; [|exact Hb].
  intros c Hcur. rewrite Hreg. apply Hc. congruence.
Qed.

(** A step that touches neither the hardware nor the cache. *)
Lemma routed_run_pure (a b : Unified.Controller) (w : World) :
  Unified.current_mux_channel b = Unified.current_mux_channel a ->
  Unified.mux_bus b = Unified.mux_bus a ->
  cache_coherent a w ->
  routed_run a w b w.
Proof.
  intros Hch Hb Hc. apply (routed_run_plain a b w w []); auto.
  now rewrite app_nil_r.
Qed.

(** A switch is a routed run; when it succeeds with a multiplexer the
    register holds the mask of the channel asked for. *)
Lemma switch_routed (self : Unified.Controller) (channel : Z) (w : World) :
  cache_coherent self w ->
  let '(ok, self', w') := Unified.switch_mux_channel self channel w in
  routed_run self w self' w' /\
  (ok = true -> Unified.mux_bus self = true -> mux_reg w' = Some (Z.shiftl 1 channel)).
Proof.
  intros Hc. unfold Unified.switch_mux_channel.
  destruct (Unified.mux_bus self) eqn:Hbus; cbn [negb].
  2:{ split; [now apply routed_run_refl | discriminate]. }
  destruct (Unified.on_channel self channel) eqn:Hon.
  { split; [now apply routed_run_refl|]. intros _ _.
    unfold Unified.on_channel in Hon.
    destruct (Unified.current_mux_channel self) as [c|] eqn:Hcur; [|discriminate].
    apply Z.eqb_eq in Hon. subst c. now apply Hc. }
  unfold shl1. destruct (channel <? 0).
  { split; [now apply routed_run_refl | discriminate]. }
  unfold bus_write_byte. destruct (outcome w) eqn:Hout; cbn.
  - split; [|reflexivity].
    exists [MuxWrite Unified.MUX_ADDRESS (Z.shiftl 1 channel) true; Sleep (2 # 1000)].
    cbn. rewrite <- app_assoc, Hbus. repeat split; auto.
    intros c [= <-]. reflexivity.
  - split; [|discriminate].
    exists [MuxWrite Unified.MUX_ADDRESS (Z.shiftl 1 channel) false].
    cbn. rewrite Hbus. repeat split; auto.
Qed.

(** A servo write or a frame right after a successful switch to its
    channel. *)
Lemma routed_device_op (a b : Unified.Controller) (w w1 : World) (e : io_event)
    (channel : Z) :
  routed_run a w b w1 ->
  (Unified.mux_bus a = true -> mux_reg w1 = Some (Z.shiftl 1 channel)) ->
  (forall reg, well_routed reg [e] <-> reg = Some (Z.shiftl 1 channel)) ->
  (forall reg, replay reg [e] = reg) ->
  mux_attempts [e] = O ->
  routed_run a w b {| mux_reg := mux_reg w1; script := consume w1;
                      trace := trace w1 ++ [e] |}.
Proof.
  intros (e1 & T1 & W1 & P1 & C1 & B1) Hreg Hroute Hrep Hatt.
  exists (e1 ++ [e]). cbn.
  split; [rewrite T1; now rewrite app_assoc|].
  split.
  { destruct (Unified.mux_bus a).
    - apply well_routed_app. split; [exact W1|]. rewrite P1. apply Hroute. now apply Hreg.
    - rewrite mux_attempts_app, W1, Hatt. reflexivity. }
  split; [rewrite replay_app, P1; apply Hrep|].
  split; [exact C1 | exact B1].
Qed.

Lemma servo_scoped_write_routed (self : Unified.Controller) (w : World) :
  cache_coherent self w ->
  let '(self', w') := Unified.servo_scoped_write self w in
  routed_run self w self' w'.
Proof.
  intros Hc. unfold Unified.servo_scoped_write.
  pose proof (switch_routed self Unified.SERVO_CHANNEL w Hc) as H1.
  destruct (Unified.switch_mux_channel self Unified.SERVO_CHANNEL w)
    as [[ok1 self1] w1].
  destruct H1 as (R1 & Hreg1). destruct ok1; [|exact R1].
  specialize (Hreg1 eq_refl).
  assert (Rw : routed_run self w self1
                 (snd (servo_write (Unified.servo_channel self1)
                         (Unified.current_angle self1) w1))).
  { unfold servo_write. cbn [snd].
    apply (routed_device_op self self1 w w1 _ Unified.SERVO_CHANNEL R1 Hreg1).
    - intros reg. cbn. tauto.
    - reflexivity.
    - reflexivity. }
  destruct (servo_write _ _ w1) as [dev w2]. cbn [snd] in Rw.
  pose proof (switch_routed self1 Unified.OLED_CHANNEL w2) as H2.
  destruct (Unified.switch_mux_channel self1 Unified.OLED_CHANNEL w2)
    as [[ok3 self3] w3].
  eapply routed_run_trans; [exact Rw|].
  apply H2. destruct Rw as (? & ? & ? & ? & C & ?). exact C.
Qed.

Lemma update_servo_angle_routed (self : Unified.Controller) (delta : Z) (w : World) :
  cache_coherent self w ->
  let '(self', w') := final (Unified.update_servo_angle self delta w) in
  routed_run self w self' w'.
Proof.
  intros Hc. unfold Unified.update_servo_angle.
  destruct (negb (Unified.servo_kit self)); [now apply routed_run_refl|].
  destruct (lookup_mode _ _) as [e|m]; [now apply routed_run_refl|].
  set (self1 := Unified.set_encoder_pos self (Unified.encoder_pos self + delta)).
  assert (R1 : routed_run self w self1 w).
  { now apply routed_run_pure. }
  destruct (Unified.apply_limits self1 _) as [e|a]; [exact R1|].
  destruct (py_ne a (Unified.current_angle self1)); [|exact R1].
  pose proof (servo_scoped_write_routed (Unified.set_current_angle self1 a) w) as H.
  cbn [final].
  destruct (Unified.servo_scoped_write (Unified.set_current_angle self1 a) w)
    as [self' w'].
  eapply routed_run_trans; [|apply H; exact Hc].
  now apply routed_run_pure.
Qed.

Lemma handle_event_routed (self : Unified.Controller) (ev : Unified.EncoderEvent)
    (w : World) :
  cache_coherent self w ->
  let '(self', w') := final (Unified.handle_event self ev w) in
  routed_run self w self' w'.
Proof.
  intros Hc. unfold Unified.handle_event.
  destruct (String.eqb (Unified.ev_type ev) "rotation").
  { now apply update_servo_angle_routed. }
  destruct (String.eqb (Unified.ev_type ev) "click").
  { pose proof (update_servo_angle_routed (Unified.set_encoder_pos self 0) 0 w Hc) as H.
    destruct (final (Unified.update_servo_angle _ 0 w)) as [self' w'].
    eapply routed_run_trans; [|exact H].
    now apply routed_run_pure. }
  destruct (String.eqb (Unified.ev_type ev) "long_press"); cbn [final].
  - unfold Unified.save_state, write_state_file. cbn [snd].
    eapply routed_run_plain; cbn; auto.
  - now apply routed_run_refl.
Qed.

Lemma drain_routed (queue : list Unified.EncoderEvent) :
  forall (self : Unified.Controller) (w : World),
    cache_coherent self w ->
    let '(self', w') := final (Unified.drain queue self w) in
    routed_run self w self' w'.
Proof.
  induction queue as [|ev rest IH]; intros self w Hc.
  - now apply routed_run_refl.
  - cbn [Unified.drain].
    pose proof (handle_event_routed (Unified.set_encoder_queue self rest) ev w Hc) as H.
    assert (R0 : routed_run self w (Unified.set_encoder_queue self rest) w).
    { now apply routed_run_pure. }
    destruct (Unified.handle_event (Unified.set_encoder_queue self rest) ev w)
      as [[] [self1 w1]|e [self1 w1]]; cbn [final] in H |- *.
    + specialize (IH self1 w1).
      destruct (final (Unified.drain rest self1 w1)) as [self2 w2].
      eapply routed_run_trans; [exact R0|].
      eapply routed_run_trans; [exact H|].
      apply IH. destruct H as (? & ? & ? & ? & C & ?). exact C.
    + eapply routed_run_trans; [exact R0 | exact H].
Qed.

Lemma update_oled_frame_routed (oled : bool) (self : Unified.Controller) (w : World) :
  cache_coherent self w ->
  let '(self', w') := Unified.update_oled_frame oled self w in
  routed_run self w self' w'.
Proof.
  intros Hc. unfold Unified.update_oled_frame.
  destruct (negb oled); [now apply routed_run_refl|].
  pose proof (switch_routed self Unified.OLED_CHANNEL w Hc) as H1.
  destruct (Unified.switch_mux_channel self Unified.OLED_CHANNEL w)
    as [[ok1 self1] w1].
  destruct H1 as (R1 & Hreg1). destruct ok1; [|exact R1].
  specialize (Hreg1 eq_refl).
  unfold oled_display. cbn [snd].
  apply (routed_device_op self self1 w w1 _ Unified.OLED_CHANNEL R1 Hreg1).
  - intros reg. cbn. tauto.
  - reflexivity.
  - reflexivity.
Qed.

Lemma tick_routed (oled : bool) (self : Unified.Controller) (w : World) :
  cache_coherent self w ->
  let '(self', w') := Unified.tick oled self w in
  routed_run self w self' w'.
Proof.
  intros Hc. unfold Unified.tick, Unified.process_encoder_events.
  pose proof (drain_routed (Unified.encoder_queue self) self w Hc) as H.
  destruct (Unified.drain (Unified.encoder_queue self) self w)
    as [[] [self1 w1]|e [self1 w1]]; cbn [final] in H; [|exact H].
  pose proof (update_oled_frame_routed oled self1 w1) as H2.
  destruct (Unified.update_oled_frame oled self1 w1) as [self2 w2].
  eapply routed_run_trans; [exact H|].
  apply H2. destruct H as (? & ? & ? & ? & C & ?). exact C.
Qed.

Lemma run_ticks_routed (oled : bool) (arrivals : list (list Unified.EncoderEvent)) :
  forall (self : Unified.Controller) (w : World),
    cache_coherent self w ->
    let '(self', w') := run_ticks oled arrivals self w in
    routed_run self w self' w'.
Proof.
  induction arrivals as [|evs rest IH]; intros self w Hc.
  - now apply routed_run_refl.
  - cbn [run_ticks].
    pose proof (tick_routed oled
                  (Unified.set_encoder_queue self (Unified.encoder_queue self ++ evs))
                  w Hc) as H.
    assert (R0 : routed_run self w
              (Unified.set_encoder_queue self (Unified.encoder_queue self ++ evs)) w).
    { now apply routed_run_pure. }
    destruct (Unified.tick oled _ w) as [self1 w1].
    specialize (IH self1 w1).
    destruct (run_ticks oled rest self1 w1) as [self2 w2].
    eapply routed_run_trans; [exact R0|].
    eapply routed_run_trans; [exact H|].
    apply IH. destruct H as (? & ? & ? & ? & C & ?). exact C.
Qed.

Lemma init_oled_routed (d : UnifiedLifecycle.Deck) (w : World) :
  cache_coherent (UnifiedLifecycle.ctl d) w ->
  let '(d', w') := UnifiedLifecycle.init_oled d w in
  routed_run (UnifiedLifecycle.ctl d) w (UnifiedLifecycle.ctl d') w'.
Proof.
  intros Hc. unfold UnifiedLifecycle.init_oled.
  pose proof (switch_routed (UnifiedLifecycle.ctl d) Unified.OLED_CHANNEL w Hc) as H1.
  destruct (Unified.switch_mux_channel (UnifiedLifecycle.ctl d) Unified.OLED_CHANNEL w)
    as [[ok1 c1] w1].
  destruct H1 as (R1 & _). destruct ok1; [|exact R1].
  unfold untraced. cbn [fst snd].
  assert (Hplain : forall (script' : list bool),
            routed_run (UnifiedLifecycle.ctl d) w c1
              {| mux_reg := mux_reg w1; script := script'; trace := trace w1 |}).
  { intros script'. eapply routed_run_trans; [exact R1|].
    destruct R1 as (? & ? & ? & ? & C & ?).
    apply (routed_run_plain c1 c1 w1 _ []); cbn; auto. now rewrite app_nil_r. }
  repeat match goal with
         | |- context [if ?b then _ else _] => destruct b
         end; cbn [UnifiedLifecycle.ctl]; apply Hplain.
Qed.

Lemma setup_servo_routed (a self : Unified.Controller) (w0 w : World) :
  routed_run a w0 self w ->
  (Unified.mux_bus a = true -> mux_reg w = Some (Z.shiftl 1 Unified.SERVO_CHANNEL)) ->
  let '(self', w') := UnifiedLifecycle.setup_servo self w in
  routed_run a w0 self' w'.
Proof.
  intros R Hreg. unfold UnifiedLifecycle.setup_servo, servokit_init, servo_configure,
    untraced.
  assert (Hc : cache_coherent self w) by (destruct R as (? & ? & ? & ? & C & ?); exact C).
  assert (Hstep : forall (b : Unified.Controller) (wa wb : World),
            routed_run a w0 self wa ->
            trace wb = trace wa -> mux_reg wb = mux_reg wa ->
            Unified.current_mux_channel b = Unified.current_mux_channel self ->
            Unified.mux_bus b = Unified.mux_bus self ->
            routed_run a w0 b wb).
  { intros b wa wb Ra Ht Hr Hch Hb. eapply routed_run_trans; [exact Ra|].
    destruct Ra as (? & ? & ? & ? & C & ?).
    apply (routed_run_plain self b wa wb []); auto. now rewrite app_nil_r. }
  destruct (outcome w) eqn:O1; cbn [fst snd].
  2:{ apply (Hstep _ w); auto. }
  set (w1 := {| mux_reg := mux_reg w; script := consume w; trace := trace w |}).
  assert (R1 : routed_run a w0 self w1) by (apply (Hstep _ w); auto).
  destruct (outcome w1) eqn:O2.
  2:{ apply (Hstep _ w1); auto. }
  set (w2 := {| mux_reg := mux_reg w1; script := consume w1; trace := trace w1 |}).
  set (self2 := UnifiedLifecycle.set_servo_channel
                  (UnifiedLifecycle.set_servo_kit self true)
                  (cfg_servo_channel (Unified.config self))).
  assert (R2 : routed_run a w0 self2 w2) by (apply (Hstep _ w1); auto).
  unfold servo_write. cbn [fst snd].
  assert (R3 : routed_run a w0 self2
                 {| mux_reg := mux_reg w2; script := consume w2;
                    trace := trace w2 ++
                      [ServoWrite (Unified.servo_channel self2)
                         (Unified.current_angle self2) (outcome w2)] |}).
  { apply (routed_device_op a self2 w0 w2 _ Unified.SERVO_CHANNEL R2).
    - exact Hreg.
    - intros reg. cbn. tauto.
    - reflexivity.
    - reflexivity. }
  destruct (outcome w2); [exact R3|].
  eapply routed_run_trans; [exact R3|].
  destruct R3 as (? & ? & ? & ? & C & ?). now apply routed_run_pure.
Qed.

Lemma init_servo_routed (self : Unified.Controller) (w : World) :
  cache_coherent self w ->
  let '(self', w') := UnifiedLifecycle.init_servo self w in
  routed_run self w self' w'.
Proof.
  intros Hc. unfold UnifiedLifecycle.init_servo.
  pose proof (switch_routed self Unified.SERVO_CHANNEL w Hc) as H1.
  destruct (Unified.switch_mux_channel self Unified.SERVO_CHANNEL w)
    as [[ok1 self1] w1].
  destruct H1 as (R1 & Hreg1). destruct ok1; [|exact R1].
  specialize (Hreg1 eq_refl).
  pose proof (setup_servo_routed self self1 w w1 R1 Hreg1) as H2.
  destruct (UnifiedLifecycle.setup_servo self1 w1) as [self2 w2].
  pose proof (switch_routed self2 Unified.OLED_CHANNEL w2) as H3.
  destruct (Unified.switch_mux_channel self2 Unified.OLED_CHANNEL w2)
    as [[ok3 self3] w3].
  eapply routed_run_trans; [exact H2|].
  apply H3. destruct H2 as (? & ? & ? & ? & C & ?). exact C.
Qed.

(** A switch that fails leaves the controller off the channel asked
    for. *)
Lemma switch_failed_off_channel (self : Unified.Controller) (channel : Z) (w : World) :
  let '(ok, self', w') := Unified.switch_mux_channel self channel w in
  ok = false -> Unified.on_channel self' channel = false.
Proof.
  unfold Unified.switch_mux_channel.
  destruct (negb (Unified.mux_bus self)); [discriminate|].
  destruct (Unified.on_channel self channel) eqn:Hon; [discriminate|].
  destruct (shl1 channel); [|intros _; exact Hon].
  unfold bus_write_byte. cbn [fst snd].
  destruct (outcome w); [discriminate | intros _; exact Hon].
Qed.

(** [shutdown] keeps the cache coherent.  Its clear is routed when there
    is no multiplexer or when the controller ends on the display channel,
    that is when the switch before the clear succeeded. *)
Lemma shutdown_routed (d : UnifiedLifecycle.Deck) (w : World) :
  cache_coherent (UnifiedLifecycle.ctl d) w ->
  let '(d', w') := UnifiedLifecycle.shutdown d w in
  cache_coherent (UnifiedLifecycle.ctl d') w' /\
  (exists evs, trace w' = trace w ++ evs /\
     (Unified.mux_bus (UnifiedLifecycle.ctl d) = false -> mux_attempts evs = O)) /\
  (Unified.mux_bus (UnifiedLifecycle.ctl d) = false \/
   UnifiedLifecycle.oled_device d = false \/
   Unified.on_channel (UnifiedLifecycle.ctl d') Unified.OLED_CHANNEL = true ->
   routed_run (UnifiedLifecycle.ctl d) w (UnifiedLifecycle.ctl d') w').
Proof.
  intros Hc. unfold UnifiedLifecycle.shutdown, Unified.save_state, write_state_file.
  cbn [UnifiedLifecycle.ctl UnifiedLifecycle.oled_device snd].
  set (w1 := {| mux_reg := mux_reg w; script := consume w;
                trace := trace w ++ [SaveState _ _ _] |}).
  assert (R1 : routed_run (UnifiedLifecycle.ctl d) w (UnifiedLifecycle.ctl d) w1).
  { eapply routed_run_plain; cbn; auto. }
  assert (Hsum : forall (c : Unified.Controller) (w' : World),
            routed_run (UnifiedLifecycle.ctl d) w c w' ->
            cache_coherent c w' /\
            (exists evs, trace w' = trace w ++ evs /\
               (Unified.mux_bus (UnifiedLifecycle.ctl d) = false -> mux_attempts evs = O))).
  { intros c w' (evs & T & W & _ & C & _). split; [exact C|].
    exists evs. split; [exact T|]. intros Hb. now rewrite Hb in W. }
  destruct (UnifiedLifecycle.oled_device d).
  2:{ cbn [UnifiedLifecycle.ctl UnifiedLifecycle.set_ctl].
      destruct (Hsum _ _ R1) as (C & E). split; [exact C|]. split; [exact E|].
      intros _. exact R1. }
  pose proof (switch_routed (UnifiedLifecycle.ctl d) Unified.OLED_CHANNEL w1) as H2.
  pose proof (switch_failed_off_channel (UnifiedLifecycle.ctl d) Unified.OLED_CHANNEL w1)
    as Hoff.
  destruct (Unified.switch_mux_channel (UnifiedLifecycle.ctl d) Unified.OLED_CHANNEL w1)
    as [[ok c2] w2].
  destruct H2 as (R2 & Hreg); [destruct R1 as (? & ? & ? & ? & C & ?); exact C|].
  cbn [UnifiedLifecycle.ctl UnifiedLifecycle.set_ctl].
  assert (R12 : routed_run (UnifiedLifecycle.ctl d) w c2 w2)
    by (eapply routed_run_trans; [exact R1 | exact R2]).
  unfold oled_clear, oled_display. cbn [snd].
  destruct (Hsum _ _ R12) as (C2 & (evs2 & T2 & A2)).
  split; [intros c Hcc; apply (C2 c Hcc)|]. split.
  { exists (evs2 ++ [OledDisplay (outcome w2)]). cbn [trace].
    rewrite T2, <- app_assoc. split; [reflexivity|].
    intros Hb. rewrite mux_attempts_app, (A2 Hb). reflexivity. }
  intros Hcond.
  apply (routed_device_op (UnifiedLifecycle.ctl d) c2 w w2 _ Unified.OLED_CHANNEL R12).
  - intros Hb. apply Hreg; [|exact Hb].
    destruct Hcond as [Hno|[Hno|Hon]]; [congruence | discriminate |].
    destruct ok; [reflexivity|]. rewrite (Hoff eq_refl) in Hon. discriminate.
  - intros reg. cbn. tauto.
  - reflexivity.
  - reflexivity.
Qed.

(** X1.  The unified controller from power-up on, whatever the hardware
    answers.  When the animation configuration was not made, [run] raises
    before its first pass and start-up is all there is.  Otherwise, through
    start-up and any number of passes of the main loop: with a multiplexer
    every servo write is issued with the multiplexer on the servo channel
    and every frame with it on the display channel, without one no channel
    is ever selected, and the cached channel agrees with the register of
    the multiplexer.  The same holds to the end of [shutdown] provided its
    clear found the display channel selected (the controller ends on the
    display channel), there was no display to clear, or there is no
    multiplexer; the cache stays coherent in any case. *)
Theorem unified_lifecycle_routing :
  forall (cfg : Config) (state : PersistedState)
         (arrivals : list (list Unified.EncoderEvent)) (w : World),
    let '(d, w1) := UnifiedLifecycle.boot cfg state w in
    let routed (w' : World) :=
      if Unified.mux_bus (UnifiedLifecycle.ctl d)
      then well_routed (mux_reg w) (new_events w w')
      else mux_attempts (new_events w w') = O in
    match UnifiedLifecycle.run d arrivals w1 with
    | None =>
        UnifiedLifecycle.animation_config d = false /\
        cache_coherent (UnifiedLifecycle.ctl d) w1 /\ routed w1
    | Some (d', w3) =>
        UnifiedLifecycle.animation_config d = true /\
        (let '(c2, w2) :=
           run_ticks (UnifiedLifecycle.oled_device d && UnifiedLifecycle.animation d)
             arrivals (UnifiedLifecycle.ctl d) w1 in
         cache_coherent c2 w2 /\ routed w2) /\
        cache_coherent (UnifiedLifecycle.ctl d') w3 /\
        (Unified.mux_bus (UnifiedLifecycle.ctl d) = false \/
         UnifiedLifecycle.oled_device d = false \/
         Unified.on_channel (UnifiedLifecycle.ctl d') Unified.OLED_CHANNEL = true ->
         routed w3)
    end.
Proof.
  intros cfg state arrivals w.
  unfold UnifiedLifecycle.boot, UnifiedLifecycle.run.
  set (c0 := Unified.seed cfg state false false).
  destruct (UnifiedLifecycle.init_multiplexer c0 w) as [c1 w1] eqn:E1.
  assert (H1 : trace w1 = trace w /\ mux_reg w1 = mux_reg w /\
               Unified.current_mux_channel c1 = None).
  { unfold UnifiedLifecycle.init_multiplexer, bus_open, bus_read_byte, untraced in E1.
    cbn in E1. destruct (outcome w); injection E1 as <- <-; cbn; auto. }
  destruct H1 as (T1 & G1 & N1).
  assert (C1 : cache_coherent c1 w1) by (intros c Hc; congruence).
  pose proof (init_oled_routed (UnifiedLifecycle.mkDeck c1 false false false false) w1 C1)
    as H2.
  destruct (UnifiedLifecycle.init_oled _ w1) as [d2 w2].
  cbn [UnifiedLifecycle.ctl] in H2.
  pose proof (init_servo_routed (UnifiedLifecycle.ctl d2) w2) as H3.
  destruct (UnifiedLifecycle.init_servo (UnifiedLifecycle.ctl d2) w2) as [c3 w3].
  assert (R3 : routed_run c1 w1 c3 w3).
  { eapply routed_run_trans; [exact H2|]. apply H3.
    destruct H2 as (? & ? & ? & ? & C & ?). exact C. }
  assert (B3 : Unified.mux_bus c3 = Unified.mux_bus c1)
    by (destruct R3 as (_ & _ & _ & _ & _ & B); exact B).
  assert (Hroute : forall (c : Unified.Controller) (w' : World),
            routed_run c1 w1 c w' ->
            cache_coherent c w' /\
            (if Unified.mux_bus c3
             then well_routed (mux_reg w) (new_events w w')
             else mux_attempts (new_events w w') = O)).
  { intros c w' (evs & T & W & _ & C & _). split; [exact C|].
    rewrite (new_events_app w w' evs) by (rewrite T, T1; reflexivity).
    rewrite B3, <- G1. exact W. }
  cbv zeta.
  cbn [UnifiedLifecycle.ctl UnifiedLifecycle.set_ctl UnifiedLifecycle.oled_device
       UnifiedLifecycle.animation UnifiedLifecycle.animation_config].
  destruct (UnifiedLifecycle.animation_config d2).
  2:{ split; [reflexivity|]. apply Hroute. exact R3. }
  cbn [UnifiedLifecycle.ctl UnifiedLifecycle.set_ctl UnifiedLifecycle.oled_device
       UnifiedLifecycle.animation UnifiedLifecycle.animation_config].
  pose proof (run_ticks_routed
                (UnifiedLifecycle.oled_device d2 && UnifiedLifecycle.animation d2)
                arrivals c3 w3) as H4.
  destruct (run_ticks _ arrivals c3 w3) as [c4 w4].
  assert (R4 : routed_run c1 w1 c4 w4).
  { eapply routed_run_trans; [exact R3|]. apply H4.
    destruct R3 as (? & ? & ? & ? & C & ?). exact C. }
  assert (B4 : Unified.mux_bus c4 = Unified.mux_bus c3).
  { destruct R4 as (_ & _ & _ & _ & _ & B). congruence. }
  match goal with
  | |- context [UnifiedLifecycle.shutdown ?dd w4] =>
      pose proof (shutdown_routed dd w4) as H5;
      destruct (UnifiedLifecycle.shutdown dd w4) as [d5 w5]
  end.
  cbn [UnifiedLifecycle.ctl UnifiedLifecycle.set_ctl UnifiedLifecycle.oled_device] in H5.
  destruct H5 as (C5 & (evs5 & T5 & A5) & Hcond);
    [destruct R4 as (? & ? & ? & ? & C & ?); exact C|].
  split; [reflexivity|]. split; [apply Hroute; exact R4|].
  split; [exact C5|].
  intros Hc. apply (Hroute (UnifiedLifecycle.ctl d5) w5).
  eapply routed_run_trans; [exact R4|]. apply Hcond.
  rewrite B4. exact Hc.
Qed.

(* ===================================================================== *)
(** * More on the servo of the unified controller *)
(* ===================================================================== *)

Lemma py_ne_refl (a b : Q) : (a == b)%Q -> py_ne a b = false.
Proof.
  intros H. unfold py_ne. apply negb_false_iff. now apply Qeq_bool_iff.
Qed.

Lemma set_encoder_pos_same (self : Unified.Controller) :
  Unified.set_encoder_pos self (Unified.encoder_pos self) = self.
Proof. destruct self. reflexivity. Qed.

(** X2.  Once [update_servo_angle] has run, running it again with a delta
    of 0 changes nothing and touches no hardware.  In particular a servo
    write that was skipped because the channel switch failed, or that the
    driver refused, is not issued again until the position changes. *)
Theorem update_servo_angle_settles :
  forall (self : Unified.Controller) (delta : Z) (w : World) (s lo hi : Q),
    Unified.servo_kit self = true ->
    mode_sens (Unified.config self) (Unified.mode self) = Some s ->
    effective_range (Unified.config self) (Unified.mode self) = Some (lo, hi) ->
    let after := final (Unified.update_servo_angle self delta w) in
    Unified.update_servo_angle after.1 0 after.2 = Done tt after.
Proof.
  intros self delta w s lo hi Hkit Hs Hr.
  destruct (update_servo_angle_spec self delta w s lo hi Hkit Hs Hr)
    as (self1 & w1 & E & F & Hp & Ha).
  rewrite E. cbn [final fst snd].
  destruct F as (Hc & _ & Hk & _ & Hm & _).
  unfold Unified.update_servo_angle. rewrite Hk, Hkit. cbn [negb].
  unfold mode_sens in Hs. unfold lookup_mode at 1. rewrite Hc, Hm.
  destruct (modes (Unified.config self) !! Unified.mode self) as [m|];
    [|discriminate].
  injection Hs as <-.
  unfold Unified.apply_limits. cbn [Unified.set_encoder_pos Unified.mode
    Unified.config Unified.encoder_pos Unified.current_angle].
  rewrite Hc, Hm, (clamp_range_effective _ _ lo hi _ Hr).
  rewrite Z.add_0_r, set_encoder_pos_same.
  rewrite py_ne_refl; [reflexivity|].
  rewrite Ha, Hp. reflexivity.
Qed.

(** X2, witness: the default configuration, a rotation by 3 on a bus whose
    first write fails. *)
Lemma update_servo_angle_settles_witness :
  let self := Unified.seed Unified.default_config (mkPersisted None None) true true in
  let w := mkWorld None [false] [] in
  let after := final (Unified.update_servo_angle self 3 w) in
  Unified.update_servo_angle after.1 0 after.2 = Done tt after.
Proof.
  exact (update_servo_angle_settles
           (Unified.seed Unified.default_config (mkPersisted None None) true true)
           3 (mkWorld None [false] []) (10 # 1) 0 (270 # 1)
           eq_refl eq_refl eq_refl).
Defined.

(** X3.  When the angle has to change and the switch to the servo channel
    fails, [update_servo_angle] writes nothing to the servo and does not
    switch back: its only hardware operation is the failed channel select.
    The new angle and position are recorded all the same, and the cached
    channel is left as it was. *)
Theorem failed_switch_skips_servo_write :
  forall (self : Unified.Controller) (delta : Z) (w : World) (s lo hi : Q),
    Unified.servo_kit self = true ->
    Unified.mux_bus self = true ->
    Unified.on_channel self Unified.SERVO_CHANNEL = false ->
    mode_sens (Unified.config self) (Unified.mode self) = Some s ->
    effective_range (Unified.config self) (Unified.mode self) = Some (lo, hi) ->
    let target := model_angle (center_angle (Unified.config self)) s lo hi
                    (Unified.encoder_pos self + delta) in
    ~ (target == Unified.current_angle self)%Q ->
    outcome w = false ->
    Unified.update_servo_angle self delta w =
      Done tt
        (Unified.set_current_angle
           (Unified.set_encoder_pos self (Unified.encoder_pos self + delta)) target,
         {| mux_reg := mux_reg w;
            script := consume w;
            trace := trace w ++ [MuxWrite Unified.MUX_ADDRESS 2 false] |}).
Proof.
  intros self delta w s lo hi Hkit Hbus Hon Hs Hr target Hne Hout.
  unfold Unified.update_servo_angle. rewrite Hkit. cbn [negb].
  unfold mode_sens in Hs. unfold lookup_mode at 1.
  destruct (modes (Unified.config self) !! Unified.mode self) as [m|];
    [|discriminate].
  injection Hs as <-.
  unfold Unified.apply_limits. cbn [Unified.set_encoder_pos Unified.mode
    Unified.config Unified.encoder_pos Unified.current_angle].
  rewrite (clamp_range_effective _ _ lo hi _ Hr).
  fold (model_angle (center_angle (Unified.config self)) (sensitivity m) lo hi
          (Unified.encoder_pos self + delta)). fold target.
  assert (Hpy : py_ne target (Unified.current_angle self) = true).
  { unfold py_ne. apply negb_true_iff.
    destruct (Qeq_bool target (Unified.current_angle self)) eqn:E; [|reflexivity].
    apply Qeq_bool_iff in E. contradiction. }
  rewrite Hpy. unfold Unified.servo_scoped_write.
  rewrite switch_writes; [|exact Hbus|exact Hon|unfold Unified.SERVO_CHANNEL; lia].
  rewrite Hout. unfold bus_write_byte. cbn [snd]. rewrite Hout. reflexivity.
Qed.

(** X3, witness: a rotation by 3 from the centre with nothing cached and a
    bus that fails. *)
Lemma failed_switch_skips_servo_write_witness :
  let self := Unified.seed Unified.default_config (mkPersisted None None) true true in
  let w := mkWorld None [false] [] in
  Unified.update_servo_angle self 3 w =
    Done tt
      (Unified.set_current_angle
         (Unified.set_encoder_pos self (Unified.encoder_pos self + 3))
         (model_angle (center_angle (Unified.config self)) (10 # 1) 0 (270 # 1)
            (Unified.encoder_pos self + 3)),
       {| mux_reg := mux_reg w;
          script := consume w;
          trace := trace w ++ [MuxWrite Unified.MUX_ADDRESS 2 false] |}).
Proof.
  apply (failed_switch_skips_servo_write
           (Unified.seed Unified.default_config (mkPersisted None None) true true)
           3 (mkWorld None [false] []) (10 # 1) 0 (270 # 1));
    try reflexivity.
  intros H. vm_compute in H. discriminate H.
Defined.

(** X4.  With the servo disabled ([servo_kit] is [None]) rotation and
    click events are taken from the queue without any hardware operation
    and without moving the angle; a rotation does not even move the
    encoder position. *)
Theorem disabled_servo_ignores_events :
  forall (queue : list Unified.EncoderEvent) (self : Unified.Controller) (w : World),
    Unified.servo_kit self = false ->
    Forall (fun e => Unified.ev_type e = "rotation" \/ Unified.ev_type e = "click") queue ->
    exists self',
      Unified.process_encoder_events (Unified.set_encoder_queue self queue) w
        = Done tt (self', w) /\
      Unified.current_angle self' = Unified.current_angle self /\
      Unified.encoder_queue self' = [] /\
      (Forall (fun e => Unified.ev_type e = "rotation") queue ->
       self' = Unified.set_encoder_queue self []).
Proof.
  intros queue self w Hkit Hq. unfold Unified.process_encoder_events.
  cbn [Unified.set_encoder_queue Unified.encoder_queue].
  assert (Hgen : forall q self0, Unified.servo_kit self0 = false ->
            Forall (fun e => Unified.ev_type e = "rotation" \/
                             Unified.ev_type e = "click") q ->
            exists self',
              Unified.drain q (Unified.set_encoder_queue self0 q) w = Done tt (self', w) /\
              Unified.current_angle self' = Unified.current_angle self0 /\
              Unified.encoder_queue self' = [] /\
              (Forall (fun e => Unified.ev_type e = "rotation") q ->
               self' = Unified.set_encoder_queue self0 [])).
  { clear. induction q as [|ev rest IH]; intros self0 Hkit Hq.
    - eexists. cbn. repeat split; reflexivity.
    - inversion Hq as [|e l Hev Hrest]; subst.
      cbn [Unified.drain]. unfold Unified.handle_event, Unified.update_servo_angle.
      cbn [Unified.set_encoder_queue Unified.set_encoder_pos Unified.servo_kit].
      rewrite Hkit. cbn [negb].
      destruct Hev as [Hev|Hev]; rewrite Hev.
      + change (String.eqb "rotation" "rotation") with true. cbn iota.
        destruct (IH self0 Hkit Hrest) as (self' & E & Ha & Hqe & Hrot).
        cbn [Unified.set_encoder_queue] in E.
        exists self'. split; [exact E|]. repeat split; auto.
        intros Hall. apply Hrot. now inversion Hall.
      + change (String.eqb "click" "rotation") with false.
        change (String.eqb "click" "click") with true. cbn iota.
        destruct (IH (Unified.set_encoder_pos self0 0)) as (self' & E & Ha & Hqe & _);
          [exact Hkit | exact Hrest |].
        cbn [Unified.set_encoder_queue Unified.set_encoder_pos] in E.
        exists self'. split; [exact E|]. repeat split; auto.
        intros Hall. inversion Hall as [|? ? Hty _]; subst. congruence. }
  exact (Hgen queue self Hkit Hq).
Qed.

(** X4, witness: two rotations and a click on a controller whose servo did
    not initialise. *)
Lemma disabled_servo_ignores_events_witness :
  let self := Unified.seed Unified.default_config (mkPersisted None None) true false in
  let queue := [Unified.rotation 1; Unified.click; Unified.rotation (-1)] in
  let w := mkWorld None [false; false] [] in
  exists self',
    Unified.process_encoder_events (Unified.set_encoder_queue self queue) w
      = Done tt (self', w) /\
    Unified.current_angle self' = Unified.current_angle self /\
    Unified.encoder_queue self' = [] /\
    (Forall (fun e => Unified.ev_type e = "rotation") queue ->
     self' = Unified.set_encoder_queue self []).
Proof.
  apply (disabled_servo_ignores_events
           [Unified.rotation 1; Unified.click; Unified.rotation (-1)]
           (Unified.seed Unified.default_config (mkPersisted None None) true false)
           (mkWorld None [false; false] [])).
  - reflexivity.
  - constructor; [left; reflexivity|].
    constructor; [right; reflexivity|].
    constructor; [left; reflexivity | constructor].
Defined.

(** The events of a switch: none, a failed select, or a select and its
    pause. *)
Lemma switch_events (self : Unified.Controller) (channel : Z) (w : World) :
  let '(ok, self', w') := Unified.switch_mux_channel self channel w in
  exists evs,
    trace w' = trace w ++ evs /\
    servo_writes evs = O /\ frames evs = O /\ (mux_attempts evs <= 1)%nat.
Proof.
  unfold Unified.switch_mux_channel.
  destruct (negb (Unified.mux_bus self)).
  { exists []. rewrite app_nil_r. cbn. auto. }
  destruct (Unified.on_channel self channel).
  { exists []. rewrite app_nil_r. cbn. auto. }
  destruct (shl1 channel) as [mask|].
  2:{ exists []. rewrite app_nil_r. cbn. auto. }
  unfold bus_write_byte. cbn. destruct (outcome w); cbn.
  - eexists. rewrite <- app_assoc. cbn. split; [reflexivity|]. cbn. auto.
  - eexists. split; [reflexivity|]. cbn. auto.
Qed.

Lemma servo_writes_app (a b : list io_event) :
  servo_writes (a ++ b) = (servo_writes a + servo_writes b)%nat.
Proof. unfold servo_writes. now rewrite filter_app, length_app. Qed.

Lemma frames_app (a b : list io_event) :
  frames (a ++ b) = (frames a + frames b)%nat.
Proof. unfold frames. now rewrite filter_app, length_app. Qed.

(** The switch back to the display channel from the servo channel. *)
Lemma release_from_servo_channel (self : Unified.Controller) (w : World) :
  Unified.mux_bus self = true ->
  Unified.current_mux_channel self = Some Unified.SERVO_CHANNEL ->
  let '(ok, self', w') := Unified.switch_mux_channel self Unified.OLED_CHANNEL w in
  trace w' = trace w ++
    MuxWrite Unified.MUX_ADDRESS 1 ok :: (if ok then [Sleep (2 # 1000)] else []) /\
  Unified.current_mux_channel self' =
    Some (if ok then Unified.OLED_CHANNEL else Unified.SERVO_CHANNEL) /\
  Unified.servo_kit self' = Unified.servo_kit self.
Proof.
  intros Hbus Hcur.
  rewrite (switch_writes self Unified.OLED_CHANNEL w Hbus);
    [| unfold Unified.on_channel; now rewrite Hcur
     | unfold Unified.OLED_CHANNEL; lia].
  unfold bus_write_byte. destruct (outcome w); cbn.
  - rewrite <- app_assoc. auto.
  - auto.
Qed.

(** What the [try] block of [init_servo] leaves behind. *)
Lemma setup_servo_shape (self : Unified.Controller) (w : World) :
  let '(self', w') := UnifiedLifecycle.setup_servo self w in
  Unified.current_mux_channel self' = Unified.current_mux_channel self /\
  Unified.mux_bus self' = Unified.mux_bus self /\
  ((Unified.servo_kit self' = true /\
    trace w' = trace w ++
      [ServoWrite (cfg_servo_channel (Unified.config self))
         (Unified.current_angle self) true]) \/
   (Unified.servo_kit self' = false /\
    (trace w' = trace w \/
     trace w' = trace w ++
       [ServoWrite (cfg_servo_channel (Unified.config self))
          (Unified.current_angle self) false]))).
Proof.
  unfold UnifiedLifecycle.setup_servo, servokit_init, servo_configure, servo_write,
    untraced.
  destruct (outcome w); cbn; [|auto 10].
  match goal with |- context [outcome ?x] => destruct (outcome x) end; cbn; [|auto 10].
  match goal with |- context [outcome ?x] => destruct (outcome x) end; cbn; auto 10.
Qed.

(** X5.  [init_servo] with a multiplexer and the servo not yet enabled:
    the servo is left enabled only when the restored angle has been written
    to it with success, and at most one servo write is issued.  When the
    switch to the servo channel fails nothing else is done.  When it
    succeeds, the function ends with an attempt to select the display
    channel, whether or not the servo came up, and the cached channel says
    which of the two channels that attempt left selected. *)
Theorem init_servo_positions_or_disables :
  forall (self : Unified.Controller) (w : World),
    Unified.mux_bus self = true ->
    Unified.servo_kit self = false ->
    let entered := (Unified.switch_mux_channel self Unified.SERVO_CHANNEL w).1.1 in
    let '(self', w') := UnifiedLifecycle.init_servo self w in
    (Unified.servo_kit self' = true ->
     In (ServoWrite (cfg_servo_channel (Unified.config self))
           (Unified.current_angle self) true) (new_events w w')) /\
    (servo_writes (new_events w w') <= 1)%nat /\
    (entered = false -> self' = self /\ servo_writes (new_events w w') = O) /\
    (entered = true ->
     exists rel_ok : bool,
       released_to_idle Unified.MUX_ADDRESS rel_ok (new_events w w') /\
       Unified.current_mux_channel self' =
         Some (if rel_ok then Unified.OLED_CHANNEL else Unified.SERVO_CHANNEL)).
Proof.
  intros self w Hbus Hkit. cbv zeta. unfold UnifiedLifecycle.init_servo.
  pose proof (switch_events self Unified.SERVO_CHANNEL w) as Hev.
  pose proof (switch_trace self Unified.SERVO_CHANNEL w) as Htr.
  pose proof (switch_frame self Unified.SERVO_CHANNEL w) as Hfr.
  destruct (Unified.switch_mux_channel self Unified.SERVO_CHANNEL w)
    as [[ok1 self1] w1].
  destruct Hev as (e1 & T1 & S1 & _ & _).
  destruct Htr as (e1' & _ & _ & _ & Hon1 & _).
  cbn [fst snd].
  destruct ok1.
  2:{ rewrite (new_events_app w w1 e1 T1), S1.
      destruct Hfr as [->|[Hk _]]; [|discriminate].
      repeat split; auto; try discriminate. congruence. }
  specialize (Hon1 eq_refl Hbus).
  assert (Hcur1 : Unified.current_mux_channel self1 = Some Unified.SERVO_CHANNEL).
  { unfold Unified.on_channel in Hon1.
    destruct (Unified.current_mux_channel self1) as [c|]; [|discriminate].
    apply Z.eqb_eq in Hon1. now subst. }
  assert (Hsame : Unified.mux_bus self1 = true /\
                  Unified.config self1 = Unified.config self /\
                  Unified.current_angle self1 = Unified.current_angle self).
  { destruct Hfr as [->|[_ ->]]; auto. }
  destruct Hsame as (Hbus1 & Hcfg1 & Hang1).
  pose proof (setup_servo_shape self1 w1) as Hs.
  destruct (UnifiedLifecycle.setup_servo self1 w1) as [self2 w2].
  destruct Hs as (Hcur2 & Hbus2 & Hkit2).
  rewrite Hcfg1, Hang1 in Hkit2.
  pose proof (release_from_servo_channel self2 w2) as Hrel.
  destruct (Unified.switch_mux_channel self2 Unified.OLED_CHANNEL w2)
    as [[ok3 self3] w3].
  destruct Hrel as (T3 & Hcur3 & Hkit3); [congruence | congruence |].
  set (sw := ServoWrite (cfg_servo_channel (Unified.config self))
               (Unified.current_angle self)) in *.
  set (rel := MuxWrite Unified.MUX_ADDRESS 1 ok3 ::
              (if ok3 then [Sleep (2 # 1000)] else [])) in *.
  assert (Hrel0 : servo_writes rel = O /\
                  exists after, rel = MuxWrite Unified.MUX_ADDRESS 1 ok3 :: after /\
                                mux_attempts after = O).
  { unfold rel. destruct ok3; cbn; eauto. }
  destruct Hrel0 as (Srel & after & Erel & Aafter).
  assert (Hmid : exists mid, trace w2 = trace w1 ++ mid /\
                  (servo_writes mid <= 1)%nat /\
                  (Unified.servo_kit self2 = true -> mid = [sw true])).
  { destruct Hkit2 as [[Hk Ht]|[Hk [Ht|Ht]]].
    - exists [sw true]. cbn. auto.
    - exists []. rewrite app_nil_r. cbn. split; [exact Ht|]. split; [lia|congruence].
    - exists [sw false]. cbn. split; [exact Ht|]. split; [lia|congruence]. }
  destruct Hmid as (mid & T2 & Smid & Hmid).
  assert (Hnew : new_events w w3 = e1 ++ mid ++ rel).
  { apply new_events_app. rewrite T3, T2, T1. now rewrite <- !app_assoc. }
  rewrite Hnew.
  split; [|split; [|split]].
  - intros Hk3. rewrite Hkit3 in Hk3. rewrite (Hmid Hk3).
    apply in_or_app. right. left. reflexivity.
  - rewrite !servo_writes_app, S1, Srel. lia.
  - discriminate.
  - intros _. exists ok3. split; [|exact Hcur3].
    exists (e1 ++ mid), after. rewrite Erel, <- app_assoc. auto.
Qed.

(** X5, witness: the kit comes up and the release succeeds. *)
Lemma init_servo_positions_or_disables_witness :
  let self := Unified.seed Unified.default_config (mkPersisted (Some (175 # 1)) None)
                true false in
  let w := mkWorld None [] [] in
  let entered := (Unified.switch_mux_channel self Unified.SERVO_CHANNEL w).1.1 in
  let '(self', w') := UnifiedLifecycle.init_servo self w in
  (Unified.servo_kit self' = true ->
   In (ServoWrite (cfg_servo_channel (Unified.config self))
         (Unified.current_angle self) true) (new_events w w')) /\
  (servo_writes (new_events w w') <= 1)%nat /\
  (entered = false -> self' = self /\ servo_writes (new_events w w') = O) /\
  (entered = true ->
   exists rel_ok : bool,
     released_to_idle Unified.MUX_ADDRESS rel_ok (new_events w w') /\
     Unified.current_mux_channel self' =
       Some (if rel_ok then Unified.OLED_CHANNEL else Unified.SERVO_CHANNEL)).
Proof.
  exact (init_servo_positions_or_disables
           (Unified.seed Unified.default_config (mkPersisted (Some (175 # 1)) None)
              true false)
           (mkWorld None [] []) eq_refl eq_refl).
Defined.

(* ===================================================================== *)
(** * The servo wrappers *)
(* ===================================================================== *)

(** X6.  [ServoKitWithMux.set_angle] issues exactly one servo write on
    every call and returns what that write did.  It does so even when the
    select of its channel failed: the failure is passed over and the angle
    goes to whatever channel the multiplexer is on.  At most two channel
    selects are issued. *)
Theorem fixed_set_angle_always_writes :
  forall (fs : FixedServoInit.ServoKitWithMux) (angle : Q) (w : World),
    let '(ok, w') := FixedServoInit.set_angle fs angle w in
    servo_writes (new_events w w') = 1%nat /\
    In (ServoWrite (FixedServoInit.servo_channel fs) angle ok) (new_events w w') /\
    (mux_attempts (new_events w w') <= 2)%nat /\
    (0 <= FixedServoInit.mux_channel fs -> outcome w = false ->
     exists rest,
       new_events w w' =
         MuxWrite (FixedServoInit.mux_address fs)
           (Z.shiftl 1 (FixedServoInit.mux_channel fs)) false
         :: ServoWrite (FixedServoInit.servo_channel fs) angle ok :: rest).
Proof.
  intros fs angle w.
  unfold FixedServoInit.set_angle, FixedServoInit.return_to_oled.
  set (w1 := FixedServoInit.ensure_mux_channel fs w).
  assert (H1 : exists evs1, trace w1 = trace w ++ evs1 /\
                 servo_writes evs1 = O /\ (mux_attempts evs1 <= 1)%nat /\
                 (0 <= FixedServoInit.mux_channel fs -> outcome w = false ->
                  evs1 = [MuxWrite (FixedServoInit.mux_address fs)
                            (Z.shiftl 1 (FixedServoInit.mux_channel fs)) false])).
  { unfold w1, FixedServoInit.ensure_mux_channel, shl1.
    destruct (Z.ltb_spec (FixedServoInit.mux_channel fs) 0) as [Hneg|Hpos].
    - exists []. rewrite app_nil_r. cbn. repeat split; auto. lia.
    - unfold bus_write_byte. destruct (outcome w) eqn:Hout; cbn.
      + eexists. rewrite <- app_assoc. split; [reflexivity|]. cbn.
        repeat split; auto. discriminate.
      + eexists. split; [reflexivity|]. cbn. repeat split; auto. }
  destruct H1 as (evs1 & T1 & S1 & A1 & Hfail). clearbody w1.
  unfold servo_write, bus_write_byte. cbn [fst snd].
  set (dev := outcome w1).
  set (w3 := if dev then _ else _).
  assert (H3 : exists tail, trace w3 = trace w ++ evs1 ++
                 ServoWrite (FixedServoInit.servo_channel fs) angle dev :: tail /\
                 servo_writes tail = O /\ mux_attempts tail = O).
  { unfold w3. destruct dev; cbn; rewrite T1, <- ?app_assoc.
    - exists [Sleep (5 # 1000)]. cbn. auto.
    - exists []. cbn. auto. }
  destruct H3 as (tail & T3 & S3 & A3). clearbody w3.
  cbn [trace].
  rewrite (new_events_app w _
             (evs1 ++ ServoWrite (FixedServoInit.servo_channel fs) angle dev :: tail ++
              [MuxWrite (FixedServoInit.mux_address fs) (Z.shiftl 1 0) (outcome w3)]))
    by (cbn; rewrite T3; rewrite <- !app_assoc; reflexivity).
  split; [|split; [|split]].
  - rewrite servo_writes_app, S1. cbn. fold (servo_writes (tail ++ [MuxWrite
      (FixedServoInit.mux_address fs) (Z.shiftl 1 0) (outcome w3)])).
    rewrite servo_writes_app, S3. reflexivity.
  - apply in_or_app. right. left. reflexivity.
  - rewrite mux_attempts_app. cbn. fold (mux_attempts (tail ++ [MuxWrite
      (FixedServoInit.mux_address fs) (Z.shiftl 1 0) (outcome w3)])).
    rewrite mux_attempts_app, A3. cbn. lia.
  - intros Hch Hout. rewrite (Hfail Hch Hout). cbn. eexists. reflexivity.
Qed.

(** X6, witness: the select fails, the servo write and the release go
    through. *)
Lemma fixed_set_angle_always_writes_witness :
  let fs := FixedServoInit.mkServoKitWithMux 1 0 0x70 in
  let w := mkWorld (Some 1) [false; true; true] [] in
  FixedServoInit.set_angle fs (90 # 1) w =
    (true,
     mkWorld (Some 1) []
       [MuxWrite 0x70 2 false; ServoWrite 0 (90 # 1) true; Sleep (5 # 1000);
        MuxWrite 0x70 1 true]) /\
  exists rest,
    new_events w (FixedServoInit.set_angle fs (90 # 1) w).2 =
      MuxWrite 0x70 2 false :: ServoWrite 0 (90 # 1) true :: rest.
Proof.
  split; [reflexivity|].
  pose proof (fixed_set_angle_always_writes
                (FixedServoInit.mkServoKitWithMux 1 0 0x70) (90 # 1)
                (mkWorld (Some 1) [false; true; true] [])) as H.
  cbv beta iota zeta in H.
  change (FixedServoInit.set_angle (FixedServoInit.mkServoKitWithMux 1 0 112) (90 # 1)
            (mkWorld (Some 1) [false; true; true] []))
    with (true, mkWorld (Some 1) []
                  [MuxWrite 0x70 2 false; ServoWrite 0 (90 # 1) true; Sleep (5 # 1000);
                   MuxWrite 0x70 1 true]) in H.
  cbv beta iota in H.
  destruct H as (_ & _ & _ & H).
  destruct (H ltac:(cbn; lia) eq_refl) as (rest & Hrest).
  exists rest. exact Hrest.
Defined.

(** X7.  [MuxAwareServoKit.set_servo_angle]: without a kit it returns
    [False] and touches nothing.  With a kit, a call that returns has
    issued exactly one servo write and returns what that write did; a call
    that raises has issued none: it raises only when a bus is held and the
    select of the channel failed, so no angle is written on a channel that
    was not selected. *)
Theorem mux_aware_set_angle_needs_channel :
  forall (ms : MuxAwareServo.MuxAwareServoKit) (servo_num : Z) (angle : Q) (w : World),
    match MuxAwareServo.set_servo_angle ms servo_num angle w with
    | Done b w' =>
        if MuxAwareServo.kit ms
        then servo_writes (new_events w w') = 1%nat /\
             In (ServoWrite servo_num angle b) (new_events w w')
        else b = false /\ w' = w
    | Raised _ w' =>
        servo_writes (new_events w w') = O /\
        MuxAwareServo.kit ms = true /\
        MuxAwareServo.mux_bus ms = true /\
        (0 <= MuxAwareServo.mux_channel ms -> outcome w = false)
    end.
Proof.
  intros ms servo_num angle w.
  unfold MuxAwareServo.set_servo_angle, MuxAwareServo.mux_channel_selected.
  destruct (MuxAwareServo.kit ms); cbn [negb]; [|auto].
  assert (Hrel : forall w0 evs0, trace w0 = trace w ++ evs0 ->
            new_events w (MuxAwareServo.return_to_oled ms w0) =
              evs0 ++ MuxWrite (MuxAwareServo.mux_address ms) 1 (outcome w0)
                   :: (if outcome w0 then [Sleep (2 # 1000)] else [])).
  { intros w0 evs0 Ht0. apply new_events_app.
    unfold MuxAwareServo.return_to_oled, bus_write_byte.
    destruct (outcome w0); cbn; rewrite Ht0, <- ?app_assoc; reflexivity. }
  destruct (MuxAwareServo.mux_bus ms).
  2:{ unfold servo_write. cbn.
      rewrite (new_events_app w _ [ServoWrite servo_num angle (outcome w)])
        by reflexivity.
      split; [reflexivity | now left]. }
  unfold shl1.
  destruct (Z.ltb_spec (MuxAwareServo.mux_channel ms) 0) as [Hneg|Hpos].
  { rewrite (Hrel w []) by now rewrite app_nil_r.
    cbn. repeat split; auto; try lia. destruct (outcome w); reflexivity. }
  unfold bus_write_byte at 1. cbn [fst snd].
  destruct (outcome w) eqn:Hout.
  - unfold servo_write, sleep. cbn [fst snd trace mux_reg script].
    erewrite Hrel by (cbn; rewrite <- !app_assoc; reflexivity).
    split.
    + rewrite servo_writes_app. cbn.
      match goal with |- context [if ?c then _ else _] => destruct c end; reflexivity.
    + apply in_or_app. left. cbn. auto.
  - erewrite Hrel by (cbn; reflexivity).
    repeat split; auto.
    rewrite servo_writes_app. cbn.
    match goal with |- context [if ?c then _ else _] => destruct c end; reflexivity.
Qed.

(** One attempt of [initialize]. *)
Lemma mux_aware_attempt_spec (self : MuxAwareServo.MuxAwareServoKit) (w : World) :
  let '(ok, self', w') := MuxAwareLifecycle.attempt self w in
  exists evs,
    trace w' = trace w ++ evs /\
    (mux_attempts evs <= 1)%nat /\
    servo_writes evs = O /\
    MuxAwareServo.mux_channel self' = MuxAwareServo.mux_channel self /\
    MuxAwareServo.mux_address self' = MuxAwareServo.mux_address self /\
    (ok = true ->
     MuxAwareServo.kit self' = true /\ MuxAwareServo.mux_bus self' = true /\
     mux_reg w' = Some (Z.shiftl 1 (MuxAwareServo.mux_channel self))) /\
    (ok = false -> MuxAwareServo.kit self' = MuxAwareServo.kit self).
Proof.
  unfold MuxAwareLifecycle.attempt, bus_open, bus_read_byte, servokit_init, untraced.
  destruct (outcome w); cbn [fst snd].
  2:{ exists []. cbn. rewrite app_nil_r. repeat split; auto; discriminate. }
  unfold shl1. cbn [MuxAwareLifecycle.set_mux_bus MuxAwareServo.mux_channel
                    MuxAwareServo.mux_address].
  destruct (MuxAwareServo.mux_channel self <? 0).
  { exists []. cbn. rewrite app_nil_r. repeat split; auto; discriminate. }
  unfold bus_write_byte. cbn [fst snd].
  match goal with |- context [outcome ?x] => destruct (outcome x) end; cbn [fst snd].
  2:{ eexists. split; [reflexivity|]. cbn. repeat split; auto; discriminate. }
  match goal with |- context [outcome ?x] => destruct (outcome x) end; cbn [fst snd].
  2:{ eexists. cbn. rewrite <- app_assoc. split; [reflexivity|]. cbn.
      repeat split; auto; discriminate. }
  match goal with |- context [outcome ?x] => destruct (outcome x) end; cbn [fst snd].
  - eexists. cbn. rewrite <- app_assoc. split; [reflexivity|]. cbn.
    repeat split; auto; discriminate.
  - eexists. cbn. rewrite <- app_assoc. split; [reflexivity|]. cbn.
    repeat split; auto; discriminate.
Qed.

Lemma mux_aware_attempts_spec (n : nat) :
  forall (self : MuxAwareServo.MuxAwareServoKit) (w : World),
    let '(ok, self', w') := MuxAwareLifecycle.attempts n self w in
    exists evs,
      trace w' = trace w ++ evs /\
      (mux_attempts evs <= n)%nat /\
      servo_writes evs = O /\
      MuxAwareServo.mux_channel self' = MuxAwareServo.mux_channel self /\
      MuxAwareServo.mux_address self' = MuxAwareServo.mux_address self /\
      (ok = true ->
       MuxAwareServo.kit self' = true /\ MuxAwareServo.mux_bus self' = true /\
       mux_reg w' = Some (Z.shiftl 1 (MuxAwareServo.mux_channel self))) /\
      (ok = false ->
       MuxAwareServo.kit self' = MuxAwareServo.kit self /\
       (n <> O -> MuxAwareServo.mux_bus self' = false)).
Proof.
  induction n as [|k IH]; intros self w.
  - exists []. cbn. rewrite app_nil_r. repeat split; auto; try discriminate.
    congruence.
  - cbn [MuxAwareLifecycle.attempts].
    pose proof (mux_aware_attempt_spec self w) as H1.
    destruct (MuxAwareLifecycle.attempt self w) as [[ok1 self1] w1].
    destruct H1 as (e1 & T1 & A1 & S1 & Hch1 & Had1 & Hok1 & Hko1).
    destruct ok1.
    + exists e1. repeat split; auto; try lia; try apply Hok1; auto; discriminate.
    + set (self2 := if MuxAwareServo.mux_bus self1
                    then MuxAwareLifecycle.set_mux_bus self1 false else self1).
      assert (H2 : MuxAwareServo.mux_bus self2 = false /\
                   MuxAwareServo.kit self2 = MuxAwareServo.kit self /\
                   MuxAwareServo.mux_channel self2 = MuxAwareServo.mux_channel self /\
                   MuxAwareServo.mux_address self2 = MuxAwareServo.mux_address self).
      { unfold self2. destruct (MuxAwareServo.mux_bus self1) eqn:Hb; cbn;
          rewrite ?Hko1; auto. }
      destruct H2 as (Hb2 & Hk2 & Hc2 & Ha2). clearbody self2.
      destruct k as [|k'].
      * exists e1. repeat split; auto; try lia; discriminate.
      * specialize (IH self2 (sleep (1 # 2) w1)).
        destruct (MuxAwareLifecycle.attempts (S k') self2 (sleep (1 # 2) w1))
          as [[ok' self'] w'].
        destruct IH as (e2 & T2 & A2 & S2 & Hch & Had & Hok & Hko).
        exists (e1 ++ [Sleep (1 # 2)] ++ e2).
        split; [cbn in T2; rewrite T2, T1; now rewrite <- !app_assoc|].
        rewrite !mux_attempts_app, !servo_writes_app, S1, S2. cbn.
        split; [lia|]. split; [reflexivity|].
        split; [congruence|]. split; [congruence|].
        split.
        { intros Hy. destruct (Hok Hy) as (? & ? & Hreg). rewrite Hc2 in Hreg. auto. }
        { intros Hn. destruct (Hko Hn) as (Hk & Hb). split; [congruence|].
          intros _. apply Hb. discriminate. }
Qed.

(** X8.  [MuxAwareServoKit.initialize(retries)] selects the channel at most
    [retries] times and never writes to a servo.  When it returns [True]
    the kit and the bus are held and the multiplexer is left on the
    servo's channel.  When it returns [False] the kit is what it was, and
    no bus is held if any attempt was made; with no attempt to make
    ([retries] not positive) nothing is touched. *)
Theorem mux_aware_initialize_outcome :
  forall (self : MuxAwareServo.MuxAwareServoKit) (retries : Z) (w : World),
    let '(ok, self', w') := MuxAwareLifecycle.initialize self retries w in
    (mux_attempts (new_events w w') <= Z.to_nat retries)%nat /\
    servo_writes (new_events w w') = O /\
    (if ok
     then MuxAwareServo.kit self' = true /\ MuxAwareServo.mux_bus self' = true /\
          mux_reg w' = Some (Z.shiftl 1 (MuxAwareServo.mux_channel self))
     else MuxAwareServo.kit self' = MuxAwareServo.kit self /\
          (if 0 <? retries
           then MuxAwareServo.mux_bus self' = false
           else self' = self /\ w' = w)).
Proof.
  intros self retries w. unfold MuxAwareLifecycle.initialize.
  pose proof (mux_aware_attempts_spec (Z.to_nat retries) self w) as H.
  destruct (Z.ltb_spec 0 retries) as [Hpos|Hneg].
  - destruct (MuxAwareLifecycle.attempts (Z.to_nat retries) self w)
      as [[ok self'] w'].
    destruct H as (evs & T & A & S & _ & _ & Hok & Hko).
    rewrite (new_events_app w w' evs T).
    split; [exact A|]. split; [exact S|].
    destruct ok; [now apply Hok|].
    destruct (Hko eq_refl) as (Hk & Hb). split; [exact Hk|]. apply Hb. lia.
  - replace (Z.to_nat retries) with O in * by lia.
    cbn [MuxAwareLifecycle.attempts] in *.
    rewrite new_events_app with (evs := []) by now rewrite app_nil_r.
    cbn. auto.
Qed.

(** X9.  [MuxAwareServoKit.cleanup] always leaves the wrapper without a
    bus, after at most one channel select; a second [cleanup] does
    nothing.  From then on the wrapper's scoped operations run their body
    bare: the servo is written without any channel being selected before
    or after. *)
Theorem mux_aware_cleanup_drops_bus :
  forall (self : MuxAwareServo.MuxAwareServoKit) (servo_num : Z) (angle : Q)
         (w later : World),
    let '(self', w') := MuxAwareLifecycle.cleanup self w in
    MuxAwareServo.mux_bus self' = false /\
    MuxAwareServo.kit self' = MuxAwareServo.kit self /\
    (mux_attempts (new_events w w') <= 1)%nat /\
    MuxAwareLifecycle.cleanup self' later = (self', later) /\
    MuxAwareServo.set_servo_angle self' servo_num angle later =
      if MuxAwareServo.kit self
      then Done (outcome later)
             {| mux_reg := mux_reg later; script := consume later;
                trace := trace later ++ [ServoWrite servo_num angle (outcome later)] |}
      else Done false later.
Proof.
  intros self servo_num angle w later. unfold MuxAwareLifecycle.cleanup.
  destruct (MuxAwareServo.mux_bus self) eqn:Hb.
  - cbn [MuxAwareLifecycle.set_mux_bus MuxAwareServo.mux_bus MuxAwareServo.kit].
    unfold bus_write_byte. cbn [snd].
    rewrite (new_events_app w _ [MuxWrite (MuxAwareServo.mux_address self)
                                   (Z.shiftl 1 0) (outcome w)]) by reflexivity.
    repeat split; auto.
    unfold MuxAwareServo.set_servo_angle, MuxAwareServo.mux_channel_selected.
    cbn. destruct (MuxAwareServo.kit self); reflexivity.
  - rewrite Hb. rewrite new_events_app with (evs := []) by now rewrite app_nil_r.
    repeat split; auto.
    unfold MuxAwareServo.set_servo_angle, MuxAwareServo.mux_channel_selected.
    rewrite Hb. destruct (MuxAwareServo.kit self); reflexivity.
Qed.

(* ===================================================================== *)
(** * The display wrappers *)
(* ===================================================================== *)

(** [_ensure_channel] changes nothing but [last_ensure_time], selects at
    most three times and pushes no frame. *)
Lemma ensure_channel_shape (self : ResilientOLED.ResilientMuxOLED) (force : bool)
    (t : Q) (w : World) :
  let '(ok, self', w') := ResilientOLED._ensure_channel self force t w in
  exists evs,
    trace w' = trace w ++ evs /\
    (mux_attempts evs <= 3)%nat /\
    frames evs = O /\
    (self' = self \/ self' = ResilientOLED.set_last_ensure_time self t).
Proof.
  unfold ResilientOLED._ensure_channel.
  destruct (negb (ResilientOLED.mux_available self)).
  { exists []. rewrite app_nil_r. cbn. repeat split; auto; lia. }
  destruct (negb force && _).
  { exists []. rewrite app_nil_r. cbn. repeat split; auto; lia. }
  unfold ResilientOLED.retries.
  assert (Hgen : forall n w0,
            let '(ok, self', w') := ResilientOLED.ensure_attempts n self t w0 in
            exists evs, trace w' = trace w0 ++ evs /\
              (mux_attempts evs <= n)%nat /\ frames evs = O /\
              (self' = self \/ self' = ResilientOLED.set_last_ensure_time self t)).
  { induction n as [|k IH]; intros w0.
    - exists []. cbn. rewrite app_nil_r. auto.
    - cbn [ResilientOLED.ensure_attempts].
      set (r := match shl1 (ResilientOLED.mux_channel self) with
                | Some mask => bus_write_byte (ResilientOLED.mux_addr self) mask w0
                | None => (false, w0)
                end).
      assert (Hr : exists evs1, trace r.2 = trace w0 ++ evs1 /\
                     (mux_attempts evs1 <= 1)%nat /\ frames evs1 = O).
      { unfold r. destruct (shl1 _).
        - eexists. split; [reflexivity|]. cbn. split; [lia | reflexivity].
        - exists []. cbn. rewrite app_nil_r. repeat split; auto; lia. }
      destruct r as [ok w1]. cbn [snd] in Hr. destruct Hr as (evs1 & Ht1 & Hb1 & Hf1).
      destruct ok.
      + exists (evs1 ++ [Sleep (2 # 1000)]). cbn. rewrite Ht1, app_assoc.
        split; [reflexivity|]. rewrite mux_attempts_app, frames_app, Hf1. cbn.
        repeat split; auto; lia.
      + destruct k as [|k'].
        * exists evs1. repeat split; auto; lia.
        * specialize (IH (sleep (1 # 100) w1)).
          destruct (ResilientOLED.ensure_attempts (S k') self t (sleep (1 # 100) w1))
            as [[ok' self'] w'].
          destruct IH as (evs2 & Ht2 & Hb2 & Hf2 & Hs2).
          exists (evs1 ++ [Sleep (1 # 100)] ++ evs2).
          split; [cbn in Ht2; rewrite Ht2, Ht1; now rewrite <- !app_assoc|].
          rewrite !mux_attempts_app, !frames_app, Hf1, Hf2. cbn.
          repeat split; auto; lia. }
  apply Hgen.
Qed.

(** X10.  The recovery interval of [ResilientMuxOLED._ensure_channel]:
    once a select has succeeded at time [t0], a call that is not forced and
    comes less than [recovery_interval] later returns [True] without
    touching the bus or the wrapper, however the multiplexer may have been
    switched in between. *)
Theorem ensure_channel_interval :
  forall (self : ResilientOLED.ResilientMuxOLED) (force : bool) (t0 t1 : Q)
         (w later : World),
    ResilientOLED.mux_available self = true ->
    0 <= ResilientOLED.mux_channel self ->
    (force = true \/
     (ResilientOLED.recovery_interval self <= t0 - ResilientOLED.last_ensure_time self)%Q) ->
    outcome w = true ->
    (t1 - t0 < ResilientOLED.recovery_interval self)%Q ->
    let '(ok, self', w') := ResilientOLED._ensure_channel self force t0 w in
    ok = true /\
    ResilientOLED.last_ensure_time self' = t0 /\
    mux_reg w' = Some (Z.shiftl 1 (ResilientOLED.mux_channel self)) /\
    ResilientOLED._ensure_channel self' false t1 later = (true, self', later).
Proof.
  intros self force t0 t1 w later Hav Hch Hgate Hout Hnear.
  unfold ResilientOLED._ensure_channel at 1. rewrite Hav. cbn [negb].
  assert (Hg : negb force &&
               (if Qlt_le_dec (t0 - ResilientOLED.last_ensure_time self)
                     (ResilientOLED.recovery_interval self)
                then true else false) = false).
  { destruct Hgate as [->|Hle]; [reflexivity|].
    destruct (Qlt_le_dec _ _) as [Hlt|_]; [|apply andb_false_r].
    exfalso. apply (Qlt_not_le _ _ Hlt Hle). }
  rewrite Hg. unfold ResilientOLED.retries. cbn [ResilientOLED.ensure_attempts].
  unfold shl1. destruct (Z.ltb_spec (ResilientOLED.mux_channel self) 0); [lia|].
  unfold bus_write_byte. rewrite Hout. cbn.
  repeat split.
  unfold ResilientOLED._ensure_channel. cbn. rewrite Hav. cbn.
  destruct (Qlt_le_dec (t1 - t0) (ResilientOLED.recovery_interval self)) as [_|Hle];
    [reflexivity|].
  exfalso. apply (Qlt_not_le _ _ Hnear Hle).
Qed.

(** X10, witness: a select at time 100 with an interval of half a second,
    and a call 0.2 s later on a bus that would fail. *)
Lemma ensure_channel_interval_witness :
  let self := ResilientOLED.mkResilientMuxOLED 0 0x70 (1 # 2) 0 0 true in
  let w := mkWorld (Some 2) [true] [] in
  let later := mkWorld (Some 2) [false] [] in
  let '(ok, self', w') := ResilientOLED._ensure_channel self false (100 # 1) w in
  ok = true /\
  ResilientOLED.last_ensure_time self' = 100 # 1 /\
  mux_reg w' = Some (Z.shiftl 1 (ResilientOLED.mux_channel self)) /\
  ResilientOLED._ensure_channel self' false (1002 # 10) later = (true, self', later).
Proof.
  apply (ensure_channel_interval
           (ResilientOLED.mkResilientMuxOLED 0 0x70 (1 # 2) 0 0 true) false
           (100 # 1) (1002 # 10) (mkWorld (Some 2) [true] [])
           (mkWorld (Some 2) [false] [])); try reflexivity.
  right. vm_compute. discriminate.
Defined.

(** X11.  An operation through [ResilientMuxOLED._with_channel]: the
    operation count goes up by one whatever happens; the device operation
    is tried once, and once more only after a first failure, never a third
    time; at most six channel selects are issued.  On every tenth operation
    the channel is selected even inside the recovery interval.  The call
    raises exactly when the last try of the device operation failed or the
    recovery could not select the channel. *)
Theorem with_channel_counts :
  forall (self : ResilientOLED.ResilientMuxOLED) (t1 t2 : Q) (w : World),
    let r := ResilientOps.display self t1 t2 w in
    let evs := new_events w (final r).2 in
    ResilientOLED.operation_count (final r).1
      = ResilientOLED.operation_count self + 1 /\
    (1 <= frames evs <= 2)%nat /\
    (mux_attempts evs <= 6)%nat /\
    (match r with
     | Done _ _ => In (OledDisplay true) evs
     | Raised _ _ => In (OledDisplay false) evs /\ ~ In (OledDisplay true) evs
     end) /\
    ((ResilientOLED.operation_count self + 1) mod 10 = 0 ->
     ResilientOLED.mux_available self = true ->
     0 <= ResilientOLED.mux_channel self ->
     (1 <= mux_attempts evs)%nat).
Proof.
  intros self t1 t2 w. cbv zeta.
  unfold ResilientOps.display, ResilientOps._with_channel.
  set (self0 := ResilientOps.set_operation_count self
                  (ResilientOLED.operation_count self + 1)).
  set (force := ResilientOLED.operation_count self0 mod 10 =? 0).
  assert (Hc0 : ResilientOLED.operation_count self0
                = ResilientOLED.operation_count self + 1) by reflexivity.
  pose proof (ensure_channel_shape self0 force t1 w) as H1.
  assert (Hforced : (ResilientOLED.operation_count self + 1) mod 10 = 0 ->
            ResilientOLED.mux_available self = true ->
            0 <= ResilientOLED.mux_channel self ->
            exists tail, trace (ResilientOLED._ensure_channel self0 force t1 w).2 =
              trace w ++ MuxWrite (ResilientOLED.mux_addr self)
                           (Z.shiftl 1 (ResilientOLED.mux_channel self)) (outcome w)
                         :: tail).
  { intros Hmod Hav Hch. unfold force. rewrite Hc0, Hmod. cbn [Z.eqb].
    unfold ResilientOLED._ensure_channel. cbn. rewrite Hav. cbn.
    unfold shl1. destruct (Z.ltb_spec (ResilientOLED.mux_channel self) 0); [lia|].
    unfold bus_write_byte. cbn.
    destruct (outcome w); cbn.
    - rewrite <- app_assoc. eexists. reflexivity.
    - match goal with |- context [outcome ?x] => destruct (outcome x) end; cbn.
      + rewrite <- !app_assoc. eexists. reflexivity.
      + match goal with |- context [outcome ?x] => destruct (outcome x) end; cbn;
          rewrite <- !app_assoc; eexists; reflexivity. }
  destruct (ResilientOLED._ensure_channel self0 force t1 w) as [[ok1 self1] w1].
  destruct H1 as (e1 & T1 & A1 & F1 & Hs1).
  assert (Hc1 : ResilientOLED.operation_count self1
                = ResilientOLED.operation_count self + 1).
  { destruct Hs1 as [->| ->]; exact Hc0. }
  assert (Hlow : (ResilientOLED.operation_count self + 1) mod 10 = 0 ->
            ResilientOLED.mux_available self = true ->
            0 <= ResilientOLED.mux_channel self -> (1 <= mux_attempts e1)%nat).
  { intros Hmod Hav Hch. destruct (Hforced Hmod Hav Hch) as (tail & Ht).
    cbv beta iota delta [snd] in Ht. rewrite T1 in Ht.
    apply app_inv_head in Ht. subst e1.
    cbn. lia. }
  clear Hforced.
  unfold oled_display. cbn [fst snd].
  destruct (outcome w1) eqn:O1.
  - cbn [final fst snd trace].
    rewrite (new_events_app w _ (e1 ++ [OledDisplay true]))
      by (cbn; rewrite T1, app_assoc; reflexivity).
    rewrite frames_app, mux_attempts_app, F1. cbn.
    split; [exact Hc1|]. split; [lia|]. split; [lia|].
    split; [apply in_or_app; right; now left|].
    intros Hmod Hav Hch. specialize (Hlow Hmod Hav Hch). lia.
  - set (w2 := {| mux_reg := mux_reg w1; script := consume w1;
                  trace := trace w1 ++ [OledDisplay false] |}).
    pose proof (ensure_channel_shape self1 true t2 w2) as H2.
    destruct (ResilientOLED._ensure_channel self1 true t2 w2) as [[ok2 self2] w3].
    destruct H2 as (e2 & T2 & A2 & F2 & Hs2).
    assert (Hc2 : ResilientOLED.operation_count self2
                  = ResilientOLED.operation_count self + 1).
    { destruct Hs2 as [->| ->]; cbn; exact Hc1. }
    assert (Hno : forall b, In (OledDisplay b) (e1 ++ [OledDisplay false] ++ e2) ->
                            b = false).
    { intros b Hin. apply in_app_or in Hin as [Hin|Hin].
      - exfalso. unfold frames in F1.
        assert (Hf : In (OledDisplay b) (filter is_frame e1))
          by (apply filter_In; split; [exact Hin | reflexivity]).
        destruct (filter is_frame e1); [contradiction | discriminate].
      - apply in_app_or in Hin as [[Hin|[]]|Hin]; [congruence|].
        exfalso. unfold frames in F2.
        assert (Hf : In (OledDisplay b) (filter is_frame e2))
          by (apply filter_In; split; [exact Hin | reflexivity]).
        destruct (filter is_frame e2); [contradiction | discriminate]. }
    destruct ok2.
    + destruct (outcome w3) eqn:O3; cbn [final fst snd trace].
      * rewrite (new_events_app w _ ((e1 ++ [OledDisplay false] ++ e2) ++ [OledDisplay true]))
          by (cbn; rewrite T2; unfold w2; cbn; rewrite T1, <- !app_assoc; reflexivity).
        rewrite !frames_app, !mux_attempts_app, F1, F2. cbn.
        split; [exact Hc2|]. split; [lia|]. split; [lia|].
        split; [apply in_or_app; right; now left|].
        intros Hmod Hav Hch. specialize (Hlow Hmod Hav Hch). lia.
      * rewrite (new_events_app w _ ((e1 ++ [OledDisplay false] ++ e2) ++ [OledDisplay false]))
          by (cbn; rewrite T2; unfold w2; cbn; rewrite T1, <- !app_assoc; reflexivity).
        rewrite !frames_app, !mux_attempts_app, F1, F2. cbn.
        split; [exact Hc2|]. split; [lia|]. split; [lia|].
        split.
        { split; [apply in_or_app; right; now left|].
          intros Hin. apply in_app_or in Hin as [Hin|[Hin|[]]]; [|discriminate].
          specialize (Hno true Hin). discriminate. }
        intros Hmod Hav Hch. specialize (Hlow Hmod Hav Hch). lia.
    + cbn [final fst snd].
      rewrite (new_events_app w _ (e1 ++ [OledDisplay false] ++ e2))
        by (rewrite T2; unfold w2; cbn; rewrite T1, <- !app_assoc; reflexivity).
      rewrite !frames_app, !mux_attempts_app, F1, F2. cbn.
      split; [exact Hc2|]. split; [lia|]. split; [lia|].
      split.
      { split; [apply in_or_app; right; now left|].
        intros Hin. specialize (Hno true Hin). discriminate. }
      intros Hmod Hav Hch. specialize (Hlow Hmod Hav Hch). lia.
Qed.

(** X11, witness: the tenth operation, inside the recovery interval, on a
    sound bus. *)
Lemma with_channel_counts_witness :
  let self := ResilientOLED.mkResilientMuxOLED 0 0x70 (1 # 2) (100 # 1) 9 true in
  let r := ResilientOps.display self (1001 # 10) (1001 # 10) (mkWorld None [] []) in
  final r =
    (ResilientOLED.mkResilientMuxOLED 0 0x70 (1 # 2) (1001 # 10) 10 true,
     mkWorld (Some 1) [] [MuxWrite 0x70 1 true; Sleep (2 # 1000); OledDisplay true]) /\
  (1 <= mux_attempts (new_events (mkWorld None [] []) (final r).2))%nat.
Proof.
  split; [reflexivity|].
  exact (proj2 (proj2 (proj2 (proj2
           (with_channel_counts
              (ResilientOLED.mkResilientMuxOLED 0 0x70 (1 # 2) (100 # 1) 9 true)
              (1001 # 10) (1001 # 10) (mkWorld None [] [])))))
           eq_refl eq_refl ltac:(cbn; lia)).
Defined.

(** X12.  [MuxSafeOLED.display] pushes exactly one frame whatever became of
    the channel select before it: the select is tried at most once, its
    failure is passed over, and the call returns exactly when the frame was
    accepted.  Without a completed select the multiplexer is where it was. *)
Theorem mux_safe_display_always_draws :
  forall (self : MuxSafe.MuxSafeOLED) (w : World),
    let r := MuxSafe.display self w in
    let evs := new_events w (final r) in
    frames evs = 1%nat /\
    (mux_attempts evs <= 1)%nat /\
    (MuxSafe._needs_mux self = false -> mux_attempts evs = O) /\
    (mux_completed evs = O -> mux_reg (final r) = mux_reg w) /\
    match r with
    | Done _ _ => last evs (Sleep 0) = OledDisplay true
    | Raised _ _ => last evs (Sleep 0) = OledDisplay false
    end.
Proof.
  intros self w. cbv zeta. unfold MuxSafe.display.
  assert (Hpre : exists pre,
            trace (MuxSafe._ensure_channel self w) = trace w ++ pre /\
            frames pre = O /\ (mux_attempts pre <= 1)%nat /\
            (MuxSafe._needs_mux self = false -> mux_attempts pre = O) /\
            (mux_completed pre = O ->
             mux_reg (MuxSafe._ensure_channel self w) = mux_reg w)).
  { unfold MuxSafe._ensure_channel.
    destruct (MuxSafe._needs_mux self).
    2:{ exists []. rewrite app_nil_r. cbn. auto. }
    destruct (shl1 (MuxSafe.mux_channel self)) as [mask|].
    2:{ exists []. rewrite app_nil_r. cbn. repeat split; auto. }
    unfold bus_write_byte. cbn [fst snd]. destruct (outcome w).
    - exists [MuxWrite (MuxSafe.mux_addr self) mask true; Sleep (1 # 1000)].
      cbn. rewrite <- app_assoc. repeat split; auto; discriminate.
    - exists [MuxWrite (MuxSafe.mux_addr self) mask false].
      cbn. repeat split; auto; discriminate. }
  destruct Hpre as (pre & T & F & A & N & R).
  set (w0 := MuxSafe._ensure_channel self w) in *. clearbody w0.
  unfold oled_display. cbn [fst snd].
  assert (Hlast : forall ok, last (pre ++ [OledDisplay ok]) (Sleep 0) = OledDisplay ok)
    by (intros ok; apply last_last).
  destruct (outcome w0); cbn [final trace mux_reg];
    (rewrite (new_events_app w _ (pre ++ [OledDisplay _]))
      by (rewrite T, <- app_assoc; reflexivity));
    rewrite frames_app, mux_attempts_app, mux_completed_app, F, Hlast; cbn;
    rewrite !Nat.add_0_r; repeat split; auto.
Qed.

(** X13.  [initialize_servo_with_mux]: a wrapper is returned only with the
    multiplexer back on channel 0, after two completed selects; whenever
    the function returns [None] the multiplexer is left on the servo's
    channel; an exception leaves after at most one select. *)
Theorem fixed_init_outcomes :
  forall (mux_channel servo_channel : Z) (w : World),
    match FixedServoSetup.initialize_servo_with_mux mux_channel servo_channel w with
    | Done (Some fs) w' =>
        fs = FixedServoInit.mkServoKitWithMux mux_channel servo_channel 0x70 /\
        mux_reg w' = Some 1 /\
        mux_completed (new_events w w') = 2%nat
    | Done None w' =>
        0 <= mux_channel /\
        mux_reg w' = Some (Z.shiftl 1 mux_channel) /\
        (1 <= mux_attempts (new_events w w') <= 2)%nat /\
        mux_completed (new_events w w') = 1%nat
    | Raised e w' =>
        (mux_attempts (new_events w w') <= 1)%nat /\
        (mux_completed (new_events w w') = O -> mux_reg w' = mux_reg w)
    end.
Proof.
  intros mux_channel servo_channel w.
  unfold FixedServoSetup.initialize_servo_with_mux, shl1.
  destruct (Z.ltb_spec mux_channel 0) as [Hneg|Hpos].
  { rewrite (new_events_app w w []) by now rewrite app_nil_r. cbn. auto. }
  unfold bus_write_byte at 1. cbn [fst snd].
  destruct (outcome w) eqn:O1.
  2:{ cbn [trace mux_reg]. rewrite (new_events_app w _ [_]) by reflexivity.
      cbn. auto. }
  set (w1 := sleep (1 # 10) _).
  assert (T1 : trace w1 = trace w ++ [MuxWrite 0x70 (Z.shiftl 1 mux_channel) true;
                                      Sleep (1 # 10)])
    by (unfold w1; cbn; now rewrite <- app_assoc).
  assert (R1 : mux_reg w1 = Some (Z.shiftl 1 mux_channel)) by reflexivity.
  clearbody w1.
  unfold bus_open, bus_read_byte, servokit_init, servo_configure, untraced.
  cbn [fst snd].
  destruct (outcome w1).
  2:{ cbn [trace mux_reg]. erewrite new_events_app by (cbn [trace]; eassumption). cbn.
      split; [lia | discriminate]. }
  set (w2 := mkWorld _ _ _).
  assert (T2 : trace w2 = trace w1) by reflexivity.
  assert (R2 : mux_reg w2 = mux_reg w1) by reflexivity.
  clearbody w2. rewrite T1 in T2. rewrite R1 in R2.
  destruct (outcome w2).
  2:{ cbn [trace mux_reg]. erewrite new_events_app by (cbn [trace]; eassumption). cbn.
      repeat split; auto; lia. }
  set (w3 := mkWorld _ _ _).
  assert (T3 : trace w3 = trace w2) by reflexivity.
  assert (R3 : mux_reg w3 = mux_reg w2) by reflexivity.
  clearbody w3. rewrite T2 in T3. rewrite R2 in R3.
  destruct (outcome w3).
  2:{ cbn [trace mux_reg]. erewrite new_events_app by (cbn [trace]; eassumption). cbn.
      repeat split; auto; lia. }
  set (w4 := sleep (1 # 10) _).
  assert (T4 : trace w4 = trace w ++ [MuxWrite 0x70 (Z.shiftl 1 mux_channel) true;
                                      Sleep (1 # 10); Sleep (1 # 10)])
    by (unfold w4; cbn; rewrite T3, <- app_assoc; reflexivity).
  assert (R4 : mux_reg w4 = Some (Z.shiftl 1 mux_channel)) by exact R3.
  clearbody w4.
  destruct (outcome w4).
  2:{ cbn [trace mux_reg]. erewrite new_events_app by (cbn [trace]; eassumption). cbn.
      repeat split; auto; lia. }
  set (w5 := mkWorld _ _ _).
  assert (T5 : trace w5 = trace w4) by reflexivity.
  assert (R5 : mux_reg w5 = mux_reg w4) by reflexivity.
  clearbody w5. rewrite T4 in T5. rewrite R4 in R5.
  destruct (outcome w5).
  2:{ cbn [trace mux_reg]. erewrite new_events_app by (cbn [trace]; eassumption). cbn.
      repeat split; auto; lia. }
  set (w6 := mkWorld _ _ _).
  assert (T6 : trace w6 = trace w5) by reflexivity.
  assert (R6 : mux_reg w6 = mux_reg w5) by reflexivity.
  clearbody w6. rewrite T5 in T6. rewrite R5 in R6.
  unfold bus_write_byte. cbn [fst snd].
  destruct (outcome w6).
  - unfold sleep. cbn [trace mux_reg].
    rewrite (new_events_app w _
               ([MuxWrite 0x70 (Z.shiftl 1 mux_channel) true; Sleep (1 # 10);
                 Sleep (1 # 10)] ++ [MuxWrite 0x70 (Z.shiftl 1 0) true; Sleep (1 # 100)]))
      by (rewrite T6, <- !app_assoc; reflexivity).
    cbn. auto.
  - cbn [trace mux_reg].
    rewrite (new_events_app w _
               ([MuxWrite 0x70 (Z.shiftl 1 mux_channel) true; Sleep (1 # 10);
                 Sleep (1 # 10)] ++ [MuxWrite 0x70 (Z.shiftl 1 0) false]))
      by (rewrite T6, <- !app_assoc; reflexivity).
    cbn. repeat split; auto; lia.
Qed.

(* ===================================================================== *)
(** * The encoder test script *)
(* ===================================================================== *)

Lemma angle_in_range (a : Z) :
  0 <= a <= 270 -> (0 <= inject_Z a <= 270 # 1)%Q.
Proof.
  intros [H0 H1]. change (270 # 1)%Q with (inject_Z 270).
  change 0%Q with (inject_Z 0). rewrite <- !Zle_Qle. lia.
Qed.

Lemma angles_within_app (lo hi : Q) (a b : list io_event) :
  angles_within lo hi a -> angles_within lo hi b -> angles_within lo hi (a ++ b).
Proof. unfold angles_within. intros Ha Hb. apply Forall_app. split; assumption. Qed.

Lemma servo_write_spec (servo : Z) (angle : Q) (w : World) :
  let (ok, w') := servo_write servo angle w in
  trace w' = trace w ++ [ServoWrite servo angle ok] /\ mux_reg w' = mux_reg w.
Proof. unfold servo_write. cbn. auto. Qed.

(** [move_servo] appends to the trace, and its servo write asks for the
    angle passed. *)
Lemma encoder_test_move_servo (using_mux : bool) (angle : Z) (w : World) :
  0 <= angle <= 270 ->
  exists evs,
    trace (final (EncoderTest.move_servo using_mux angle w)) = trace w ++ evs /\
    angles_within 0 (270 # 1) evs.
Proof.
  intros Ha. pose proof (angle_in_range angle Ha) as Hq.
  assert (Hwrite : forall w0,
            exists evs,
              trace (final (let (moved, w1) := servo_write 0 (inject_Z angle) w0 in
                            if moved
                            then if using_mux
                                 then let (back, w2) := bus_write_byte 112 (Z.shiftl 1 0) w1 in
                                      if back then Done tt w2 else Raised OSError w2
                                 else Done tt w1
                            else Raised OSError w1)) = trace w0 ++ evs /\
              angles_within 0 (270 # 1) evs).
  { intros w0. pose proof (servo_write_spec 0 (inject_Z angle) w0) as Hs.
    destruct (servo_write 0 (inject_Z angle) w0) as [moved w1]. destruct Hs as [T1 _].
    assert (A1 : angles_within 0 (270 # 1) [ServoWrite 0 (inject_Z angle) moved])
      by (repeat constructor; apply Hq).
    destruct moved; [|eauto].
    destruct using_mux; [|eauto].
    pose proof (bus_write_byte_spec 112 (Z.shiftl 1 0) w1) as Hb.
    destruct (bus_write_byte 112 (Z.shiftl 1 0) w1) as [back w2].
    destruct Hb as (_ & T2 & _).
    exists ([ServoWrite 0 (inject_Z angle) true] ++ [MuxWrite 112 (Z.shiftl 1 0) back]).
    split; [destruct back; cbn [final]; rewrite T2, T1, <- app_assoc; reflexivity|].
    apply angles_within_app; [exact A1 | repeat constructor]. }
  unfold EncoderTest.move_servo.
  destruct using_mux; [|apply Hwrite].
  pose proof (bus_write_byte_spec 112 (Z.shiftl 1 1) w) as Hb.
  destruct (bus_write_byte 112 (Z.shiftl 1 1) w) as [selected w1].
  destruct Hb as (_ & T1 & _).
  destruct selected.
  2:{ exists [MuxWrite 112 (Z.shiftl 1 1) false]. split; [exact T1 | repeat constructor]. }
  destruct (Hwrite (sleep (1 # 100) w1)) as (evs & T & A).
  exists ([MuxWrite 112 (Z.shiftl 1 1) true; Sleep (1 # 100)] ++ evs).
  split; [rewrite T; cbn; rewrite T1, <- !app_assoc; reflexivity|].
  apply angles_within_app; [repeat constructor | exact A].
Qed.

(** The invariant of the main loop: the angle stays a multiple of 5 between
    0 and 270, and so does every angle sent to the servo. *)
Lemma encoder_test_loop_step (st : EncoderTest.State) (clk dt sw : Z) (w : World) :
  0 <= EncoderTest.current_angle st <= 270 ->
  EncoderTest.current_angle st mod 5 = 0 ->
  let r := EncoderTest.loop_step st clk dt sw w in
  0 <= EncoderTest.current_angle (final r).1 <= 270 /\
  EncoderTest.current_angle (final r).1 mod 5 = 0 /\
  exists evs, trace (final r).2 = trace w ++ evs /\ angles_within 0 (270 # 1) evs.
Proof.
  intros Hr Hm. cbv zeta. unfold EncoderTest.loop_step.
  set (st1 := if negb (dt =? clk)
              then EncoderTest.mkState (Z.min 270 (EncoderTest.current_angle st + 5))
                     (EncoderTest.encoder_pos st + 1) (EncoderTest.last_clk st)
                     (EncoderTest.using_mux st)
              else EncoderTest.mkState (Z.max 0 (EncoderTest.current_angle st - 5))
                     (EncoderTest.encoder_pos st - 1) (EncoderTest.last_clk st)
                     (EncoderTest.using_mux st)).
  assert (H1 : 0 <= EncoderTest.current_angle st1 <= 270 /\
               EncoderTest.current_angle st1 mod 5 = 0).
  { unfold st1. destruct (negb (dt =? clk)); cbn [EncoderTest.current_angle].
    - split; [lia|].
      destruct (Z.min_spec 270 (EncoderTest.current_angle st + 5)) as [[_ ->]|[_ ->]];
        [reflexivity|].
      rewrite <- Zplus_mod_idemp_l, Hm. reflexivity.
    - split; [lia|].
      destruct (Z.max_spec 0 (EncoderTest.current_angle st - 5)) as [[_ ->]|[_ ->]];
        [|reflexivity].
      rewrite <- Zminus_mod_idemp_l, Hm. reflexivity. }
  clearbody st1. destruct H1 as [Hr1 Hm1].
  assert (Hrot : exists st2 w2 evs,
            (final (if negb (clk =? EncoderTest.last_clk st)
                    then match EncoderTest.move_servo (EncoderTest.using_mux st1)
                                 (EncoderTest.current_angle st1) w with
                         | Done _ w1 => Done tt (st1, w1)
                         | Raised e w1 => Raised e (st1, w1)
                         end
                    else Done tt (st, w))) = (st2, w2) /\
            trace w2 = trace w ++ evs /\ angles_within 0 (270 # 1) evs /\
            0 <= EncoderTest.current_angle st2 <= 270 /\
            EncoderTest.current_angle st2 mod 5 = 0).
  { destruct (negb (clk =? EncoderTest.last_clk st)).
    - destruct (encoder_test_move_servo (EncoderTest.using_mux st1)
                  (EncoderTest.current_angle st1) w Hr1) as (evs & T & A).
      destruct (EncoderTest.move_servo _ _ w) as [[] w1|e w1];
        exists st1, w1, evs; auto.
    - exists st, w, []. rewrite app_nil_r. repeat split; auto; try lia. constructor. }
  destruct Hrot as (st2 & w2 & evs & E & T & A & Hr2 & Hm2).
  match type of E with final ?x = _ => destruct x as [[] [sta wa]|e [sta wa]] end;
    cbn [final] in E; injection E as -> ->.
  2:{ cbn [final fst snd]. repeat split; auto; try lia. eauto. }
  destruct (sw =? 0).
  - destruct (encoder_test_move_servo (EncoderTest.using_mux st2) 135 w2 ltac:(lia))
      as (evs2 & T2 & A2).
    cbn [EncoderTest.using_mux EncoderTest.current_angle EncoderTest.last_clk].
    destruct (EncoderTest.move_servo _ 135 w2) as [[] w3|e w3];
      cbn [final fst snd EncoderTest.current_angle] in *.
    + repeat split; try lia.
      exists (evs ++ evs2 ++ [Sleep (1 # 2); Sleep (1 # 1000)]).
      split; [cbn; rewrite T2, T, <- !app_assoc; reflexivity|].
      repeat apply angles_within_app; auto. repeat constructor.
    + repeat split; try lia.
      exists (evs ++ evs2). split; [rewrite T2, T, <- !app_assoc; reflexivity|].
      apply angles_within_app; auto.
  - cbn [final fst snd EncoderTest.current_angle]. repeat split; auto; try lia.
    exists (evs ++ [Sleep (1 # 1000)]).
    split; [cbn; rewrite T, <- !app_assoc; reflexivity|].
    apply angles_within_app; auto. repeat constructor.
Qed.

Lemma encoder_test_loop_inv (samples : list (Z * Z * Z)) :
  forall (st : EncoderTest.State) (w : World),
    0 <= EncoderTest.current_angle st <= 270 ->
    EncoderTest.current_angle st mod 5 = 0 ->
    let r := EncoderTest.loop st samples w in
    0 <= EncoderTest.current_angle (final r).1 <= 270 /\
    EncoderTest.current_angle (final r).1 mod 5 = 0 /\
    exists evs, trace (final r).2 = trace w ++ evs /\ angles_within 0 (270 # 1) evs.
Proof.
  induction samples as [|[[clk dt] sw] rest IH]; intros st w Hr Hm; cbv zeta.
  - cbn. repeat split; auto; try lia. exists []. rewrite app_nil_r.
    split; [reflexivity | constructor].
  - cbn [EncoderTest.loop].
    pose proof (encoder_test_loop_step st clk dt sw w Hr Hm) as Hs. cbv zeta in Hs.
    destruct (EncoderTest.loop_step st clk dt sw w) as [[] [st1 w1]|e [st1 w1]];
      cbn [final fst snd] in Hs; destruct Hs as (Hr1 & Hm1 & evs1 & T1 & A1).
    + specialize (IH st1 w1 Hr1 Hm1). cbv zeta in IH.
      destruct IH as (Hr2 & Hm2 & evs2 & T2 & A2).
      repeat split; auto; try lia.
      exists (evs1 ++ evs2). split; [rewrite T2, T1, <- app_assoc; reflexivity|].
      apply angles_within_app; auto.
    + cbn [final fst snd]. repeat split; auto; try lia. eauto.
Qed.

(** X14.  The loop of [test_servo_encoder.py], started as the script starts
    it: whatever the pins read and whatever the hardware does, the angle
    stays a multiple of 5 between 0 and 270, and no servo write ever asks
    for an angle outside 0..270. *)
Theorem encoder_test_angles_in_range :
  forall (clk : Z) (using_mux : bool) (samples : list (Z * Z * Z)) (w : World),
    let r := EncoderTest.loop (EncoderTest.start clk using_mux) samples w in
    0 <= EncoderTest.current_angle (final r).1 <= 270 /\
    EncoderTest.current_angle (final r).1 mod 5 = 0 /\
    angles_within 0 (270 # 1) (new_events w (final r).2).
Proof.
  intros clk using_mux samples w. cbv zeta.
  destruct (encoder_test_loop_inv samples (EncoderTest.start clk using_mux) w)
    as (Hr & Hm & evs & T & A); cbn; try lia; try reflexivity.
  repeat split; auto; try lia.
  rewrite (new_events_app _ _ _ T). exact A.
Qed.

(* ===================================================================== *)
(** * The servo diagnostic *)
(* ===================================================================== *)

(** The scan stops at the first channel on which the select succeeds and
    the controller answers, with the multiplexer left on that channel;
    otherwise it has tried to select every channel. *)
Lemma diagnostic_scan_spec (channels : list Z) :
  forall (w : World),
    Forall (fun c => 0 <= c) channels ->
    let (v, w') := Diagnostic.scan channels w in
    exists evs,
      trace w' = trace w ++ evs /\
      (mux_attempts evs <= length channels)%nat /\
      servo_writes evs = O /\
      match v with
      | Diagnostic.PyInt c => In c channels /\ mux_reg w' = Some (Z.shiftl 1 c)
      | Diagnostic.PyNone => mux_attempts evs = length channels
      | Diagnostic.PyFalse => False
      end.
Proof.
  induction channels as [|c rest IH]; intros w Hpos.
  - exists []. cbn. rewrite app_nil_r. auto.
  - inversion Hpos as [|? ? Hc Hrest]; subst.
    cbn [Diagnostic.scan]. unfold shl1.
    destruct (Z.ltb_spec c 0) as [Hneg|_]; [lia|].
    pose proof (bus_write_byte_spec 112 (Z.shiftl 1 c) w) as Hb.
    destruct (bus_write_byte 112 (Z.shiftl 1 c) w) as [selected w1].
    destruct Hb as (_ & T1 & _ & R1).
    destruct selected.
    + unfold bus_read_byte, untraced. cbn [fst snd].
      set (w2 := mkWorld _ _ _).
      assert (T2 : trace w2 = trace w ++ [MuxWrite 112 (Z.shiftl 1 c) true; Sleep (5 # 100)])
        by (cbn; rewrite T1, <- app_assoc; reflexivity).
      assert (R2 : mux_reg w2 = Some (Z.shiftl 1 c)) by exact R1.
      destruct (outcome (sleep (5 # 100) w1)).
      * exists [MuxWrite 112 (Z.shiftl 1 c) true; Sleep (5 # 100)].
        split; [exact T2|]. cbn. repeat split; auto; lia.
      * clearbody w2. specialize (IH w2 Hrest).
        destruct (Diagnostic.scan rest w2) as [v w'].
        destruct IH as (evs & T & A & S & M).
        exists ([MuxWrite 112 (Z.shiftl 1 c) true; Sleep (5 # 100)] ++ evs).
        split; [rewrite T, T2, <- app_assoc; reflexivity|].
        rewrite mux_attempts_app, servo_writes_app, S. cbn.
        repeat split; try lia.
        destruct v; [exact M | lia | destruct M; auto].
    + specialize (IH w1 Hrest).
      destruct (Diagnostic.scan rest w1) as [v w'].
      destruct IH as (evs & T & A & S & M).
      exists ([MuxWrite 112 (Z.shiftl 1 c) false] ++ evs).
      split; [rewrite T, T1, <- app_assoc; reflexivity|].
      rewrite mux_attempts_app, servo_writes_app, S. cbn.
      repeat split; try lia.
      destruct v; [exact M | lia | destruct M; auto].
Qed.

(** X15.  [check_multiplexer_channels]: a channel number is returned only
    between 0 and 7 and with the multiplexer left on that channel; [False]
    and a failure to open the bus come without any select; [None] after a
    scan means that all eight channels were tried.  No servo is moved. *)
Theorem check_multiplexer_channels_result :
  forall (w : World),
    let (v, w') := Diagnostic.check_multiplexer_channels w in
    let evs := new_events w w' in
    (mux_attempts evs <= 8)%nat /\
    servo_writes evs = O /\
    match v with
    | Diagnostic.PyInt c => 0 <= c <= 7 /\ mux_reg w' = Some (Z.shiftl 1 c)
    | Diagnostic.PyFalse => evs = [] /\ mux_reg w' = mux_reg w
    | Diagnostic.PyNone =>
        mux_attempts evs = 8%nat \/ (outcome w = false /\ evs = [])
    end.
Proof.
  intros w. unfold Diagnostic.check_multiplexer_channels, bus_open, bus_read_byte, untraced.
  cbn [fst snd].
  destruct (outcome w) eqn:O1.
  2:{ cbv zeta. rewrite (new_events_app w _ []) by (cbn; now rewrite app_nil_r).
      cbn. repeat split; auto; lia. }
  set (w1 := mkWorld _ _ _).
  destruct (outcome w1).
  2:{ cbv zeta. rewrite (new_events_app w _ []) by (cbn; now rewrite app_nil_r).
      cbn. repeat split; auto; lia. }
  set (w2 := mkWorld _ _ _).
  assert (T2 : trace w2 = trace w) by reflexivity. clearbody w2.
  assert (Hpos : Forall (fun c => 0 <= c) Diagnostic.all_channels)
    by (unfold Diagnostic.all_channels; repeat constructor; lia).
  pose proof (diagnostic_scan_spec Diagnostic.all_channels w2 Hpos) as Hs.
  destruct (Diagnostic.scan Diagnostic.all_channels w2) as [v w'].
  destruct Hs as (evs & T & A & S & M). cbv zeta.
  rewrite T2 in T. rewrite (new_events_app w w' evs T).
  split; [exact A|]. split; [exact S|].
  destruct v; [contradiction | now left |].
  destruct M as [Hin Hreg]. split; [|exact Hreg].
  unfold Diagnostic.all_channels in Hin. cbn in Hin.
  repeat (destruct Hin as [<-|Hin]; [lia|]). contradiction.
Qed.

(** X16.  [main] without a multiplexer: [check_multiplexer_channels] then
    returns [False], which is not [None]; so the guide reports the
    controller as detected on multiplexer channel [False] and never as not
    detected, and when no direct connection was found the initialisation
    test starts by writing the mask [1 << False] = 1 to the multiplexer
    address. *)
Theorem diagnostic_without_multiplexer :
  forall (direct : bool) (w : World) (rest : list bool),
    script w = true :: false :: rest ->
    (Diagnostic.main direct w).1 = Diagnostic.OnMultiplexerChannel Diagnostic.PyFalse /\
    (direct = false ->
     exists ok tail,
       new_events w (Diagnostic.main direct w).2 = MuxWrite 0x70 1 ok :: tail).
Proof.
  intros direct w rest Hs.
  assert (Hc : exists w1, Diagnostic.check_multiplexer_channels w = (Diagnostic.PyFalse, w1)
                          /\ trace w1 = trace w).
  { unfold Diagnostic.check_multiplexer_channels, bus_open, bus_read_byte, untraced,
      outcome, consume.
    rewrite Hs. cbn. eexists. split; reflexivity. }
  destruct Hc as (w1 & Hc & T1).
  unfold Diagnostic.main. rewrite Hc. cbn [fst snd Diagnostic.is_not_none negb andb].
  split; [now destruct direct|].
  intros ->. unfold Diagnostic.test_servo_initialization.
  cbn [Diagnostic.is_not_none Diagnostic.as_int shl1 Z.ltb Z.compare].
  pose proof (bus_write_byte_spec 112 (Z.shiftl 1 0) w1) as Hb.
  destruct (bus_write_byte 112 (Z.shiftl 1 0) w1) as [ok wa].
  destruct Hb as (_ & Ta & _).
  assert (Hext : forall wz : World,
            (exists evs, trace wz = trace wa ++ evs) ->
            exists ok0 tail, new_events w wz = MuxWrite 112 1 ok0 :: tail).
  { intros wz [evs Tz]. exists ok, evs.
    apply new_events_app. rewrite Tz, Ta, T1, <- app_assoc. reflexivity. }
  destruct ok.
  2:{ apply Hext. exists []. now rewrite app_nil_r. }
  unfold servokit_init, untraced, servo_write, sleep. cbn [fst snd trace script mux_reg].
  repeat match goal with
         | |- context [if outcome ?x then _ else _] => destruct (outcome x)
         end;
    cbn [fst snd trace]; apply Hext; eexists; rewrite <- ?app_assoc; reflexivity.
Qed.

(** X16, witness: the bus opens, no multiplexer answers, and nothing was
    found on the direct bus either. *)
Lemma diagnostic_without_multiplexer_witness :
  (Diagnostic.main false (mkWorld None [true; false] [])).1
    = Diagnostic.OnMultiplexerChannel Diagnostic.PyFalse /\
  (false = false ->
   exists ok tail,
     new_events (mkWorld None [true; false] [])
       (Diagnostic.main false (mkWorld None [true; false] [])).2
     = MuxWrite 0x70 1 ok :: tail).
Proof.
  apply (diagnostic_without_multiplexer false (mkWorld None [true; false] []) []).
  reflexivity.
Defined.

(* ===================================================================== *)
(** * Configuration and state files *)
(* ===================================================================== *)

Lemma assoc_list_to_map (key : string) (items : list (string * json)) :
  (list_to_map items : gmap string json) !! key = assoc key items.
Proof.
  induction items as [|[k v] rest IH]; [reflexivity|].
  cbn [assoc list_to_map foldr]. destruct (String.eqb_spec k key) as [->|Hne].
  - apply lookup_insert_eq.
  - rewrite lookup_insert_ne by exact Hne. exact IH.
Qed.

(** The merge of [load_config] looks a key up in the file first and in the
    defaults second; for a key listed twice among the defaults the first
    entry counts. *)
Lemma merge_defaults_lookup (defaults : list (string * json)) :
  forall (config : gmap string json) (key : string),
    TiltFiles.merge_defaults defaults config !! key =
      match config !! key with
      | Some v => Some v
      | None => assoc key defaults
      end.
Proof.
  unfold TiltFiles.merge_defaults.
  induction defaults as [|[k v] rest IH]; intros config key.
  - cbn. now destruct (config !! key).
  - cbn [fold_left assoc fst snd]. rewrite IH.
    destruct (config !! k) eqn:Hk.
    + destruct (String.eqb_spec k key) as [->|Hne]; [now rewrite Hk|reflexivity].
    + destruct (String.eqb_spec k key) as [->|Hne].
      * rewrite lookup_insert_eq, Hk. reflexivity.
      * rewrite lookup_insert_ne by exact Hne. reflexivity.
Qed.

(** X17.  [load_config] of the tilt controller, when it returns: every key
    of the file keeps the file's value, whole, and a key the file lacks
    takes the default; without a file every key holds its default.  In
    particular a file with its own [modes] entry gets none of the default
    modes. *)
Theorem load_config_lookup :
  forall (f : file (gmap string json)) (w : World) (config : gmap string json)
         (w' : World) (key : string),
    TiltFiles.load_config f w = Done config w' ->
    config !! key =
      match f with
      | Holds given =>
          match given !! key with
          | Some v => Some v
          | None => assoc key TiltFiles.default_config
          end
      | _ => assoc key TiltFiles.default_config
      end.
Proof.
  intros f w config w' key H.
  assert (Hinj : forall (a : gmap string json) (s : World),
            Done a s = Done config w' -> a = config)
    by (intros a s E; now inversion E).
  unfold TiltFiles.load_config in H.
  destruct f as [| |given].
  - destruct (untraced w) as [written w1]. destruct written; [|discriminate].
    apply Hinj in H. rewrite <- H. apply assoc_list_to_map.
  - discriminate.
  - apply Hinj in H. rewrite <- H. apply merge_defaults_lookup.
Qed.

(** X17, witness: a file that sets only [modes], to a single mode. *)
Lemma load_config_lookup_witness :
  let given : gmap string json :=
    {[ "modes" := JObj [("direct", JObj [("sensitivity", JNum (2 # 1))])] ]} in
  TiltFiles.merge_defaults TiltFiles.default_config given !! "modes"
    = Some (JObj [("direct", JObj [("sensitivity", JNum (2 # 1))])]).
Proof.
  exact (load_config_lookup
           (Holds {[ "modes" := JObj [("direct", JObj [("sensitivity", JNum (2 # 1))])] ]})
           (mkWorld None [] []) _ (mkWorld None [] []) "modes" eq_refl).
Defined.

(* ===================================================================== *)
(** * Runs of clicks and held buttons *)
(* ===================================================================== *)

(** A burst of short clicks, none of them reaching the deadline armed by
    the one before: every click is counted, each replaces the timer, and
    no handler runs. *)
Lemma burst_counts (clicks : list (Q * Q)) :
  forall (self : ScreenTilt.Controller) (w : World),
    quick_burst (ScreenTilt.click_timer self) clicks ->
    let sw := fold_left ScreenTilt.step (burst_inputs clicks) (self, w) in
    ScreenTilt.click_count sw.1
      = ScreenTilt.click_count self + Z.of_nat (length clicks) /\
    ScreenTilt.click_timer sw.1 = burst_deadline (ScreenTilt.click_timer self) clicks /\
    ScreenTilt.handled sw.1 = ScreenTilt.handled self.
Proof.
  induction clicks as [|[pressed released] rest IH]; intros self w Hq; cbv zeta.
  - cbn. split; [lia | auto].
  - cbn [quick_burst] in Hq. destruct Hq as (Hshort & Hearly & Hrest).
    cbn [burst_inputs flat_map fst snd app fold_left].
    assert (Hquiet : forall t s,
              ScreenTilt.click_timer s = ScreenTilt.click_timer self ->
              (match ScreenTilt.click_timer self with
               | Some d => (t < d)%Q | None => True end) ->
              ScreenTilt.fire_due t s w = (s, w)).
    { intros t s Hs Ht. destruct (ScreenTilt.click_timer self) as [d|] eqn:E.
      - now apply (fire_due_early t d).
      - now apply fire_due_idle. }
    rewrite (step_quiet self w (ScreenTilt.Pressed pressed))
      by (apply Hquiet; [reflexivity|];
          destruct (ScreenTilt.click_timer self); [apply Hearly | exact I]).
    rewrite (step_quiet _ w (ScreenTilt.Released released false))
      by (apply Hquiet; [reflexivity|];
          destruct (ScreenTilt.click_timer self); [apply Hearly | exact I]).
    rewrite released_short by exact Hshort.
    cbn [final].
    set (self1 := ScreenTilt.set_click_timer _ _).
    specialize (IH self1 (sleep (5 # 100) w) Hrest). cbv zeta in IH.
    destruct IH as (Hc & Ht & Hh).
    change (burst_inputs rest)
      with (flat_map (fun c : Q * Q => [ScreenTilt.Pressed c.1; ScreenTilt.Released c.2 false])
              rest) in Hc, Ht, Hh.
    rewrite Hc, Ht, Hh. cbn [length burst_deadline].
    unfold self1. cbn. split; [lia | auto].
Qed.

(** X18.  A burst of [n] short clicks on the tilt controller, each coming
    before the timer of the previous one expires, is settled by a single
    expiry of the last timer: one click goes to the single-click handler,
    two go to the double-click handler, and three or more run no handler
    at all.  No timer is left armed. *)
Theorem click_burst_dispatch :
  forall (clicks : list (Q * Q)) (self : ScreenTilt.Controller) (w : World)
         (deadline t_end : Q),
    ScreenTilt.click_count self = 0 ->
    ScreenTilt.click_timer self = None ->
    quick_burst None clicks ->
    burst_deadline None clicks = Some deadline ->
    (deadline <= t_end)%Q ->
    let self' :=
      (ScreenTilt.run_inputs self w (burst_inputs clicks ++ [ScreenTilt.Elapsed t_end])).1 in
    ScreenTilt.handled self' =
      ScreenTilt.handled self ++
      match length clicks with
      | 1%nat => [ScreenTilt.SingleClick]
      | 2%nat => [ScreenTilt.DoubleClick]
      | _ => []
      end /\
    ScreenTilt.click_timer self' = None.
Proof.
  intros clicks self w deadline t_end Hc0 Ht0 Hq Hd Hend. cbv zeta.
  unfold ScreenTilt.run_inputs. rewrite fold_left_app.
  rewrite <- Ht0 in Hq, Hd.
  destruct (burst_counts clicks self w Hq) as (Hc & Ht & Hh). cbv zeta in Hc, Ht, Hh.
  destruct (fold_left ScreenTilt.step (burst_inputs clicks) (self, w)) as [s1 w1].
  cbn [fst] in Hc, Ht, Hh. rewrite Hd in Ht. rewrite Hc0 in Hc.
  cbn [fold_left]. unfold ScreenTilt.step. cbn [fst snd ScreenTilt.time_of].
  rewrite (fire_due_expired t_end deadline s1 w1 Ht Hend).
  destruct (process_clicks_button (ScreenTilt.set_click_timer s1 None) w1) as [Pt Ph].
  destruct (final (ScreenTilt._process_clicks (ScreenTilt.set_click_timer s1 None) w1))
    as [s2 w2].
  cbn [fst] in Pt, Ph |- *. rewrite Pt, Ph. cbn [ScreenTilt.set_click_timer
    ScreenTilt.click_timer ScreenTilt.handled ScreenTilt.click_count].
  rewrite Hh, Hc. split; [|reflexivity]. f_equal.
  destruct (length clicks) as [|[|[|n]]]; try reflexivity.
  destruct (Z.eqb_spec (0 + Z.of_nat (S (S (S n)))) 1) as [E|_]; [lia|].
  destruct (Z.eqb_spec (0 + Z.of_nat (S (S (S n)))) 2) as [E|_]; [lia|].
  reflexivity.
Qed.

(** X18, witness: four clicks in quick succession run no handler. *)
Lemma click_burst_dispatch_witness :
  let self := ScreenTilt.seed ScreenTilt.default_config (mkPersisted None None)
                None None false false in
  let clicks := [(1 # 1, 11 # 10); (12 # 10, 13 # 10); (14 # 10, 15 # 10);
                 (16 # 10, 17 # 10)]%Q in
  let self' :=
    (ScreenTilt.run_inputs self (mkWorld None [] [])
       (burst_inputs clicks ++ [ScreenTilt.Elapsed (3 # 1)])).1 in
  ScreenTilt.handled self' = [] /\ ScreenTilt.click_timer self' = None.
Proof.
  apply (click_burst_dispatch
           [(1 # 1, 11 # 10); (12 # 10, 13 # 10); (14 # 10, 15 # 10); (16 # 10, 17 # 10)]%Q
           (ScreenTilt.seed ScreenTilt.default_config (mkPersisted None None)
              None None false false)
           (mkWorld None [] []) ((17 # 10) + (3 # 10))%Q (3 # 1)).
  - reflexivity.
  - reflexivity.
  - cbn [quick_burst]. repeat split; try exact I; try (vm_compute; reflexivity);
      vm_compute; discriminate.
  - reflexivity.
  - vm_compute. discriminate.
Defined.

Lemma button_events_rotation (last_clk clk_state dt_state : bool) :
  button_events (Unified.poll_rotation last_clk clk_state dt_state) = [].
Proof.
  unfold Unified.poll_rotation.
  destruct (negb (Bool.eqb clk_state last_clk) && Bool.eqb clk_state false);
    [|reflexivity].
  destruct (negb (Bool.eqb dt_state clk_state)); reflexivity.
Qed.

Lemma button_events_app (a b : list Unified.EncoderEvent) :
  button_events (a ++ b) = button_events a ++ button_events b.
Proof. unfold button_events. apply filter_app. Qed.

(** While the button stays pressed after the press was noted, the thread
    queues nothing for it and keeps the time of the press. *)
Lemma poll_held (held : list Unified.Sample) :
  forall p : Unified.Poller,
    (0 < Unified.button_press_time p)%Q ->
    Forall (fun s => Unified.sw s = true) held ->
    button_events (Unified.poll p held).2 = [] /\
    Unified.button_press_time (Unified.poll p held).1 = Unified.button_press_time p.
Proof.
  induction held as [|s rest IH]; intros p Hp Hall; [split; reflexivity|].
  inversion Hall as [|? ? Hs Hrest]; subst.
  cbn [Unified.poll]. unfold Unified.poll_step, Unified.poll_button. rewrite Hs.
  assert (Hz : Qeq_bool (Unified.button_press_time p) 0 = false).
  { destruct (Qeq_bool (Unified.button_press_time p) 0) eqn:E; [|reflexivity].
    apply Qeq_bool_iff in E. rewrite E in Hp. discriminate. }
  rewrite Hz.
  specialize (IH (Unified.mkPoller (Unified.clk s) (Unified.button_press_time p)) Hp Hrest).
  destruct (Unified.poll _ rest) as [p2 evs]. cbn [fst snd] in IH |- *.
  destruct IH as [He Hb].
  rewrite !button_events_app, button_events_rotation, He. split; [reflexivity | exact Hb].
Qed.

(** X19.  The polling thread of the unified controller on a button that is
    pressed, held over any number of samples and then released: exactly
    one button event is queued, at the release, and it is a long press
    exactly when the release sample comes more than a second after the
    first pressed sample.  The thread is then ready for the next press. *)
Theorem held_button_one_event :
  forall (p : Unified.Poller) (first : Unified.Sample) (held : list Unified.Sample)
         (last : Unified.Sample),
    (Unified.button_press_time p == 0)%Q ->
    Unified.sw first = true ->
    (0 < Unified.now first)%Q ->
    Forall (fun s => Unified.sw s = true) held ->
    Unified.sw last = false ->
    button_events (Unified.poll p (first :: held ++ [last])).2
      = [if Qlt_le_dec 1 (Unified.now last - Unified.now first)
         then Unified.long_press else Unified.click] /\
    Unified.button_press_time (Unified.poll p (first :: held ++ [last])).1 = 0%Q.
Proof.
  intros p first held last Hz Hfirst Hnow Hheld Hlast.
  assert (Hsplit : forall q a b,
            Unified.poll q (a ++ b) =
              (let (q1, e1) := Unified.poll q a in
               let (q2, e2) := Unified.poll q1 b in (q2, e1 ++ e2))).
  { intros q a. revert q. induction a as [|s a IHa]; intros q b.
    - cbn. now destruct (Unified.poll q b).
    - cbn [Unified.poll app]. destruct (Unified.poll_step q s) as [q1 e1].
      rewrite IHa. destruct (Unified.poll q1 a) as [q2 e2].
      destruct (Unified.poll q2 b) as [q3 e3]. now rewrite app_assoc. }
  cbn [Unified.poll]. unfold Unified.poll_step, Unified.poll_button.
  rewrite Hfirst. apply Qeq_bool_iff in Hz. rewrite Hz.
  set (p1 := Unified.mkPoller (Unified.clk first) (Unified.now first)).
  rewrite Hsplit.
  destruct (poll_held held p1 Hnow Hheld) as [He Hb].
  destruct (Unified.poll p1 held) as [p2 e2]. cbn [fst snd] in He, Hb.
  cbn [Unified.poll]. unfold Unified.poll_step, Unified.poll_button.
  rewrite Hlast, Hb. cbn [Unified.button_press_time p1].
  destruct (Qlt_le_dec 0 (Unified.now first)) as [_|Hle];
    [|exfalso; apply (Qlt_not_le _ _ Hnow Hle)].
  destruct (Qlt_le_dec 1 (Unified.now last - Unified.now first)); cbn [fst snd];
    rewrite !button_events_app, !button_events_rotation, He; split; reflexivity.
Qed.

(** X19, witness: pressed at 10 s, still held at 10.5 s, released at
    11.2 s: one long press. *)
Lemma held_button_one_event_witness :
  button_events
    (Unified.poll (Unified.mkPoller true 0)
       [Unified.mkSample true true true (10 # 1);
        Unified.mkSample true true true (105 # 10);
        Unified.mkSample true true false (112 # 10)]).2
  = [Unified.long_press].
Proof.
  exact (proj1 (held_button_one_event (Unified.mkPoller true 0)
                  (Unified.mkSample true true true (10 # 1))
                  [Unified.mkSample true true true (105 # 10)]
                  (Unified.mkSample true true false (112 # 10))
                  ltac:(reflexivity) eq_refl ltac:(reflexivity)
                  ltac:(repeat constructor) eq_refl)).
Defined.

(* ===================================================================== *)
(** * Construction of the tilt controller *)
(* ===================================================================== *)

(** Destructs the outcomes met along a straight-line run and shows that
    its trace extends the initial one by events without a servo write. *)
Ltac no_servo_write_run :=
  repeat match goal with
         | |- context [if outcome ?x then _ else _] => destruct (outcome x)
         end;
  cbn [fst snd trace final];
  eexists; (split; [rewrite <- ?app_assoc; reflexivity | reflexivity]).

Lemma fixed_init_trace (mux_channel servo_channel : Z) (w : World) :
  exists evs,
    trace (final (FixedServoSetup.initialize_servo_with_mux mux_channel servo_channel w))
      = trace w ++ evs /\
    servo_writes evs = O.
Proof.
  unfold FixedServoSetup.initialize_servo_with_mux.
  destruct (shl1 mux_channel) as [mask|].
  2:{ exists []. cbn. now rewrite app_nil_r. }
  unfold bus_write_byte, bus_open, bus_read_byte, servokit_init, servo_configure,
    untraced, sleep.
  cbn [fst snd trace script mux_reg].
  no_servo_write_run.
Qed.

Lemma init_fixed_shape (cfg : Config) (available : bool) (w : World) :
  let (fixed, w1) := TiltSetup.init_fixed cfg available w in
  (exists evs, trace w1 = trace w ++ evs /\ servo_writes evs = O) /\
  (forall fs, fixed = Some fs ->
     available = true /\
     fs = FixedServoInit.mkServoKitWithMux 1 (cfg_servo_channel cfg) 0x70).
Proof.
  unfold TiltSetup.init_fixed. destruct available.
  2:{ split; [exists []; cbn; now rewrite app_nil_r | discriminate]. }
  pose proof (fixed_init_trace 1 (cfg_servo_channel cfg) w) as Ht.
  assert (Hv : forall fs w',
            FixedServoSetup.initialize_servo_with_mux 1 (cfg_servo_channel cfg) w
              = Done (Some fs) w' ->
            fs = FixedServoInit.mkServoKitWithMux 1 (cfg_servo_channel cfg) 0x70).
  { intros fs w'. unfold FixedServoSetup.initialize_servo_with_mux.
    cbn [shl1 Z.ltb Z.compare].
    repeat match goal with
           | |- context [let (_, _) := ?op in _] => destruct op as [[] ?]
           end; try discriminate.
    intros H. injection H as <- _. reflexivity. }
  destruct (FixedServoSetup.initialize_servo_with_mux 1 (cfg_servo_channel cfg) w)
    as [[fs|] w'|e w']; cbn [final] in Ht; (split; [exact Ht|]); try discriminate.
  intros fs' H. injection H as <-. split; [reflexivity | now apply (Hv fs w')].
Qed.

Lemma mux_aware_configure_trace (ms : MuxAwareServo.MuxAwareServoKit) (servo_num : Z)
    (w : World) :
  exists evs,
    trace (final (MuxAwareLifecycle.configure_servo ms servo_num w)) = trace w ++ evs /\
    servo_writes evs = O.
Proof.
  unfold MuxAwareLifecycle.configure_servo, MuxAwareServo.mux_channel_selected,
    MuxAwareServo.return_to_oled.
  destruct (negb (MuxAwareServo.kit ms)).
  { exists []. cbn. now rewrite app_nil_r. }
  destruct (MuxAwareServo.mux_bus ms).
  2:{ exists []. cbn. now rewrite app_nil_r. }
  destruct (shl1 (MuxAwareServo.mux_channel ms)) as [mask|];
    unfold bus_write_byte, servo_configure, untraced, sleep;
    cbn [fst snd trace script mux_reg];
    no_servo_write_run.
Qed.

Lemma init_mux_aware_shape (cfg : Config) (available : bool)
    (fixed : option FixedServoInit.ServoKitWithMux) (w : World) :
  let (muxed, w1) := TiltSetup.init_mux_aware cfg available fixed w in
  (exists evs, trace w1 = trace w ++ evs /\ servo_writes evs = O) /\
  (forall ms, muxed = Some ms ->
     fixed = None /\ available = true /\
     ms = MuxAwareServo.mkMuxAwareServoKit 1 0x70 true true).
Proof.
  unfold TiltSetup.init_mux_aware.
  assert (Hnil : exists evs : list io_event, trace w = trace w ++ evs /\ servo_writes evs = O)
    by (exists []; cbn; now rewrite app_nil_r).
  destruct fixed as [fs|]; [split; [exact Hnil | discriminate]|].
  destruct available; [|split; [exact Hnil | discriminate]].
  unfold MuxAwareLifecycle.initialize.
  pose proof (mux_aware_attempts_spec (Z.to_nat 5) (MuxAwareLifecycle.new 1 0x70) w) as Ha.
  destruct (MuxAwareLifecycle.attempts (Z.to_nat 5) (MuxAwareLifecycle.new 1 0x70) w)
    as [[ok ms] w1].
  destruct Ha as (evs & T & _ & S & Hc & Ha & Hok & _).
  destruct ok; [|split; [eauto | discriminate]].
  destruct (Hok eq_refl) as (Hk & Hb & _).
  destruct (mux_aware_configure_trace ms (cfg_servo_channel cfg) w1) as (evs2 & T2 & S2).
  assert (Hall : exists evs0, trace (final (MuxAwareLifecycle.configure_servo ms
                                         (cfg_servo_channel cfg) w1))
                              = trace w ++ evs0 /\ servo_writes evs0 = O).
  { exists (evs ++ evs2). rewrite T2, T, <- app_assoc, servo_writes_app, S, S2. auto. }
  destruct (MuxAwareLifecycle.configure_servo ms (cfg_servo_channel cfg) w1)
    as [b w2|e w2]; cbn [final] in Hall; (split; [exact Hall|]); [|discriminate].
  intros ms' H. injection H as <-. repeat split.
  destruct ms as [c a k b']. cbn in Hc, Ha, Hk, Hb. now subst.
Qed.

Lemma init_direct_trace (remaining : nat) :
  forall (kit : bool) (servo_channel : Z) (w : World),
    exists evs,
      trace (TiltSetup.init_direct remaining kit servo_channel w).2 = trace w ++ evs /\
      servo_writes evs = O.
Proof.
  induction remaining as [|k IH]; intros kit servo_channel w.
  - exists []. cbn. now rewrite app_nil_r.
  - cbn [TiltSetup.init_direct]. unfold servokit_init, servo_configure, untraced.
    cbn [fst snd].
    set (w1 := mkWorld _ _ _).
    assert (T1 : trace w1 = trace w) by reflexivity. clearbody w1.
    set (r := if outcome w then _ else _).
    assert (Tr : trace r.2 = trace w) by (unfold r; destruct (outcome w); exact T1).
    destruct r as [ok w2]. cbn [snd] in Tr.
    destruct ok.
    { exists []. cbn [snd]. now rewrite app_nil_r. }
    destruct k as [|k'].
    { exists []. cbn [snd]. now rewrite app_nil_r. }
    destruct (IH (if outcome w then true else kit) servo_channel (sleep (1 # 2) w2))
      as (evs & T & S).
    exists ([Sleep (1 # 2)] ++ evs).
    split; [rewrite T; cbn; rewrite Tr, <- app_assoc; reflexivity|].
    rewrite servo_writes_app, S. reflexivity.
Qed.

(** The initial positioning: one servo write through whichever wrapper
    exists, none without any; only the mux-aware wrapper lets an exception
    out, before its servo write. *)
Lemma tilt_move_servo_trace (self : ScreenTilt.Controller) (w : World) :
  (forall ms, ScreenTilt.mux_servo self = Some ms ->
     ms = MuxAwareServo.mkMuxAwareServoKit 1 0x70 true true) ->
  exists evs,
    trace (final (ScreenTilt.move_servo self w)) = trace w ++ evs /\
    match ScreenTilt.move_servo self w with
    | Done _ _ =>
        servo_writes evs =
          match ScreenTilt.fixed_servo self, ScreenTilt.mux_servo self, ScreenTilt.kit self with
          | None, None, false => O
          | _, _, _ => 1%nat
          end
    | Raised e _ =>
        servo_writes evs = O /\ e = OSError /\
        ScreenTilt.fixed_servo self = None /\ ScreenTilt.mux_servo self <> None
    end.
Proof.
  intros Hms. unfold ScreenTilt.move_servo.
  destruct (ScreenTilt.fixed_servo self) as [fs|].
  { unfold FixedServoInit.set_angle, FixedServoInit.ensure_mux_channel,
      FixedServoInit.return_to_oled.
    destruct (shl1 (FixedServoInit.mux_channel fs)) as [mask|];
      unfold bus_write_byte, servo_write, sleep;
      cbn [fst snd trace script mux_reg final];
      repeat match goal with
             | |- context [if outcome ?x then _ else _] => destruct (outcome x)
             end;
      cbn [fst snd trace];
      (eexists; split; [rewrite <- ?app_assoc; reflexivity | reflexivity]). }
  destruct (ScreenTilt.mux_servo self) as [ms|].
  { rewrite (Hms ms eq_refl).
    unfold MuxAwareServo.set_servo_angle, MuxAwareServo.mux_channel_selected,
      MuxAwareServo.return_to_oled.
    cbn [MuxAwareServo.kit MuxAwareServo.mux_bus MuxAwareServo.mux_channel
         MuxAwareServo.mux_address negb shl1 Z.ltb Z.compare].
    unfold bus_write_byte, servo_write, sleep.
    cbn [fst snd trace script mux_reg].
    repeat match goal with
           | |- context [if outcome ?x then _ else _] => destruct (outcome x)
           end;
      cbn [fst snd trace final];
      (eexists; split; [rewrite <- ?app_assoc; reflexivity|]);
      cbn; repeat split; auto; discriminate. }
  destruct (ScreenTilt.kit self).
  - unfold servo_write. cbn [fst snd final trace]. eexists. split; reflexivity.
  - exists []. cbn. now rewrite app_nil_r.
Qed.

(** X20.  Lines 50 to 147 of the constructor of the tilt controller, the
    configuration and the state being loaded.  A constructed controller
    never holds both a fixed and a mux-aware wrapper; a mux-aware wrapper
    comes with no direct kit, on channel 1 of the multiplexer at 0x70, with
    its kit and its bus in place; each wrapper needs its module.  The
    servo is written exactly once, for the initial position, when some way
    to reach it was found and never otherwise.  An exception leaves these
    lines only from the construction of an encoder pin or from the failed
    channel select of the mux-aware wrapper at the initial positioning, in
    both cases before any servo write. *)
Theorem tilt_construct_servo_paths :
  forall (cfg : Config) (state : PersistedState)
         (fixed_available mux_aware_available clk_state : bool) (w : World),
    let r := TiltSetup.init_from_line_50 cfg state fixed_available mux_aware_available
               clk_state w in
    let evs := new_events w (TiltSetup.final_world r) in
    match r with
    | TiltSetup.Constructed self _ =>
        (ScreenTilt.fixed_servo self = None \/ ScreenTilt.mux_servo self = None) /\
        (forall fs, ScreenTilt.fixed_servo self = Some fs ->
           fixed_available = true /\
           fs = FixedServoInit.mkServoKitWithMux 1 (cfg_servo_channel cfg) 0x70) /\
        (forall ms, ScreenTilt.mux_servo self = Some ms ->
           mux_aware_available = true /\ ScreenTilt.kit self = false /\
           ms = MuxAwareServo.mkMuxAwareServoKit 1 0x70 true true) /\
        servo_writes evs =
          match ScreenTilt.fixed_servo self, ScreenTilt.mux_servo self, ScreenTilt.kit self with
          | None, None, false => O
          | _, _, _ => 1%nat
          end
    | TiltSetup.GpioFailed _ => servo_writes evs = O
    | TiltSetup.PositioningRaised e self _ =>
        e = OSError /\ mux_aware_available = true /\
        ScreenTilt.fixed_servo self = None /\ ScreenTilt.mux_servo self <> None /\
        servo_writes evs = O
    end.
Proof.
  intros cfg state fa ma clk w. cbv zeta. unfold TiltSetup.init_from_line_50.
  pose proof (init_fixed_shape cfg fa w) as H1.
  destruct (TiltSetup.init_fixed cfg fa w) as [fixed w1].
  destruct H1 as [(e1 & T1 & S1) Hf].
  pose proof (init_mux_aware_shape cfg ma fixed w1) as H2.
  destruct (TiltSetup.init_mux_aware cfg ma fixed w1) as [muxed w2].
  destruct H2 as [(e2 & T2 & S2) Hm].
  set (d := match muxed with
            | Some _ => (false, w2)
            | None => TiltSetup.init_direct 3 false (cfg_servo_channel cfg) w2
            end).
  assert (Hd : (exists evs, trace d.2 = trace w2 ++ evs /\ servo_writes evs = O) /\
               (muxed <> None -> d.1 = false)).
  { unfold d. destruct muxed.
    - split; [exists []; cbn; now rewrite app_nil_r | reflexivity].
    - split; [apply init_direct_trace | congruence]. }
  destruct d as [direct w3]. cbn [fst snd] in Hd. destruct Hd as [(e3 & T3 & S3) Hk].
  assert (T123 : trace w3 = trace w ++ (e1 ++ e2 ++ e3))
    by (rewrite T3, T2, T1, <- !app_assoc; reflexivity).
  assert (S123 : servo_writes (e1 ++ e2 ++ e3) = O)
    by (rewrite !servo_writes_app, S1, S2, S3; reflexivity).
  unfold untraced. cbn [fst snd].
  destruct (outcome w3).
  2:{ cbn [TiltSetup.final_world].
      erewrite new_events_app by (cbn [trace]; exact T123). exact S123. }
  set (w4 := mkWorld _ _ _).
  assert (T4 : trace w4 = trace w ++ (e1 ++ e2 ++ e3)) by exact T123. clearbody w4.
  destruct (outcome w4).
  2:{ cbn [TiltSetup.final_world].
      erewrite new_events_app by (cbn [trace]; exact T4). exact S123. }
  set (w5 := mkWorld _ _ _).
  assert (T5 : trace w5 = trace w ++ (e1 ++ e2 ++ e3)) by exact T4. clearbody w5.
  destruct (outcome w5).
  2:{ cbn [TiltSetup.final_world].
      erewrite new_events_app by (cbn [trace]; exact T5). exact S123. }
  set (w6 := mkWorld _ _ _).
  assert (T6 : trace w6 = trace w ++ (e1 ++ e2 ++ e3)) by exact T5. clearbody w6.
  set (self := ScreenTilt.seed cfg state fixed muxed direct clk).
  assert (Hms : forall ms, ScreenTilt.mux_servo self = Some ms ->
                  ms = MuxAwareServo.mkMuxAwareServoKit 1 0x70 true true).
  { intros ms H. now destruct (Hm ms H) as (_ & _ & ->). }
  destruct (tilt_move_servo_trace self w6 Hms) as (e4 & T4' & M).
  assert (Hev : new_events w (final (ScreenTilt.move_servo self w6))
                = (e1 ++ e2 ++ e3) ++ e4).
  { apply new_events_app. rewrite T4', T6, <- !app_assoc. reflexivity. }
  assert (Hsw : servo_writes ((e1 ++ e2 ++ e3) ++ e4) = servo_writes e4).
  { rewrite servo_writes_app, S123. reflexivity. }
  destruct (ScreenTilt.move_servo self w6) as [[] w7|e w7];
    cbn [final TiltSetup.final_world] in Hev |- *.
  - rewrite Hev, Hsw, M. cbn [self ScreenTilt.seed ScreenTilt.fixed_servo
      ScreenTilt.mux_servo ScreenTilt.kit].
    split.
    { destruct muxed as [ms|]; [left|now right]. now destruct (Hm ms eq_refl). }
    split; [exact Hf|]. split; [|reflexivity].
    intros ms H. destruct (Hm ms H) as (_ & Ha & Hv).
    repeat split; auto. apply Hk. congruence.
  - destruct M as (S4 & -> & Hfx & Hne). rewrite Hev, Hsw, S4.
    split; [reflexivity|]. split.
    { cbn [self ScreenTilt.seed ScreenTilt.mux_servo] in Hne.
      destruct muxed as [ms|]; [|congruence]. now destruct (Hm ms eq_refl) as (_ & -> & _). }
    split; [exact Hfx|]. split; [exact Hne | reflexivity].
Qed.

(* ===================================================================== *)
(** * Running without a device *)
(* ===================================================================== *)

(** X21.  A [ResilientMuxOLED] constructed while the multiplexer did not
    answer the probe never selects a channel afterwards, whatever the bus
    does later; a frame that fails is then pushed a second time, and only
    a second failure leaves [display]. *)
Theorem resilient_without_multiplexer :
  forall (mux_addr mux_channel : Z) (recovery_interval t : Q) (w : World),
    outcome w = false ->
    let (self, w1) := ResilientOps.new mux_addr mux_channel recovery_interval t w in
    new_events w w1 = [] /\
    forall (t1 t2 : Q) (w2 : World),
      let r := ResilientOps.display self t1 t2 w2 in
      let evs := new_events w2 (final r).2 in
      mux_attempts evs = O /\
      frames evs = (if outcome w2 then 1%nat else 2%nat) /\
      (forall e s, r = Raised e s -> evs = [OledDisplay false; OledDisplay false]).
Proof.
  intros mux_addr mux_channel recovery_interval t w Hw.
  unfold ResilientOps.new, ResilientOps._check_mux, bus_read_byte, untraced.
  rewrite Hw. split.
  { apply new_events_app. cbn. now rewrite app_nil_r. }
  intros t1 t2 w2. cbv zeta.
  unfold ResilientOps.display, ResilientOps._with_channel, ResilientOLED._ensure_channel.
  cbn [ResilientOps.set_operation_count ResilientOLED.mux_available negb].
  unfold oled_display. cbn [fst snd].
  destruct (outcome w2).
  - cbn [final snd trace]. rewrite (new_events_app w2 _ [OledDisplay true]) by reflexivity.
    cbn. repeat split; auto. intros e s H. discriminate.
  - cbn [trace script mux_reg].
    match goal with |- context [if outcome ?x then _ else _] => destruct (outcome x) end;
      cbn [final snd trace].
    + rewrite (new_events_app w2 _ [OledDisplay false; OledDisplay true])
        by now rewrite <- app_assoc.
      cbn. repeat split; auto. intros e s H. discriminate.
    + rewrite (new_events_app w2 _ [OledDisplay false; OledDisplay false])
        by now rewrite <- app_assoc.
      cbn. repeat split; auto.
Qed.

(** X21, witness: the probe fails at construction; later a first frame
    fails and the second goes through. *)
Lemma resilient_without_multiplexer_witness :
  let self := (ResilientOps.new 0x70 0 (1 # 2) (100 # 1) (mkWorld None [false] [])).1 in
  let w2 := mkWorld None [false; true] [] in
  ResilientOLED.mux_available self = false /\
  mux_attempts (new_events w2 (final (ResilientOps.display self (101 # 1) (101 # 1) w2)).2)
    = O.
Proof.
  split; [reflexivity|].
  exact (proj1 (proj2 (resilient_without_multiplexer 0x70 0 (1 # 2) (100 # 1)
                         (mkWorld None [false] []) eq_refl)
                  (101 # 1) (101 # 1) (mkWorld None [false; true] []))).
Defined.

Lemma tilt_update_servo_simulated (self : ScreenTilt.Controller) (w : World) :
  ScreenTilt.fixed_servo self = None ->
  ScreenTilt.mux_servo self = None ->
  ScreenTilt.kit self = false ->
  (final (ScreenTilt.update_servo self w)).2 = w.
Proof.
  intros Hf Hm Hk. unfold ScreenTilt.update_servo.
  destruct (ScreenTilt.mode_sensitivity self) as [e|s]; [reflexivity|].
  destruct (ScreenTilt.apply_limits self _) as [e|a]; [reflexivity|].
  destruct (py_ne a (ScreenTilt.current_angle self)); [|reflexivity].
  unfold ScreenTilt.move_servo. cbn [ScreenTilt.set_current_angle ScreenTilt.fixed_servo
    ScreenTilt.mux_servo ScreenTilt.kit].
  rewrite Hf, Hm, Hk. reflexivity.
Qed.

Lemma tilt_update_servo_wrappers (self : ScreenTilt.Controller) (w : World) :
  let self' := (final (ScreenTilt.update_servo self w)).1 in
  ScreenTilt.fixed_servo self' = ScreenTilt.fixed_servo self /\
  ScreenTilt.mux_servo self' = ScreenTilt.mux_servo self /\
  ScreenTilt.kit self' = ScreenTilt.kit self.
Proof.
  destruct (tilt_update_servo_shape self w) as (a & [-> | ->]); cbn; auto.
Qed.

(** X22.  The tilt controller in simulation mode (no wrapper and no kit):
    polling the encoder over any run of samples, and a single click, leave
    the hardware untouched (no operation is even attempted), and the
    controller stays in simulation mode. *)
Theorem tilt_simulation_touches_nothing :
  forall (samples : list (bool * bool)) (self : ScreenTilt.Controller) (w : World),
    ScreenTilt.fixed_servo self = None ->
    ScreenTilt.mux_servo self = None ->
    ScreenTilt.kit self = false ->
    let r := tilt_poll self samples w in
    (final r).2 = w /\
    ScreenTilt.fixed_servo (final r).1 = None /\
    ScreenTilt.mux_servo (final r).1 = None /\
    ScreenTilt.kit (final r).1 = false /\
    (final (ScreenTilt._handle_single_click (final r).1 w)).2 = w.
Proof.
  induction samples as [|[c d] rest IH]; intros self w Hf Hm Hk; cbv zeta.
  - cbn [tilt_poll final fst snd]. repeat split; auto.
    unfold ScreenTilt._handle_single_click. now apply tilt_update_servo_simulated.
  - cbn [tilt_poll]. unfold ScreenTilt.check_encoder.
    destruct (negb (Bool.eqb c (ScreenTilt.last_clk_state self)) && Bool.eqb c false).
    2:{ apply (IH (ScreenTilt.set_last_clk_state self c) w); assumption. }
    set (self1 := if negb (Bool.eqb d c)
                  then ScreenTilt.set_encoder_pos self (ScreenTilt.encoder_pos self + 1)
                  else ScreenTilt.set_encoder_pos self (ScreenTilt.encoder_pos self - 1)).
    assert (H1 : ScreenTilt.fixed_servo self1 = None /\ ScreenTilt.mux_servo self1 = None /\
                 ScreenTilt.kit self1 = false)
      by (unfold self1; destruct (negb (Bool.eqb d c)); cbn; auto).
    destruct H1 as (Hf1 & Hm1 & Hk1). clearbody self1.
    pose proof (tilt_update_servo_simulated self1 w Hf1 Hm1 Hk1) as Hw.
    destruct (tilt_update_servo_wrappers self1 w) as (Hf2 & Hm2 & Hk2).
    destruct (ScreenTilt.update_servo self1 w) as [[] [self2 w2]|e [self2 w2]];
      cbn [final fst snd] in Hw, Hf2, Hm2, Hk2 |- *; subst w2.
    + apply (IH (ScreenTilt.set_last_clk_state self2 c) w); cbn; congruence.
    + repeat split; try congruence.
      unfold ScreenTilt._handle_single_click.
      apply tilt_update_servo_simulated; cbn; congruence.
Qed.

(** X22, witness: a controller seeded without any servo, one step
    clockwise. *)
Lemma tilt_simulation_touches_nothing_witness :
  let self := ScreenTilt.seed ScreenTilt.default_config (mkPersisted None None)
                None None false true in
  let w := mkWorld (Some 1) [false] [] in
  (final (tilt_poll self [(false, true)] w)).2 = w.
Proof.
  exact (proj1 (tilt_simulation_touches_nothing [(false, true)]
                  (ScreenTilt.seed ScreenTilt.default_config (mkPersisted None None)
                     None None false true)
                  (mkWorld (Some 1) [false] []) eq_refl eq_refl eq_refl)).
Defined.

(** A switch of the unified controller does nothing but select and wait. *)
Lemma switch_selects_only (self : Unified.Controller) (channel : Z) (w : World) :
  let '(ok, self', w') := Unified.switch_mux_channel self channel w in
  exists evs,
    trace w' = trace w ++ evs /\
    Forall (fun e => is_mux_write e = true \/ exists s, e = Sleep s) evs.
Proof.
  unfold Unified.switch_mux_channel.
  assert (Hnil : exists evs : list io_event, trace w = trace w ++ evs /\
            Forall (fun e => is_mux_write e = true \/ exists s, e = Sleep s) evs)
    by (exists []; rewrite app_nil_r; split; [reflexivity | constructor]).
  destruct (negb (Unified.mux_bus self)); [exact Hnil|].
  destruct (Unified.on_channel self channel); [exact Hnil|].
  destruct (shl1 channel) as [mask|]; [|exact Hnil].
  unfold bus_write_byte. cbn [fst snd]. destruct (outcome w).
  - exists [MuxWrite Unified.MUX_ADDRESS mask true; Sleep (2 # 1000)].
    split; [cbn; now rewrite <- app_assoc|].
    constructor; [now left|]. constructor; [right; eauto | constructor].
  - exists [MuxWrite Unified.MUX_ADDRESS mask false].
    split; [reflexivity|]. constructor; [now left | constructor].
Qed.

(** X23.  [shutdown] of the unified controller saves the state first and
    once, with the angle and the mode the controller holds, which it keeps.
    Without a display nothing follows.  With one, the display channel is
    asked for, by at most one channel select, and the display is then
    cleared whether or not that select succeeded; the clear is the last
    event.  No servo is written and the stop flag ends cleared. *)
Theorem shutdown_saves_then_clears :
  forall (d : UnifiedLifecycle.Deck) (w : World),
    let c := UnifiedLifecycle.ctl d in
    let '(d', w') := UnifiedLifecycle.shutdown d w in
    UnifiedLifecycle.running d' = false /\
    Unified.current_angle (UnifiedLifecycle.ctl d') = Unified.current_angle c /\
    Unified.mode (UnifiedLifecycle.ctl d') = Unified.mode c /\
    exists selects clear,
      new_events w w' =
        SaveState (Unified.current_angle c) (Unified.mode c) (outcome w)
        :: selects ++ clear /\
      Forall (fun e => is_mux_write e = true \/ exists s, e = Sleep s) selects /\
      (mux_attempts selects <= 1)%nat /\
      if UnifiedLifecycle.oled_device d
      then exists ok, clear = [OledDisplay ok]
      else selects = [] /\ clear = [].
Proof.
  intros d w. cbv zeta.
  unfold UnifiedLifecycle.shutdown, Unified.save_state, write_state_file.
  cbn [fst snd UnifiedLifecycle.ctl UnifiedLifecycle.oled_device].
  set (w1 := mkWorld _ _ _).
  assert (T1 : trace w1 = trace w ++ [SaveState (Unified.current_angle (UnifiedLifecycle.ctl d))
                                        (Unified.mode (UnifiedLifecycle.ctl d)) (outcome w)])
    by reflexivity.
  clearbody w1.
  destruct (UnifiedLifecycle.oled_device d).
  2:{ cbn [UnifiedLifecycle.set_ctl UnifiedLifecycle.ctl UnifiedLifecycle.running].
      repeat split. exists [], [].
      rewrite (new_events_app w w1 _ T1). cbn. repeat split; auto. }
  pose proof (switch_trace (UnifiedLifecycle.ctl d) Unified.OLED_CHANNEL w1) as Hs.
  pose proof (switch_frame (UnifiedLifecycle.ctl d) Unified.OLED_CHANNEL w1) as Hf.
  pose proof (switch_selects_only (UnifiedLifecycle.ctl d) Unified.OLED_CHANNEL w1) as He.
  destruct (Unified.switch_mux_channel (UnifiedLifecycle.ctl d) Unified.OLED_CHANNEL w1)
    as [[ok c2] w2].
  destruct Hs as (evs & T2 & A2 & _).
  cbn [UnifiedLifecycle.set_ctl UnifiedLifecycle.ctl UnifiedLifecycle.running].
  assert (Hsame : Unified.current_angle c2 = Unified.current_angle (UnifiedLifecycle.ctl d) /\
                  Unified.mode c2 = Unified.mode (UnifiedLifecycle.ctl d))
    by (destruct Hf as [->|[_ ->]]; cbn; auto).
  destruct Hsame as [Ha Hm].
  split; [reflexivity|]. split; [exact Ha|]. split; [exact Hm|].
  exists evs, [OledDisplay (outcome w2)].
  unfold oled_clear, oled_display. cbn [snd].
  split.
  { apply new_events_app. cbn [trace]. rewrite T2, T1, <- !app_assoc. reflexivity. }
  split.
  { destruct He as (evs' & T2' & Hshape).
    assert (evs' = evs) by (rewrite T2 in T2'; now apply app_inv_head in T2').
    subst evs'. exact Hshape. }
  split; [exact A2|]. eauto.
Qed.

(* ===================================================================== *)
(** * The start-up script of the tilt controller *)
(* ===================================================================== *)

Lemma tilt_save_state_spec (self : ScreenTilt.Controller) (w : World) :
  ScreenTilt.save_state self w =
    let w' := mkWorld (mux_reg w) (consume w)
                (trace w ++ [SaveState (ScreenTilt.current_angle self)
                               (ScreenTilt.mode self) (outcome w)]) in
    if outcome w then Done tt (self, w') else Raised OSError (self, w').
Proof.
  unfold ScreenTilt.save_state, write_state_file. cbn [fst snd].
  destruct (outcome w); reflexivity.
Qed.

(** X24.  However the loop of [screen-tilt.py] ends, the state the
    controller then holds is saved at least twice in a row: twice after an
    exception of [check_encoder] and twice after a signal, and a third time
    when the save in the signal handler fails.  [sys.exit(0)] ends the
    script only after a signal and two completed saves; [main] returns
    only after an exception, of the loop or of the save in the handler,
    followed by two completed saves; in every other case an exception
    leaves [main].  So the process ends with status 0 exactly when the
    last two saves completed. *)
Theorem startup_saves_twice :
  forall (self : ScreenTilt.Controller) (samples : list (bool * bool)) (w : World),
    let r := tilt_poll self samples w in
    let save := SaveState (ScreenTilt.current_angle (final r).1)
                  (ScreenTilt.mode (final r).1) in
    let (e, w') := TiltStartup.main self samples w in
    exists oks,
      new_events (final r).2 w' = map save oks /\
      match r, oks with
      | Done _ _, [true; ok2] =>
          e = if ok2 then TiltStartup.Exited else TiltStartup.Failed OSError
      | Done _ _, [false; ok2; ok3] =>
          e = if ok2 && ok3 then TiltStartup.Returned else TiltStartup.Failed OSError
      | Raised _ _, [ok1; ok2] =>
          e = if ok1 && ok2 then TiltStartup.Returned else TiltStartup.Failed OSError
      | _, _ => False
      end /\
      (TiltStartup.exit_status e = 0 <->
       forallb id (skipn (length oks - 2) oks) = true).
Proof.
  intros self samples w. cbv zeta. unfold TiltStartup.main, TiltStartup.on_error.
  assert (Hev : forall (w1 w' : World) (evs : list io_event),
            trace w' = trace w1 ++ evs -> new_events w1 w' = evs)
    by (intros; now apply new_events_app).
  destruct (tilt_poll self samples w) as [[] [s w1]|e0 [s w1]]; cbn [final fst snd].
  - rewrite tilt_save_state_spec. cbv zeta. destruct (outcome w1).
    + rewrite tilt_save_state_spec. cbv zeta.
      match goal with |- context [if outcome ?x then _ else _] => destruct (outcome x) end.
      * exists [true; true].
        split; [apply Hev; cbn; now rewrite <- app_assoc | now split].
      * exists [true; false].
        split; [apply Hev; cbn; now rewrite <- app_assoc | split; [reflexivity|]].
        cbn. split; discriminate.
    + rewrite tilt_save_state_spec. cbv zeta.
      match goal with |- context [if outcome ?x then _ else _] => destruct (outcome x) end;
        rewrite tilt_save_state_spec; cbv zeta;
        match goal with |- context [if outcome ?x then _ else _] => destruct (outcome x) end;
        (eexists [false; _; _]; split;
         [apply Hev; cbn; rewrite <- !app_assoc; reflexivity
         | split; [reflexivity | cbn; split; (reflexivity || discriminate)]]).
  - rewrite tilt_save_state_spec. cbv zeta.
    destruct (outcome w1);
      rewrite tilt_save_state_spec; cbv zeta;
      match goal with |- context [if outcome ?x then _ else _] => destruct (outcome x) end;
      (eexists [_; _]; split;
       [apply Hev; cbn; rewrite <- !app_assoc; reflexivity
       | split; [reflexivity | cbn; split; (reflexivity || discriminate)]]).
Qed.
